(** * Chat orchestration and violation analysis of the aws-ai backend

    A shallow embedding of the chat service ([ChatService]), the analysis
    service ([AnalysisService]), the three adapters they call
    ([DynamoDBService], [BedrockClient], [OpenSearchClient]), the logger,
    the identifier generator ([generateId]) and the string utilities, and of
    the HTTP layer above the services: the response builders, request
    validation, the analysis handler and the chat handler.

    Conventions of the embedding.

    - An [async] method is a computation in the monad [M]: it takes the
      state of the outside world (the tables, the search index, the log)
      and returns either the thrown exception or the value, with the new
      state.  Effects made before a [throw] stay.
    - What the managed services answer is not decided by the program.  Each
      call of an adapter therefore takes the outcome of the underlying SDK
      call as an argument ([fault : option Exn] for a call that returns
      nothing of interest, [Exn + A] for one that returns data); a service
      method takes a record with one outcome per call site
      ([SendMessageEnv], ...).  A store call that faults has no effect; one
      that does not fault has the effect DynamoDB documents for the
      request that the adapter sends, which for an update and for a query
      is not the request that the caller wrote (see [DynamoDBService]).
    - [new Date().toISOString()] and [Date.now()] both read the wall clock.
      A timestamp is kept as the integer number of milliseconds (a [Z]); the
      fixed-width ISO rendering orders as the integers do.
    - Numbers that are counts or times are [Z], scores are [Q].
    - A string holds the UTF-8 bytes of a text.  Where the program measures
      or cuts a text ([length], [substring]) it does so in UTF-16 code
      units: [js_substring0] counts them over the bytes, and the two
      utilities that measure their whole argument, [truncate] and
      [maskEmail], are embedded on the code units themselves. *)

From Stdlib Require Import ZArith QArith Ascii String List Lia.
From stdpp Require Import gmap strings list fin_maps sorting.

Local Open Scope string_scope.
Local Open Scope Z_scope.
Local Open Scope list_scope.

(** ** Exceptions *)

(** [JsError name message] is a plain [Error] object (the wrappers thrown by
    the adapters, the errors of the SDKs, [TypeError], [SyntaxError]).
    [AppError] is the class of that name; [NotFoundError] is its subclass,
    whose code is [ERROR_CODES.NOT_FOUND] and whose status is 404. *)
Inductive Exn : Type :=
| JsError (name message : string)
| AppError (code message : string) (statusCode : Z)
| NotFoundError (message : string).

Definition exn_name (e : Exn) : string :=
  match e with
  | JsError n _ => n
  | AppError _ _ _ => "AppError"
  | NotFoundError _ => "AppError"
  end.

Definition exn_message (e : Exn) : string :=
  match e with
  | JsError _ m => m
  | AppError _ m _ => m
  | NotFoundError m => m
  end.

(** [`${error}`], that is [Error.prototype.toString]. *)
Definition exn_to_string (e : Exn) : string :=
  if decide (exn_name e = "") then exn_message e
  else if decide (exn_message e = "") then exn_name e
  else exn_name e +:+ ": " +:+ exn_message e.

(** [new Error(message)] *)
Definition new_Error (message : string) : Exn := JsError "Error" message.

(** [new NotFoundError(resource, identifier)] *)
Definition new_NotFoundError (resource identifier : string) : Exn :=
  NotFoundError
    (if decide (identifier = "") then resource +:+ " not found"
     else resource +:+ " with identifier '" +:+ identifier +:+ "' not found").

(** ** Data model *)

Definition Timestamp := Z.
Definition Embedding := list Q.
Definition Metadata := list (string * string).

Inductive Role : Type := user | assistant.

#[global] Instance Role_eq_dec : EqDecision Role.
Proof. solve_decision. Defined.

Record ChatSession : Type := mkChatSession {
  cs_id : string;
  cs_userId : string;
  cs_title : string;
  cs_createdAt : Timestamp;
  cs_updatedAt : Timestamp;
  cs_isActive : bool;
  cs_metadata : option Metadata
}.

Record SourceRef : Type := mkSourceRef {
  src_id : string;
  src_title : string;
  src_excerpt : string;
  src_relevance : Q;
  src_source : string
}.

Record MessageMetadata : Type := mkMessageMetadata {
  mm_tokensUsed : option Z;
  mm_processingTime : option Z;
  mm_sources : option (list SourceRef)
}.

Record ChatMessage : Type := mkChatMessage {
  cm_id : string;
  cm_sessionId : string;
  cm_role : Role;
  cm_content : string;
  cm_timestamp : Timestamp;
  cm_metadata : option MessageMetadata
}.

(** What the chat-messages table keeps of a message besides its primary
    key: the two key attributes, [sessionId] (HASH) and [timestamp]
    (RANGE), are the key of the table. *)
Record MessageAttrs : Type := mkMessageAttrs {
  ma_id : string;
  ma_role : Role;
  ma_content : string;
  ma_metadata : option MessageMetadata
}.

Definition MessageKey : Type := string * Timestamp.

Definition key_of_message (m : ChatMessage) : MessageKey :=
  (cm_sessionId m, cm_timestamp m).

Definition attrs_of_message (m : ChatMessage) : MessageAttrs :=
  mkMessageAttrs (cm_id m) (cm_role m) (cm_content m) (cm_metadata m).

Definition message_of_item (kv : MessageKey * MessageAttrs) : ChatMessage :=
  mkChatMessage (ma_id kv.2) kv.1.1 (ma_role kv.2) (ma_content kv.2) kv.1.2
                (ma_metadata kv.2).

Record ResponseMetadata : Type := mkResponseMetadata {
  rm_tokensUsed : Z;
  rm_processingTime : Z;
  rm_confidence : Q
}.

Record ChatResponse : Type := mkChatResponse {
  cr_message : string;
  cr_sessionId : string;
  cr_sources : option (list SourceRef);
  cr_metadata : option ResponseMetadata
}.

Record PaginationOptions : Type := mkPaginationOptions {
  po_limit : option Z;
  po_lastEvaluatedKey : option Timestamp
}.

Definition no_options : PaginationOptions := mkPaginationOptions None None.

Record PaginatedResult (T : Type) : Type := mkPaginatedResult {
  items : list T;
  lastEvaluatedKey : option Timestamp;
  count : Z
}.
Arguments mkPaginatedResult {T}.
Arguments items {T}.
Arguments lastEvaluatedKey {T}.
Arguments count {T}.

(** ** JSON values, as [JSON.parse] builds them *)

#[warnings="-register-all"]
Inductive JSON : Type :=
| JNull
| JBool (b : bool)
| JNum (lexeme : string)
| JStr (s : string)
| JArr (elements : list JSON)
| JObj (members : list (string * JSON)).

(** A JavaScript value that may be [undefined]. *)
Definition JSValue := option JSON.

Record AnalysisResponse : Type := mkAnalysisResponse {
  ar_violations : JSValue;
  ar_summary : JSValue;
  ar_riskScore : JSValue;
  ar_recommendations : JSValue;
  ar_processingTime : Z
}.

(** An item of the documents table: only its key is sure to be there. *)
Record DocumentItem : Type := mkDocumentItem {
  doc_title : option string;
  doc_contentType : option string;
  doc_tags : option (list string);
  doc_analysisResult : option AnalysisResponse;
  doc_analysisTimestamp : option Timestamp
}.

(** ** The logger *)

Inductive LogLevel : Type := DEBUG | INFO | WARN | ERROR.

Definition LogLevel_value (l : LogLevel) : Z :=
  match l with DEBUG => 0 | INFO => 1 | WARN => 2 | ERROR => 3 end.

(** What [console.log] receives; the entry's own timestamp and its context
    object are left out. *)
Record LogEntry : Type := mkLogEntry {
  le_level : LogLevel;
  le_message : string;
  le_error : option (string * string)
}.

(** ** The world outside the program *)

Record World : Type := mkWorld {
  chat_sessions : gmap string ChatSession;
  chat_messages : gmap MessageKey MessageAttrs;
  documents : gmap string DocumentItem;
  chat_context : gmap string (ChatMessage * Embedding);
  logger_level : LogLevel;
  console : list LogEntry
}.

Definition set_chat_sessions (f : gmap string ChatSession -> gmap string ChatSession)
    (w : World) : World :=
  mkWorld (f (chat_sessions w)) (chat_messages w) (documents w) (chat_context w)
          (logger_level w) (console w).

Definition set_chat_messages
    (f : gmap MessageKey MessageAttrs -> gmap MessageKey MessageAttrs)
    (w : World) : World :=
  mkWorld (chat_sessions w) (f (chat_messages w)) (documents w) (chat_context w)
          (logger_level w) (console w).

Definition set_documents (f : gmap string DocumentItem -> gmap string DocumentItem)
    (w : World) : World :=
  mkWorld (chat_sessions w) (chat_messages w) (f (documents w)) (chat_context w)
          (logger_level w) (console w).

Definition set_chat_context
    (f : gmap string (ChatMessage * Embedding) -> gmap string (ChatMessage * Embedding))
    (w : World) : World :=
  mkWorld (chat_sessions w) (chat_messages w) (documents w) (f (chat_context w))
          (logger_level w) (console w).

Definition set_console (f : list LogEntry -> list LogEntry) (w : World) : World :=
  mkWorld (chat_sessions w) (chat_messages w) (documents w) (chat_context w)
          (logger_level w) (f (console w)).

(** ** The monad of asynchronous methods *)

Definition M (A : Type) : Type := World -> (Exn + A) * World.

Definition ret {A} (a : A) : M A := fun w => (inr a, w).

Definition throw {A} (e : Exn) : M A := fun w => (inl e, w).

Definition bind {A B} (m : M A) (k : A -> M B) : M B :=
  fun w =>
    match m w with
    | (inr a, w') => k a w'
    | (inl e, w') => (inl e, w')
    end.

(** [try { m } catch (error) { h error }] *)
Definition try_catch {A} (m : M A) (h : Exn -> M A) : M A :=
  fun w =>
    match m w with
    | (inr a, w') => (inr a, w')
    | (inl e, w') => h e w'
    end.

Definition modify (f : World -> World) : M unit := fun w => (inr tt, f w).

Definition gets {A} (f : World -> A) : M A := fun w => (inr (f w), w).

Declare Scope async_scope.
Delimit Scope async_scope with async.
Notation "x <- m ;; k" := (bind m (fun x => k))
  (at level 100, m at next level, right associativity) : async_scope.
Notation "m ;;; k" := (bind m (fun _ => k))
  (at level 100, right associativity) : async_scope.
Local Open Scope async_scope.

Module Logger.

(** What [Logger.log] does to the world: an entry under the configured
    level is dropped, another one is appended to the console. *)
Definition write (level : LogLevel) (message : string) (error : option Exn)
    (w : World) : World :=
  if LogLevel_value level <? LogLevel_value (logger_level w) then w
  else
    let entry :=
      mkLogEntry level message
        (match error with
         | Some e => Some (exn_name e, exn_message e)
         | None => None
         end) in
    set_console (fun c => c ++ [entry]) w.

Definition log (level : LogLevel) (message : string) (error : option Exn) : M unit :=
  modify (write level message error).

Definition debug (message : string) : M unit := log DEBUG message None.
Definition info (message : string) : M unit := log INFO message None.
Definition warn (message : string) : M unit := log WARN message None.
Definition error (message : string) (e : Exn) : M unit := log ERROR message (Some e).
Definition businessEvent (event : string) : M unit :=
  info ("BUSINESS_EVENT: " +:+ event).

End Logger.

(** ** The responses of the HTTP layer *)

(** A code of the error envelope: a field of [ERROR_CODES] (a table
    declared outside the sources at hand) or a string given in the code. *)
Inductive ErrorCode : Type :=
| ERROR_CODES (field : string)
| code_of (code : string).

(** [error instanceof AppError] *)
Definition is_AppError (error : Exn) : bool :=
  match error with
  | JsError _ _ => false
  | AppError _ _ _ => true
  | NotFoundError _ => true
  end.

(** [error.code] and [error.statusCode] of an [AppError]. *)
Definition exn_code (error : Exn) : ErrorCode :=
  match error with
  | AppError code _ _ => code_of code
  | NotFoundError _ => ERROR_CODES "NOT_FOUND"
  | JsError _ _ => ERROR_CODES "INTERNAL_ERROR"
  end.

Definition exn_statusCode (error : Exn) : Z :=
  match error with
  | AppError _ _ statusCode => statusCode
  | NotFoundError _ => 404
  | JsError _ _ => 500
  end.

(** What a handler answers: the status code and, of the body, the
    envelope's [success], [data] or [error.code] and [error.message], and
    [requestId].  The constant headers, the envelope's own timestamp and
    [error.details] are left out. *)
Inductive APIGatewayProxyResult (T : Type) : Type :=
| success_response (statusCode : Z) (data : T) (requestId : string)
| error_response (statusCode : Z) (code : ErrorCode) (message : string)
    (requestId : string).
Arguments success_response {T}.
Arguments error_response {T}.

Definition response_status {T} (r : APIGatewayProxyResult T) : Z :=
  match r with
  | success_response statusCode _ _ => statusCode
  | error_response statusCode _ _ _ => statusCode
  end.

(** [createErrorResponse(error, requestId)] *)
Definition createErrorResponse {T} (error : Exn) (requestId : option string)
    : M (APIGatewayProxyResult T) :=
  let statusCode := if is_AppError error then exn_statusCode error else 500 in
  let code := if is_AppError error then exn_code error else ERROR_CODES "INTERNAL_ERROR" in
  let message := if is_AppError error then exn_message error else "Internal server error" in
  Logger.error "Request failed" error ;;;
  ret (error_response statusCode code message
         (match requestId with
          | Some id => if decide (id = "") then "unknown" else id
          | None => "unknown"
          end)).

(** [createSuccessResponse(data, statusCode, requestId)] *)
Definition createSuccessResponse {T} (data : T) (statusCode : Z)
    (requestId : option string) : APIGatewayProxyResult T :=
  success_response statusCode data
    (match requestId with
     | Some id => if decide (id = "") then "unknown" else id
     | None => "unknown"
     end).

(** [withErrorHandling(handler)] run on an event whose
    [requestContext.requestId] is [requestId]. *)
Definition withErrorHandling {T} (handler : M (APIGatewayProxyResult T))
    (requestId : option string) : M (APIGatewayProxyResult T) :=
  try_catch handler (fun error => createErrorResponse error requestId).

(** ** generateId *)

Definition chars : string :=
  "ABCDEFGHIJKLMNOPQRSTUVWXYZabcdefghijklmnopqrstuvwxyz0123456789".

(** [s.charAt(i)]: the empty string out of range. *)
Definition charAt (s : string) (i : nat) : string :=
  match String.get i s with
  | Some c => String c EmptyString
  | None => ""
  end.

(** The loop of [generateId], from iteration [i] on, [n] iterations left.
    [draws i] is the value of [Math.floor(Math.random() * chars.length)] at
    iteration [i]: [Math.random()] lies in [0, 1), so it is below 62. *)
Fixpoint generateId_loop (draws : nat -> nat) (i n : nat) (result : string) : string :=
  match n with
  | O => result
  | S n' => generateId_loop draws (S i) n' (result +:+ charAt chars (draws i))
  end.

Definition generateId (prefix : string) (length : nat) (draws : nat -> nat) : string :=
  let result := generateId_loop draws 0 length "" in
  if decide (prefix = "") then result else prefix +:+ "_" +:+ result.

(** ** Helpers for the JavaScript operators the services use *)

(** [l.slice(start)] *)
Definition js_slice {A} (start : Z) (l : list A) : list A :=
  let len := Z.of_nat (length l) in
  let from := if start <? 0 then Z.max (len + start) 0 else Z.min start len in
  drop (Z.to_nat from) l.

(** [s || d] for an optional string: [undefined] and [""] are falsy. *)
Definition js_or_string (s : option string) (d : string) : string :=
  match s with
  | Some x => if decide (x = "") then d else x
  | None => d
  end.

(** [n || 0] for an optional number. *)
Definition js_or_zero (n : option Z) : Z :=
  match n with
  | Some x => if x =? 0 then 0 else x
  | None => 0
  end.

(** [`${s}`] for an optional string. *)
Definition js_template (s : option string) : string :=
  match s with
  | Some x => x
  | None => "undefined"
  end.

(** ** String utilities *)

(** The text that [truncate] and [maskEmail] work on, as JavaScript
    measures it: its UTF-16 code units. *)
Definition JsString : Type := list N.

(** The code units of a text of the ASCII range. *)
Definition ascii_units (s : string) : JsString :=
  N_of_ascii <$> list_ascii_of_string s.

(** An index of a string method, clamped to the string: [NaN] aside,
    [substring] takes a negative argument for 0 and one beyond the end for
    the length. *)
Definition clamp (n : Z) (len : nat) : nat :=
  Z.to_nat (Z.min (Z.max n 0) (Z.of_nat len)).

(** [s.substring(start, end)]: the two indices are clamped and put in
    order. *)
Definition js_substring (s : JsString) (start end_ : Z) : JsString :=
  let a := clamp start (List.length s) in
  let b := clamp end_ (List.length s) in
  take (Nat.max a b - Nat.min a b) (drop (Nat.min a b) s).

(** An index of [slice]: a negative one counts from the end. *)
Definition slice_index (n : Z) (len : nat) : nat :=
  if n <? 0 then Z.to_nat (Z.max (Z.of_nat len + n) 0)
  else Z.to_nat (Z.min n (Z.of_nat len)).

(** [s.slice(start, end)] *)
Definition js_string_slice (s : string) (start end_ : Z) : string :=
  let a := slice_index start (String.length s) in
  let b := slice_index end_ (String.length s) in
  String.substring a (b - a) s.

(** [s.endsWith(suffix)] *)
Definition endsWith (s suffix : string) : bool :=
  (String.length suffix <=? String.length s)%nat &&
  String.eqb
    (String.substring (String.length s - String.length suffix)
                      (String.length suffix) s)
    suffix.

(** [s.split(sep)] for a separator of one code unit: the pieces between
    the separators, at least one. *)
Fixpoint js_split (sep : N) (s : JsString) : list JsString :=
  match s with
  | [] => [[]]
  | c :: rest =>
      if decide (c = sep) then [] :: js_split sep rest
      else
        match js_split sep rest with
        | piece :: pieces => (c :: piece) :: pieces
        | [] => [[c]]
        end
  end.

(** The code units of [@] and of [*]. *)
Definition at_sign : N := 64.
Definition star : N := 42.

(** [truncate(text, length, suffix = '...')] *)
Definition truncate (text : JsString) (length : Z) (suffix : JsString) : JsString :=
  if Z.of_nat (List.length text) <=? length then text
  else js_substring text 0 (length - Z.of_nat (List.length suffix)) ++ suffix.

(** [maskEmail(email)]: [[username, domain] = email.split('@')] takes the
    first two pieces, the second being [undefined] when there is none;
    [charAt(0)] is the first code unit, [slice(-1)] the last,
    ['*'.repeat(n)] is [n] stars, and the template prints a missing
    domain as [undefined]. *)
Definition maskEmail (email : JsString) : JsString :=
  let pieces := js_split at_sign email in
  let username := default [] (head pieces) in
  let domain := pieces !! 1%nat in
  if (List.length username <=? 2)%nat then email
  else
    let maskedUsername :=
      take 1 username ++ replicate (List.length username - 2) star
        ++ js_slice (-1) username in
    maskedUsername ++ [at_sign]
      ++ match domain with
         | Some d => d
         | None => ascii_units "undefined"
         end.

(** [pluralize(word, count)] *)
Definition pluralize (word : string) (count : Z) : string :=
  if count =? 1 then word
  else if endsWith word "y" then js_string_slice word 0 (-1) +:+ "ies"
  else if endsWith word "s" || endsWith word "sh" || endsWith word "ch"
          || endsWith word "x" || endsWith word "z"
  then word +:+ "es"
  else word +:+ "s".

(** The pattern of [CommonSchemas.sessionId],
    [/^sess_[a-f0-9]{40}$/]: the prefix, then exactly forty characters, each
    a digit or a letter from [a] to [f]. *)
Definition is_lower_hex (c : ascii) : bool :=
  let n := nat_of_ascii c in
  ((48 <=? n) && (n <=? 57) || (97 <=? n) && (n <=? 102))%nat.

Definition matches_sessionId_pattern (s : string) : bool :=
  String.prefix "sess_" s &&
  (String.length s =? 45)%nat &&
  forallb is_lower_hex (list_ascii_of_string (String.substring 5 40 s)).

(** ** DynamoDBService

    The tables are those of the schema: chat-sessions and documents are
    keyed by [id], chat-messages by ([sessionId], [timestamp]). *)

Module DynamoDBService.

(** The shape shared by the methods:
    [try { ... await this.client.send(command) ... }
     catch (error) { throw new Error(`Failed to ...: ${error}`) }]. *)
Definition send {A} (fault : option Exn) (failure : string)
    (effect : World -> A * World) : M A :=
  fun w =>
    match fault with
    | Some error => (inl (new_Error (failure +:+ ": " +:+ exn_to_string error)), w)
    | None => let (a, w') := effect w in (inr a, w')
    end.

(** [get('chat-sessions', { id })] *)
Definition get_chat_sessions (fault : option Exn) (id : string)
    : M (option ChatSession) :=
  send fault "Failed to get item from chat-sessions"
       (fun w => (chat_sessions w !! id, w)).

(** [get('documents', { id })] *)
Definition get_documents (fault : option Exn) (id : string)
    : M (option DocumentItem) :=
  send fault "Failed to get item from documents"
       (fun w => (documents w !! id, w)).

(** [put('chat-sessions', item)]: PutItem replaces the item of that key. *)
Definition put_chat_sessions (fault : option Exn) (item : ChatSession) : M unit :=
  send fault "Failed to put item in chat-sessions"
       (fun w => (tt, set_chat_sessions (insert (cs_id item) item) w)).

(** [put('chat-messages', item)]: no condition expression is passed, so
    PutItem replaces whatever item has the same primary key. *)
Definition put_chat_messages (fault : option Exn) (item : ChatMessage) : M unit :=
  send fault "Failed to put item in chat-messages"
       (fun w => (tt, set_chat_messages
                        (insert (key_of_message item) (attrs_of_message item)) w)).

(** [update('chat-sessions', { id }, updates)], with
    [ReturnValues: 'ALL_NEW'].  The adapter builds the command from
    [{ TableName, Key, ReturnValues, ...updates }]: the members of
    [updates] are spread under the names the callers give them,
    [updateExpression] and [expressionAttributeValues], and the command
    reads [UpdateExpression] and [ExpressionAttributeValues].  No update
    expression reaches the service: [set], the effect of the SET clause
    that the caller wrote, is never applied, and the item comes back as it
    is stored.  Both callers update a key they have just read; for a key
    that is absent the table is left as it is here (UpdateItem would
    create an item holding the key only, which is not a [ChatSession]). *)
Definition update_chat_sessions (fault : option Exn) (id : string)
    (set : ChatSession -> ChatSession) : M (option ChatSession) :=
  send fault "Failed to update item in chat-sessions"
       (fun w => (chat_sessions w !! id, w)).

(** The item that holds its key and nothing else. *)
Definition empty_document : DocumentItem :=
  mkDocumentItem None None None None None.

(** [update('documents', { id }, updates)]: as above, no update
    expression reaches the service and [set] is never applied.  UpdateItem
    leaves the item of the key as it is, and creates it, holding the key
    only, when there is none. *)
Definition update_documents (fault : option Exn) (id : string)
    (set : DocumentItem -> DocumentItem) : M (option DocumentItem) :=
  send fault "Failed to update item in documents"
       (fun w =>
          let item := default empty_document (documents w !! id) in
          (Some item, set_documents (insert id item) w)).

(** The items of one partition of chat-messages, in ascending order of
    the sort key. *)
Definition key_le (a b : MessageKey * MessageAttrs) : Prop := a.1.2 <= b.1.2.

#[global] Instance key_le_dec : RelDecision key_le.
Proof. intros a b. unfold key_le. apply _. Defined.

Definition partition (sessionId : string) (table : gmap MessageKey MessageAttrs)
    : list (MessageKey * MessageAttrs) :=
  merge_sort key_le
    (filter (fun kv : MessageKey * MessageAttrs => kv.1.1 = sessionId)
            (map_to_list table)).

Record QueryOptions : Type := mkQueryOptions {
  qo_sortAscending : option bool;
  qo_limit : option Z;
  qo_lastEvaluatedKey : option Timestamp
}.

(** What DynamoDB answers to a Query whose key condition names a value
    that the request does not carry; a fixed text stands for the message
    of the service. *)
Definition unbound_value : Exn :=
  JsError "ValidationException"
    "Invalid KeyConditionExpression: An expression attribute value used in expression is not defined; attribute value: :sessionId".

(** [query('chat-messages', 'sessionId = :sessionId', options)].  The
    parameters are [{ TableName, KeyConditionExpression, ScanIndexForward,
    ...options }], then [Limit] and [ExclusiveStartKey] when the options
    give them.  The options are spread under their own names, among them
    [expressionAttributeValues], in which [getChatMessages] passes the
    value of [:sessionId]; the command reads [ExpressionAttributeValues],
    which is never set.  The key condition so names a value that the
    request does not carry, and the service refuses every such request,
    whatever the table holds and whatever the other options are.  [fault]
    is a failure of the call before the service answers; the [catch] wraps
    either error. *)
Definition query_chat_messages (fault : option Exn) (sessionId : string)
    (options : QueryOptions) : M (PaginatedResult ChatMessage) :=
  let error := default unbound_value fault in
  throw (new_Error ("Failed to query chat-messages" +:+ ": "
                    +:+ exn_to_string error)).

(** [getChatSession(sessionId)] *)
Definition getChatSession (fault : option Exn) (sessionId : string)
    : M (option ChatSession) :=
  get_chat_sessions fault sessionId.

(** [getChatMessages(sessionId, options)]: the value of [:sessionId] in
    [expressionAttributeValues], ascending, then the caller's pagination
    options. *)
Definition getChatMessages (fault : option Exn) (sessionId : string)
    (options : PaginationOptions) : M (PaginatedResult ChatMessage) :=
  query_chat_messages fault sessionId
    (mkQueryOptions (Some true) (po_limit options) (po_lastEvaluatedKey options)).

End DynamoDBService.

Definition newline : string := String "010"%char EmptyString.

(** ** JSON.parse *)

Module Json.

Definition code (c : ascii) : nat := nat_of_ascii c.

Definition is_char (c : ascii) (s : string) : bool :=
  match s with
  | String d EmptyString => Ascii.eqb c d
  | _ => false
  end.

(** JSON white space: space, tab, line feed, carriage return. *)
Definition is_ws (c : ascii) : bool :=
  (code c =? 32)%nat || (code c =? 9)%nat || (code c =? 10)%nat || (code c =? 13)%nat.

Definition is_digit (c : ascii) : bool :=
  (48 <=? code c)%nat && (code c <=? 57)%nat.

Fixpoint skip_ws (s : list ascii) : list ascii :=
  match s with
  | c :: r => if is_ws c then skip_ws r else s
  | [] => []
  end.

(** The digits at the head of [s], and what follows them. *)
Fixpoint digits (s : list ascii) : list ascii * list ascii :=
  match s with
  | c :: r => if is_digit c then let (ds, r') := digits r in (c :: ds, r') else ([], s)
  | [] => ([], [])
  end.

(** [s] without the prefix [p], when [s] starts with it. *)
Fixpoint strip_prefix (p s : list ascii) : option (list ascii) :=
  match p, s with
  | [], _ => Some s
  | a :: p', b :: s' => if Ascii.eqb a b then strip_prefix p' s' else None
  | _ :: _, [] => None
  end.

Definition hex_value (c : ascii) : option nat :=
  let n := code c in
  if (48 <=? n)%nat && (n <=? 57)%nat then Some (n - 48)%nat
  else if (65 <=? n)%nat && (n <=? 70)%nat then Some (n - 55)%nat
  else if (97 <=? n)%nat && (n <=? 102)%nat then Some (n - 87)%nat
  else None.

Definition hex4 (a b c d : ascii) : option nat :=
  match hex_value a, hex_value b, hex_value c, hex_value d with
  | Some x, Some y, Some z, Some t => Some (((x * 16 + y) * 16 + z) * 16 + t)%nat
  | _, _, _, _ => None
  end.

(** The bytes that stand for the code unit [n] of a [\u] escape in the
    byte strings of this embedding: its UTF-8 encoding (each half of a
    surrogate pair on its own). *)
Definition unit_bytes (n : nat) : list ascii :=
  if (n <? 128)%nat then [ascii_of_nat n]
  else if (n <? 2048)%nat then
    [ascii_of_nat (192 + n / 64); ascii_of_nat (128 + n mod 64)]
  else
    [ascii_of_nat (224 + n / 4096); ascii_of_nat (128 + (n / 64) mod 64);
     ascii_of_nat (128 + n mod 64)].

Definition simple_escape (c : ascii) : option ascii :=
  if is_char c "b" then Some (ascii_of_nat 8)
  else if is_char c "f" then Some (ascii_of_nat 12)
  else if is_char c "n" then Some (ascii_of_nat 10)
  else if is_char c "r" then Some (ascii_of_nat 13)
  else if is_char c "t" then Some (ascii_of_nat 9)
  else if (code c =? 34)%nat || (code c =? 92)%nat || (code c =? 47)%nat then Some c
  else None.

(** A string literal after its opening quote: the characters read (last
    first in [acc]) and what follows the closing quote. *)
Fixpoint string_body (s acc : list ascii) : option (list ascii * list ascii) :=
  match s with
  | [] => None
  | c :: r =>
      if (code c =? 34)%nat then Some (rev acc, r)
      else if (code c =? 92)%nat then
        match r with
        | [] => None
        | e :: r' =>
            if is_char e "u" then
              match r' with
              | h1 :: h2 :: h3 :: h4 :: r'' =>
                  match hex4 h1 h2 h3 h4 with
                  | Some n => string_body r'' (rev (unit_bytes n) ++ acc)
                  | None => None
                  end
              | _ => None
              end
            else
              match simple_escape e with
              | Some x => string_body r' (x :: acc)
              | None => None
              end
        end
      else if (code c <? 32)%nat then None
      else string_body r (c :: acc)
  end.

(** A number: [-]? int frac? exp?; the lexeme read and what follows. *)
Definition number (s : list ascii) : option (list ascii * list ascii) :=
  let (sign, s1) :=
    match s with
    | c :: r => if is_char c "-" then ([c], r) else ([], s)
    | [] => ([], s)
    end in
  let int :=
    match s1 with
    | c :: r =>
        if is_char c "0" then Some ([c], r)
        else if is_digit c then Some (digits s1)
        else None
    | [] => None
    end in
  match int with
  | None => None
  | Some (ip, s2) =>
      let frac :=
        match s2 with
        | c :: r =>
            if is_char c "." then
              match digits r with
              | ([], _) => None
              | (ds, r') => Some (c :: ds, r')
              end
            else Some ([], s2)
        | [] => Some ([], s2)
        end in
      match frac with
      | None => None
      | Some (fp, s3) =>
          let exp :=
            match s3 with
            | c :: r =>
                if is_char c "e" || is_char c "E" then
                  let (es, r1) :=
                    match r with
                    | d :: r' =>
                        if is_char d "+" || is_char d "-" then ([d], r') else ([], r)
                    | [] => ([], r)
                    end in
                  match digits r1 with
                  | ([], _) => None
                  | (ds, r2) => Some (c :: es ++ ds, r2)
                  end
                else Some ([], s3)
            | [] => Some ([], s3)
            end in
          match exp with
          | None => None
          | Some (ep, s4) => Some (sign ++ ip ++ fp ++ ep, s4)
          end
      end
  end.

Definition to_string (l : list ascii) : string := string_of_list_ascii l.

(** A value, the elements of an array after one of them is due, the
    members of an object after one of them is due.  Every call spends one
    unit of [fuel], and a chain of two calls reads at least one character,
    so twice the length of the text is enough fuel. *)
Fixpoint value (fuel : nat) (s : list ascii) {struct fuel}
    : option (JSON * list ascii) :=
  match fuel with
  | O => None
  | S fuel' =>
      match skip_ws s with
      | [] => None
      | c :: r =>
          if is_char c "n" then
            (fun r' => (JNull, r')) <$> strip_prefix (list_ascii_of_string "ull") r
          else if is_char c "t" then
            (fun r' => (JBool true, r')) <$> strip_prefix (list_ascii_of_string "rue") r
          else if is_char c "f" then
            (fun r' => (JBool false, r')) <$> strip_prefix (list_ascii_of_string "alse") r
          else if (code c =? 34)%nat then
            (fun p : list ascii * list ascii => (JStr (to_string p.1), p.2))
              <$> string_body r []
          else if is_char c "[" then
            match skip_ws r with
            | d :: r' => if is_char d "]" then Some (JArr [], r')
                         else elements fuel' r []
            | [] => None
            end
          else if is_char c "{" then
            match skip_ws r with
            | d :: r' => if is_char d "}" then Some (JObj [], r')
                         else members fuel' r []
            | [] => None
            end
          else
            (fun p : list ascii * list ascii => (JNum (to_string p.1), p.2))
              <$> number (c :: r)
      end
  end
with elements (fuel : nat) (s : list ascii) (acc : list JSON) {struct fuel}
    : option (JSON * list ascii) :=
  match fuel with
  | O => None
  | S fuel' =>
      match value fuel' s with
      | None => None
      | Some (v, r) =>
          match skip_ws r with
          | d :: r' =>
              if is_char d "," then elements fuel' r' (v :: acc)
              else if is_char d "]" then Some (JArr (rev (v :: acc)), r')
              else None
          | [] => None
          end
      end
  end
with members (fuel : nat) (s : list ascii) (acc : list (string * JSON)) {struct fuel}
    : option (JSON * list ascii) :=
  match fuel with
  | O => None
  | S fuel' =>
      match skip_ws s with
      | q :: r =>
          if (code q =? 34)%nat then
            match string_body r [] with
            | None => None
            | Some (key, r1) =>
                match skip_ws r1 with
                | colon :: r2 =>
                    if is_char colon ":" then
                      match value fuel' r2 with
                      | None => None
                      | Some (v, r3) =>
                          match skip_ws r3 with
                          | d :: r4 =>
                              if is_char d "," then
                                members fuel' r4 ((to_string key, v) :: acc)
                              else if is_char d "}" then
                                Some (JObj (rev ((to_string key, v) :: acc)), r4)
                              else None
                          | [] => None
                          end
                      end
                    else None
                | [] => None
                end
            end
          else None
      | [] => None
      end
  end.

(** [JSON.parse(text)]: the value, or the [SyntaxError] thrown.  The text
    of the engine's message is not part of the embedding; a fixed one
    stands for it. *)
Definition parse (text : string) : Exn + JSON :=
  let s := list_ascii_of_string text in
  match value (2 * length s + 2) s with
  | Some (v, r) =>
      match skip_ws r with
      | [] => inr v
      | _ :: _ => inl (JsError "SyntaxError" "Unexpected non-whitespace character after JSON")
      end
  | None => inl (JsError "SyntaxError" "Unexpected token in JSON")
  end.

(** The last member of that name: the one [JSON.parse] keeps. *)
Fixpoint lookup_member (name : string) (members : list (string * JSON)) : JSValue :=
  match members with
  | [] => None
  | (k, v) :: rest =>
      match lookup_member name rest with
      | Some v' => Some v'
      | None => if decide (k = name) then Some v else None
      end
  end.

(** [v.name], for the names [analyzeText] reads ([violations], [summary],
    [riskScore], [recommendations]): a member of an object, [undefined]
    on an array, a string, a number or a boolean, a [TypeError] on
    [null]. *)
Definition get_property (v : JSON) (name : string) : Exn + JSValue :=
  match v with
  | JNull =>
      inl (JsError "TypeError"
             ("Cannot read properties of null (reading '" +:+ name +:+ "')"))
  | JObj members => inr (lookup_member name members)
  | _ => inr None
  end.

End Json.

(** ** Text as JavaScript measures it *)

Definition byte (c : ascii) : N := N_of_ascii c.

(** The code unit of a sequence of two bytes, of three bytes, and the two
    surrogates of a sequence of four. *)
Definition two (b0 b1 : ascii) : N := ((byte b0 - 192) * 64 + byte b1 mod 64)%N.

Definition three (b0 b1 b2 : ascii) : N :=
  ((byte b0 - 224) * 4096 + (byte b1 mod 64) * 64 + byte b2 mod 64)%N.

Definition code_point (b0 b1 b2 b3 : ascii) : N :=
  ((((byte b0 - 240) * 64 + byte b1 mod 64) * 64 + byte b2 mod 64) * 64
   + byte b3 mod 64)%N.

Definition high (b0 b1 b2 b3 : ascii) : N :=
  (55296 + ((code_point b0 b1 b2 b3 - 65536) / 1024) mod 1024)%N.

Definition low (b0 b1 b2 b3 : ascii) : N :=
  (56320 + (code_point b0 b1 b2 b3 - 65536) mod 1024)%N.

(** The UTF-16 code units of a text given by its bytes: one for a
    sequence of one, two or three bytes, two for a sequence of four.  A
    byte that starts no complete sequence counts for one unit. *)
Fixpoint code_units (s : list ascii) : list N :=
  match s with
  | [] => []
  | b0 :: r0 =>
      if (byte b0 <? 192)%N then byte b0 :: code_units r0
      else if (byte b0 <? 224)%N then
        match r0 with
        | b1 :: r1 => two b0 b1 :: code_units r1
        | [] => byte b0 :: code_units r0
        end
      else if (byte b0 <? 240)%N then
        match r0 with
        | b1 :: b2 :: r2 => three b0 b1 b2 :: code_units r2
        | _ => byte b0 :: code_units r0
        end
      else
        match r0 with
        | b1 :: b2 :: b3 :: r3 =>
            high b0 b1 b2 b3 :: low b0 b1 b2 b3 :: code_units r3
        | _ => byte b0 :: code_units r0
        end
  end.

(** The bytes of the first [n] code units of a text.  When the cut falls
    inside a sequence of four bytes, its first unit is kept, a lone high
    surrogate. *)
Fixpoint take_units (n : nat) (s : list ascii) {struct s} : list ascii :=
  match s with
  | [] => []
  | b0 :: r0 =>
      match n with
      | O => []
      | S n' =>
          if (byte b0 <? 192)%N then b0 :: take_units n' r0
          else if (byte b0 <? 224)%N then
            match r0 with
            | b1 :: r1 => b0 :: b1 :: take_units n' r1
            | [] => b0 :: take_units n' r0
            end
          else if (byte b0 <? 240)%N then
            match r0 with
            | b1 :: b2 :: r2 => b0 :: b1 :: b2 :: take_units n' r2
            | _ => b0 :: take_units n' r0
            end
          else
            match r0 with
            | b1 :: b2 :: b3 :: r3 =>
                match n' with
                | O => Json.unit_bytes (N.to_nat (high b0 b1 b2 b3))
                | S n'' => b0 :: b1 :: b2 :: b3 :: take_units n'' r3
                end
            | _ => b0 :: take_units n' r0
            end
      end
  end.

(** [s.length] *)
Definition js_length (s : string) : nat :=
  List.length (code_units (list_ascii_of_string s)).

(** [s?.substring(0, n)] *)
Definition js_substring0 (n : nat) (s : option string) : option string :=
  (fun x => string_of_list_ascii (take_units n (list_ascii_of_string x))) <$> s.

Definition dq : string := String (ascii_of_nat 34) EmptyString.

(** The template of [BedrockClient.buildViolationAnalysisPrompt], line by
    line.  The context object that [AnalysisService.analyzeText] passes has
    none of [subjectInfo], [previousViolations] and [guidelines], so each of
    the three conditional lines is empty. *)
Definition buildViolationAnalysisPrompt (text : string) : string :=
  String.concat newline [
      "You are an AI assistant specialized in analyzing probation and parole violations. Your task is to analyze the provided text and identify potential violations, assess risk levels, and provide recommendations.";
      "";
      "Context Information:";
      (* ${context...}: the line is empty *) "";
      (* ${context...}: the line is empty *) "";
      (* ${context...}: the line is empty *) "";
      "";
      "Text to Analyze:";
      text;
      "";
      "Please provide your analysis in the following JSON format:";
      "{";
      "  " +:+ dq +:+ "violations" +:+ dq +:+ ": [";
      "    {";
      "      " +:+ dq +:+ "type" +:+ dq +:+ ": " +:+ dq +:+ "violation category" +:+ dq +:+ ",";
      "      " +:+ dq +:+ "description" +:+ dq +:+ ": " +:+ dq +:+ "detailed description of the violation" +:+ dq +:+ ",";
      "      " +:+ dq +:+ "severity" +:+ dq +:+ ": " +:+ dq +:+ "low|medium|high|critical" +:+ dq +:+ ",";
      "      " +:+ dq +:+ "confidence" +:+ dq +:+ ": 0.85,";
      "      " +:+ dq +:+ "location" +:+ dq +:+ ": {";
      "        " +:+ dq +:+ "start" +:+ dq +:+ ": 0,";
      "        " +:+ dq +:+ "end" +:+ dq +:+ ": 50,";
      "        " +:+ dq +:+ "text" +:+ dq +:+ ": " +:+ dq +:+ "relevant excerpt from text" +:+ dq +:+ "";
      "      }";
      "    }";
      "  ],";
      "  " +:+ dq +:+ "summary" +:+ dq +:+ ": " +:+ dq +:+ "brief summary of key findings" +:+ dq +:+ ",";
      "  " +:+ dq +:+ "riskScore" +:+ dq +:+ ": 75,";
      "  " +:+ dq +:+ "recommendations" +:+ dq +:+ ": [";
      "    " +:+ dq +:+ "specific recommendation 1" +:+ dq +:+ ",";
      "    " +:+ dq +:+ "specific recommendation 2" +:+ dq +:+ "";
      "  ]";
      "}";
      "";
      "Guidelines for Analysis:";
      "1. Identify specific violations based on standard probation conditions";
      "2. Assess severity based on potential impact and risk to public safety";
      "3. Provide confidence scores based on clarity of evidence";
      "4. Include specific text excerpts that support your findings";
      "5. Generate risk scores from 0-100 based on violation severity and context";
      "6. Provide actionable recommendations for supervision officers";
      "";
      "Return only the JSON response, no additional commentary."
  ].

(** ** BedrockClient *)

Module BedrockClient.

Record ChatMessage : Type := mkChatMessage {
  role : Role;
  content : string
}.

Record BedrockResponse : Type := mkBedrockResponse {
  br_content : string;
  br_inputTokens : Z;
  br_outputTokens : Z
}.

Record EmbeddingResponse : Type := mkEmbeddingResponse {
  embedding : Embedding;
  er_inputTokens : Z
}.

Record ChatOptions : Type := mkChatOptions {
  temperature : Q;
  maxTokens : Z
}.

(** [invokeChat(messages, options)].  [outcome] is what the [try] block
    yields: the decoded answer of the model, or whatever was thrown while
    sending the command or decoding the body. *)
Definition invokeChat (outcome : Exn + BedrockResponse)
    (messages : list ChatMessage) (options : ChatOptions) : M BedrockResponse :=
  match outcome with
  | inr response => ret response
  | inl error =>
      throw (new_Error ("Bedrock chat invocation failed: " +:+ exn_to_string error))
  end.

(** [generateEmbedding(text)] *)
Definition generateEmbedding (outcome : Exn + EmbeddingResponse) (text : string)
    : M EmbeddingResponse :=
  match outcome with
  | inr response => ret response
  | inl error =>
      throw (new_Error ("Bedrock embedding generation failed: " +:+ exn_to_string error))
  end.

(** [analyzeViolations(text, context)]: the answer of the model goes
    through [JSON.parse] and is returned as it is. *)
Definition analyzeViolations (outcome : Exn + BedrockResponse) (text : string)
    : M JSON :=
  let prompt := buildViolationAnalysisPrompt text in
  let messages := [mkChatMessage user prompt] in
  response <- invokeChat outcome messages (mkChatOptions (3 # 10) 3000) ;;
  match Json.parse (br_content response) with
  | inr v => ret v
  | inl error =>
      throw (new_Error ("Failed to parse violation analysis response: "
                        +:+ exn_to_string error))
  end.

End BedrockClient.

(** ** OpenSearchClient *)

Module OpenSearchClient.

(** The [_source] of a hit of the knowledge-base index, as far as the chat
    service reads it. *)
Record KnowledgeSource : Type := mkKnowledgeSource {
  ks_title : option string;
  ks_content : option string;
  ks_source : option string
}.

Record SearchResult : Type := mkSearchResult {
  sr_id : string;
  sr_score : Q;
  sr_source : KnowledgeSource
}.

Record SearchResponse : Type := mkSearchResponse {
  hits : list SearchResult;
  total : Z
}.

Record HybridOptions : Type := mkHybridOptions {
  k : Z;
  size : Z
}.

(** [hybridSearch(indexName, searchText, queryVector, textFields,
    vectorField, options)] *)
Definition hybridSearch (outcome : Exn + SearchResponse)
    (indexName searchText : string) (queryVector : Embedding)
    (textFields : list string) (vectorField : string) (options : HybridOptions)
    : M SearchResponse :=
  match outcome with
  | inr response => ret response
  | inl error => throw (new_Error ("Hybrid search failed: " +:+ exn_to_string error))
  end.

(** [indexDocument('chat-context', documentId, document)] *)
Definition indexDocument_chat_context (fault : option Exn) (documentId : string)
    (document : ChatMessage * Embedding) : M unit :=
  match fault with
  | None => modify (set_chat_context (insert documentId document))
  | Some error =>
      throw (new_Error ("Failed to index document " +:+ documentId +:+ ": "
                        +:+ exn_to_string error))
  end.

End OpenSearchClient.

(** ** ChatService *)

Module ChatService.

Import OpenSearchClient.

(** What the outside answers during one [createSession]. *)
Record CreateSessionEnv : Type := mkCreateSessionEnv {
  cse_draws : nat -> nat;
  cse_now : Timestamp;
  cse_put : option Exn
}.

(** What the outside answers during one [deleteSession]. *)
Record DeleteSessionEnv : Type := mkDeleteSessionEnv {
  dse_get : option Exn;
  dse_now : Timestamp;
  dse_update : option Exn
}.

(** What the outside answers during one [sendMessage], in the order of
    the call sites. *)
Record SendMessageEnv : Type := mkSendMessageEnv {
  sme_startTime : Z;
  sme_get : option Exn;
  sme_userDraws : nat -> nat;
  sme_timestamp : Timestamp;
  sme_putUser : option Exn;
  sme_query : option Exn;
  sme_embedQuery : Exn + BedrockClient.EmbeddingResponse;
  sme_hybridSearch : Exn + SearchResponse;
  sme_invokeChat : Exn + BedrockClient.BedrockResponse;
  sme_endTime : Z;
  sme_assistantDraws : nat -> nat;
  sme_assistantTimestamp : Timestamp;
  sme_putAssistant : option Exn;
  sme_update : option Exn;
  sme_embedUser : Exn + BedrockClient.EmbeddingResponse;
  sme_embedAssistant : Exn + BedrockClient.EmbeddingResponse;
  sme_indexUser : option Exn;
  sme_indexAssistant : option Exn
}.

Definition createSession (env : CreateSessionEnv) (userId title : string)
    (metadata : option Metadata) : M ChatSession :=
  let sessionId := generateId "sess" 8 (cse_draws env) in
  let now := cse_now env in
  let session := mkChatSession sessionId userId title now now true metadata in
  DynamoDBService.put_chat_sessions (cse_put env) session ;;;
  Logger.info "Chat session created" ;;;
  ret session.

Definition getSession (fault : option Exn) (sessionId userId : string)
    : M ChatSession :=
  session <- DynamoDBService.getChatSession fault sessionId ;;
  match session with
  | None => throw (new_NotFoundError "Chat session" sessionId)
  | Some session =>
      if decide (cs_userId session <> userId)
      then throw (AppError "FORBIDDEN" "Access denied to this session" 403)
      else ret session
  end.

(** The SET clause that [deleteSession] writes. *)
Definition deactivate (updatedAt : Timestamp) (s : ChatSession) : ChatSession :=
  mkChatSession (cs_id s) (cs_userId s) (cs_title s) (cs_createdAt s)
                updatedAt false (cs_metadata s).

(** The SET clause that [sendMessage] writes. *)
Definition touch (updatedAt : Timestamp) (s : ChatSession) : ChatSession :=
  mkChatSession (cs_id s) (cs_userId s) (cs_title s) (cs_createdAt s)
                updatedAt (cs_isActive s) (cs_metadata s).

Definition deleteSession (env : DeleteSessionEnv) (sessionId userId : string)
    : M unit :=
  _ <- getSession (dse_get env) sessionId userId ;;
  _ <- DynamoDBService.update_chat_sessions (dse_update env) sessionId
         (deactivate (dse_now env)) ;;
  Logger.info "Chat session deactivated".

Definition getMessages (get_fault query_fault : option Exn)
    (sessionId userId : string) (options : PaginationOptions)
    : M (PaginatedResult ChatMessage) :=
  _ <- getSession get_fault sessionId userId ;;
  result <- DynamoDBService.getChatMessages query_fault sessionId options ;;
  ret (mkPaginatedResult (items result) (lastEvaluatedKey result) (count result)).

Definition getChatHistory (fault : option Exn) (sessionId : string) (limit : Z)
    : M (list ChatMessage) :=
  result <- DynamoDBService.getChatMessages fault sessionId
              (mkPaginationOptions (Some (limit * 2)) None) ;;
  ret (js_slice (- limit) (items result)).

Definition performRAGSearch (embed : Exn + BedrockClient.EmbeddingResponse)
    (search : Exn + SearchResponse) (query : string) (limit : Z)
    : M (list SearchResult) :=
  try_catch
    (embedding <- BedrockClient.generateEmbedding embed query ;;
     searchResults <- hybridSearch search "knowledge-base" query
                        (BedrockClient.embedding embedding)
                        ["title"; "content"; "summary"] "embedding"
                        (mkHybridOptions limit limit) ;;
     ret (hits searchResults))
    (fun error =>
       Logger.warn "RAG search failed, continuing without context" ;;;
       ret []).

Definition context_line (result : SearchResult) : string :=
  js_template (ks_title (sr_source result)) +:+ ": " +:+
  js_template (js_substring0 500 (ks_content (sr_source result))).

Definition context_message (context : string) : string :=
  "Context information:" +:+ newline +:+ context +:+ newline +:+ newline +:+
  "Please use this context to help answer questions about probation, violations, and case management. If the context doesn't contain relevant information, you can still provide helpful general guidance.".

Definition prepareMessagesForBedrock (history : list ChatMessage)
    (currentMessage : string) (searchResults : list SearchResult)
    : list BedrockClient.ChatMessage :=
  let messages :=
    if 0 <? Z.of_nat (length searchResults) then
      let context :=
        String.concat (newline +:+ newline) (context_line <$> searchResults) in
      [ BedrockClient.mkChatMessage user (context_message context);
        BedrockClient.mkChatMessage assistant
          "I understand. I'll use the provided context to help answer questions about probation and case management." ]
    else [] in
  let recentHistory := js_slice (-8) history in
  messages
    ++ ((fun msg => BedrockClient.mkChatMessage (cm_role msg) (cm_content msg))
          <$> recentHistory)
    ++ [ BedrockClient.mkChatMessage user currentMessage ].

Definition indexConversation
    (embedUser embedAssistant : Exn + BedrockClient.EmbeddingResponse)
    (indexUser indexAssistant : option Exn)
    (sessionId : string) (userMessage assistantMessage : ChatMessage) : M unit :=
  try_catch
    (userEmbedding <- BedrockClient.generateEmbedding embedUser
                        (cm_content userMessage) ;;
     assistantEmbedding <- BedrockClient.generateEmbedding embedAssistant
                             (cm_content assistantMessage) ;;
     indexDocument_chat_context indexUser (cm_id userMessage)
       (userMessage, BedrockClient.embedding userEmbedding) ;;;
     indexDocument_chat_context indexAssistant (cm_id assistantMessage)
       (assistantMessage, BedrockClient.embedding assistantEmbedding) ;;;
     Logger.debug "Conversation indexed for RAG")
    (fun error => Logger.warn "Failed to index conversation").

(** The element of [metadata.sources] made from one retrieval hit. *)
Definition source_of_result (result : SearchResult) : SourceRef :=
  mkSourceRef
    (sr_id result)
    (js_or_string (ks_title (sr_source result)) "Document")
    (js_or_string (js_substring0 200 (ks_content (sr_source result))) "")
    (sr_score result)
    (js_or_string (ks_source (sr_source result)) "knowledge_base").

(** The object that the [try] block of [sendMessage] returns. *)
Definition response_of (bedrockResponse : BedrockClient.BedrockResponse)
    (sessionId : string) (assistantMessage : ChatMessage) (processingTime : Z)
    : ChatResponse :=
  mkChatResponse
    (BedrockClient.br_content bedrockResponse)
    sessionId
    (cm_metadata assistantMessage ≫= mm_sources)
    (Some (mkResponseMetadata
             (js_or_zero (cm_metadata assistantMessage ≫= mm_tokensUsed))
             processingTime
             (85 # 100))).

(** The [try] block of [sendMessage] from the retrieval step on: what is
    done with the history once it is fetched. *)
Definition reply_to (env : SendMessageEnv) (sessionId message : string)
    (userMessage : ChatMessage) (messageHistory : list ChatMessage)
    : M ChatResponse :=
  let startTime := sme_startTime env in
  searchResults <- performRAGSearch (sme_embedQuery env) (sme_hybridSearch env)
                     message 5 ;;
  let messages :=
    prepareMessagesForBedrock messageHistory message searchResults in
  bedrockResponse <- BedrockClient.invokeChat (sme_invokeChat env) messages
                       (BedrockClient.mkChatOptions (7 # 10) 2000) ;;
  let processingTime := sme_endTime env - startTime in
  let assistantMessageId := generateId "msg" 8 (sme_assistantDraws env) in
  let assistantTimestamp := sme_assistantTimestamp env in
  let assistantMessage :=
    mkChatMessage assistantMessageId sessionId assistant
      (BedrockClient.br_content bedrockResponse) assistantTimestamp
      (Some (mkMessageMetadata
               (Some (BedrockClient.br_inputTokens bedrockResponse
                      + BedrockClient.br_outputTokens bedrockResponse))
               (Some processingTime)
               (Some (source_of_result <$> searchResults)))) in
  DynamoDBService.put_chat_messages (sme_putAssistant env) assistantMessage ;;;
  _ <- DynamoDBService.update_chat_sessions (sme_update env) sessionId
         (touch assistantTimestamp) ;;
  indexConversation (sme_embedUser env) (sme_embedAssistant env)
    (sme_indexUser env) (sme_indexAssistant env)
    sessionId userMessage assistantMessage ;;;
  Logger.businessEvent "Chat message processed" ;;;
  ret (response_of bedrockResponse sessionId assistantMessage processingTime).

(** The [try] block of [sendMessage]: what is done once the user's message
    is stored. *)
Definition exchange (env : SendMessageEnv) (sessionId message : string)
    (userMessage : ChatMessage) : M ChatResponse :=
  messageHistory <- getChatHistory (sme_query env) sessionId 10 ;;
  reply_to env sessionId message userMessage messageHistory.

Definition sendMessage (env : SendMessageEnv) (sessionId userId message : string)
    : M ChatResponse :=
  session <- getSession (sme_get env) sessionId userId ;;
  if negb (cs_isActive session) then
    throw (AppError "INVALID_SESSION" "Cannot send message to inactive session" 400)
  else
    let userMessageId := generateId "msg" 8 (sme_userDraws env) in
    let timestamp := sme_timestamp env in
    let userMessage :=
      mkChatMessage userMessageId sessionId user message timestamp None in
    DynamoDBService.put_chat_messages (sme_putUser env) userMessage ;;;
    try_catch
      (exchange env sessionId message userMessage)
      (fun error =>
         Logger.error "Failed to process chat message" error ;;;
         throw error).

End ChatService.

(** ** AnalysisService *)

Module AnalysisService.

(** What the outside answers during one [analyzeText]. *)
Record AnalyzeTextEnv : Type := mkAnalyzeTextEnv {
  ate_startTime : Z;
  ate_get : option Exn;
  ate_invokeChat : Exn + BedrockClient.BedrockResponse;
  ate_endTime : Z;
  ate_now : Timestamp;
  ate_update : option Exn
}.

Record DocumentInfo : Type := mkDocumentInfo {
  di_title : option string;
  di_contentType : option string;
  di_tags : option (list string)
}.

(** The object that [buildAnalysisContext] fills in. *)
Record AnalysisContext : Type := mkAnalysisContext {
  documentInfo : option DocumentInfo;
  metadata : option Metadata
}.

(** [if (documentId)]: [undefined] and the empty string are falsy. *)
Definition truthy (documentId : option string) : option string :=
  match documentId with
  | Some id => if decide (id = "") then None else Some id
  | None => None
  end.

Definition buildAnalysisContext (fault : option Exn) (documentId : option string)
    (metadata : option Metadata) : M AnalysisContext :=
  documentInfo <-
    match truthy documentId with
    | Some id =>
        try_catch
          (document <- DynamoDBService.get_documents fault id ;;
           ret (match document with
                | Some d => Some (mkDocumentInfo (doc_title d) (doc_contentType d)
                                                 (doc_tags d))
                | None => None
                end))
          (fun error =>
             Logger.warn "Could not retrieve document context" ;;;
             ret None)
    | None => ret None
    end ;;
  ret (mkAnalysisContext documentInfo metadata).

(** The SET clause that [storeAnalysisResult] writes. *)
Definition set_analysis (result : AnalysisResponse) (timestamp : Timestamp)
    (d : DocumentItem) : DocumentItem :=
  mkDocumentItem (doc_title d) (doc_contentType d) (doc_tags d)
                 (Some result) (Some timestamp).

Definition storeAnalysisResult (fault : option Exn) (now : Timestamp)
    (documentId : string) (result : AnalysisResponse) : M unit :=
  try_catch
    (_ <- DynamoDBService.update_documents fault documentId (set_analysis result now) ;;
     Logger.debug "Analysis result stored")
    (fun error => Logger.warn "Failed to store analysis result").

(** Reading a property inside an [async] method: a [TypeError] is thrown
    like any exception. *)
Definition read (v : JSON) (name : string) : M JSValue :=
  match Json.get_property v name with
  | inr x => ret x
  | inl error => throw error
  end.

Definition analyzeText (env : AnalyzeTextEnv) (text : string)
    (documentId : option string) (metadata : option Metadata)
    : M AnalysisResponse :=
  let startTime := ate_startTime env in
  try_catch
    (Logger.info "Starting text analysis" ;;;
     context <- buildAnalysisContext (ate_get env) documentId metadata ;;
     analysisResult <- BedrockClient.analyzeViolations (ate_invokeChat env) text ;;
     let processingTime := ate_endTime env - startTime in
     violations <- read analysisResult "violations" ;;
     summary <- read analysisResult "summary" ;;
     riskScore <- read analysisResult "riskScore" ;;
     recommendations <- read analysisResult "recommendations" ;;
     let response :=
       mkAnalysisResponse violations summary riskScore recommendations
                          processingTime in
     match truthy documentId with
     | Some id => storeAnalysisResult (ate_update env) (ate_now env) id response
     | None => ret tt
     end ;;;
     ret response)
    (fun error =>
       Logger.error "Text analysis failed" error ;;;
       throw error).

End AnalysisService.

(** * The HTTP layer *)

(** ** Requests *)

(** What the handlers read of [event.requestContext]:
    [requestContext.requestId] and [requestContext.authorizer?.userId]. *)
Record RequestContext : Type := mkRequestContext {
  rc_requestId : option string;
  rc_authorizer_userId : option string
}.

(** What the handlers read of the event.  API Gateway hands over every path
    parameter as a string, so [sessionId] is all that [PathParamsSchema]
    ([z.object({ sessionId: z.string().optional() })]) keeps of
    [event.pathParameters], and parsing them does not fail. *)
Record APIGatewayProxyEvent : Type := mkAPIGatewayProxyEvent {
  httpMethod : string;
  path : string;
  pathParameters_sessionId : option string;
  body : option string;
  requestContext : RequestContext
}.

Record Context : Type := mkContext {
  awsRequestId : string;
  functionName : string
}.

(** A string in a condition: [undefined] and [""] are falsy. *)
Definition truthy_string (s : option string) : option string :=
  match s with
  | Some x => if decide (x = "") then None else Some x
  | None => None
  end.

(** [s.includes(part)] *)
Fixpoint js_includes (s part : string) : bool :=
  String.prefix part s ||
  match s with
  | EmptyString => false
  | String _ rest => js_includes rest part
  end.

(** [try { m } finally { f }] *)
Definition try_finally {A} (m : M A) (f : M unit) : M A :=
  fun w =>
    let (outcome, w1) := m w in
    match f w1 with
    | (inr _, w2) => (outcome, w2)
    | (inl e, w2) => (inl e, w2)
    end.

(** The function that [logger.startTimer(label)] returns: it logs the
    time that went by. *)
Definition timer (label : string) : M unit :=
  Logger.info (label +:+ " completed").

(** ** Request validation *)

(** The first issue of a [ZodError]. *)
Record ZodIssue : Type := mkZodIssue {
  issue_message : string;
  issue_path : list string;
  issue_code : string
}.

(** A schema, by what [schema.parse(data)] does: it returns the parsed
    value or throws a [ZodError], of which [issues[0]] is read. *)
Definition ZodSchema (T : Type) : Type := JSON -> ZodIssue + T.

(** [new ValidationError(message, field, code)], the class of that name
    in validation.ts: it extends [Error], not [AppError]. *)
Definition new_ValidationError (message field code : string) : Exn :=
  JsError "ValidationError" message.

Definition validateSchema {T} (schema : ZodSchema T) (data : JSON) : M T :=
  match schema data with
  | inr value => ret value
  | inl firstError =>
      throw (new_ValidationError (issue_message firstError)
               (String.concat "." (issue_path firstError))
               (issue_code firstError))
  end.

(** The [catch] turns the [SyntaxError] of [JSON.parse] into a
    [ValidationError] and throws anything else again. *)
Definition parseAndValidate {T} (schema : ZodSchema T) (jsonString : string) : M T :=
  match Json.parse jsonString with
  | inr data => validateSchema schema data
  | inl error => throw (new_ValidationError "Invalid JSON format" "body" "INVALID_JSON")
  end.

Definition validateEventBody {T} (event : APIGatewayProxyEvent)
    (schema : ZodSchema T) : M T :=
  match truthy_string (body event) with
  | None => throw (new_ValidationError "Request body is required" "body" "MISSING_BODY")
  | Some text => parseAndValidate schema text
  end.

(** [validatePathParams(event, PathParamsSchema).sessionId] *)
Definition validatePathParams (event : APIGatewayProxyEvent) : M (option string) :=
  ret (pathParameters_sessionId event).

(** ** The analysis handler *)

Module AnalysisHandler.

(** What [AnalysisRequestSchema] parses a body into. *)
Record AnalysisRequest : Type := mkAnalysisRequest {
  text : string;
  documentId : option string;
  metadata : option Metadata
}.

(** [value.length], read for its exceptions: a [TypeError] on [undefined]
    and on [null]. *)
Definition read_length (value : JSValue) : M unit :=
  match value with
  | None =>
      throw (JsError "TypeError"
               "Cannot read properties of undefined (reading 'length')")
  | Some JNull =>
      throw (JsError "TypeError" "Cannot read properties of null (reading 'length')")
  | Some _ => ret tt
  end.

(** The handler that the module exports.  The context of the logger is
    not part of a log entry here, so [logger.setContext] leaves no trace. *)
Definition handler (AnalysisRequestSchema : ZodSchema AnalysisRequest)
    (env : AnalysisService.AnalyzeTextEnv)
    (event : APIGatewayProxyEvent) (context : Context)
    : M (APIGatewayProxyResult AnalysisResponse) :=
  withErrorHandling
    (let requestId := awsRequestId context in
     Logger.info "Analysis request received" ;;;
     try_finally
       (analysisRequest <- validateEventBody event AnalysisRequestSchema ;;
        result <- AnalysisService.analyzeText env (text analysisRequest)
                    (documentId analysisRequest) (metadata analysisRequest) ;;
        (* the argument of businessEvent reads result.violations.length *)
        read_length (ar_violations result) ;;;
        Logger.businessEvent "Text analysis completed" ;;;
        ret (createSuccessResponse result 200 (Some requestId)))
       (timer "Analysis processing"))
    (rc_requestId (requestContext event)).

End AnalysisHandler.

(** ** The chat handler *)

Module ChatHandler.

(** What [ChatRequestSchema] parses a body into. *)
Record ChatRequest : Type := mkChatRequest {
  message : string;
  sessionId : option string;
  context : option Metadata
}.

(** The [data] of the responses of the routes. *)
Inductive Data : Type :=
| session_data (session : ChatSession)
| response_data (response : ChatResponse)
| messages_data (page : PaginatedResult ChatMessage)
| sessions_data (page : PaginatedResult ChatSession)
| null_data.

(** What the outside answers during one request, for the routes that are
    embedded; the three other routes are taken as they are. *)
Record Env : Type := mkEnv {
  env_sendMessage : ChatService.SendMessageEnv;
  env_getSession : option Exn;
  env_deleteSession : ChatService.DeleteSessionEnv;
  handleCreateSession : APIGatewayProxyEvent -> string -> M (APIGatewayProxyResult Data);
  handleGetMessages : APIGatewayProxyEvent -> string -> M (APIGatewayProxyResult Data);
  handleGetSessions : APIGatewayProxyEvent -> string -> M (APIGatewayProxyResult Data)
}.

Definition handleSendMessage (ChatRequestSchema : ZodSchema ChatRequest)
    (env : ChatService.SendMessageEnv) (event : APIGatewayProxyEvent)
    (requestId : string) : M (APIGatewayProxyResult Data) :=
  pathParams <- validatePathParams event ;;
  chatRequest <- validateEventBody event ChatRequestSchema ;;
  let sessionId :=
    match truthy_string pathParams with
    | Some id => Some id
    | None => sessionId chatRequest
    end in
  match truthy_string sessionId with
  | None => createErrorResponse (new_Error "Session ID required") (Some requestId)
  | Some sessionId =>
      match truthy_string (rc_authorizer_userId (requestContext event)) with
      | None => createErrorResponse (new_Error "User ID required") (Some requestId)
      | Some userId =>
          response <- ChatService.sendMessage env sessionId userId
                        (message chatRequest) ;;
          Logger.businessEvent "Chat message sent" ;;;
          ret (createSuccessResponse (response_data response) 200 (Some requestId))
      end
  end.

Definition handleGetSession (fault : option Exn) (event : APIGatewayProxyEvent)
    (requestId : string) : M (APIGatewayProxyResult Data) :=
  pathParams <- validatePathParams event ;;
  match truthy_string pathParams with
  | None => createErrorResponse (new_Error "Session ID required") (Some requestId)
  | Some sessionId =>
      match truthy_string (rc_authorizer_userId (requestContext event)) with
      | None => createErrorResponse (new_Error "User ID required") (Some requestId)
      | Some userId =>
          session <- ChatService.getSession fault sessionId userId ;;
          ret (createSuccessResponse (session_data session) 200 (Some requestId))
      end
  end.

Definition handleDeleteSession (env : ChatService.DeleteSessionEnv)
    (event : APIGatewayProxyEvent) (requestId : string)
    : M (APIGatewayProxyResult Data) :=
  pathParams <- validatePathParams event ;;
  match truthy_string pathParams with
  | None => createErrorResponse (new_Error "Session ID required") (Some requestId)
  | Some sessionId =>
      match truthy_string (rc_authorizer_userId (requestContext event)) with
      | None => createErrorResponse (new_Error "User ID required") (Some requestId)
      | Some userId =>
          ChatService.deleteSession env sessionId userId ;;;
          Logger.businessEvent "Chat session deleted" ;;;
          ret (createSuccessResponse null_data 204 (Some requestId))
      end
  end.

(** The [switch] of the handler: the route taken, or the error response
    of a request that has none. *)
Definition route (ChatRequestSchema : ZodSchema ChatRequest) (env : Env)
    (event : APIGatewayProxyEvent) (requestId : string)
    : M (APIGatewayProxyResult Data) :=
  let not_found := createErrorResponse (new_Error "Route not found") (Some requestId) in
  if decide (httpMethod event = "POST") then
    if endsWith (path event) "/chat" then handleCreateSession env event requestId
    else if js_includes (path event) "/chat/" && endsWith (path event) "/messages" then
      handleSendMessage ChatRequestSchema (env_sendMessage env) event requestId
    else not_found
  else if decide (httpMethod event = "GET") then
    if js_includes (path event) "/chat/" && endsWith (path event) "/messages" then
      handleGetMessages env event requestId
    else if js_includes (path event) "/chat/" then
      handleGetSession (env_getSession env) event requestId
    else if endsWith (path event) "/chat" then handleGetSessions env event requestId
    else not_found
  else if decide (httpMethod event = "DELETE") then
    if js_includes (path event) "/chat/" then
      handleDeleteSession (env_deleteSession env) event requestId
    else not_found
  else
    createErrorResponse
      (new_Error ("Method " +:+ httpMethod event +:+ " not allowed")) (Some requestId).

(** The handler that the module exports. *)
Definition handler (ChatRequestSchema : ZodSchema ChatRequest) (env : Env)
    (event : APIGatewayProxyEvent) (context : Context)
    : M (APIGatewayProxyResult Data) :=
  withErrorHandling
    (let requestId := awsRequestId context in
     Logger.info "Chat request received" ;;;
     try_finally (route ChatRequestSchema env event requestId)
                 (timer "Chat request processing"))
    (rc_requestId (requestContext event)).

End ChatHandler.

(** * Vocabulary of the properties *)

(** Two worlds that differ in the console at most. *)
Definition same_store (w w' : World) : Prop :=
  chat_sessions w' = chat_sessions w /\
  chat_messages w' = chat_messages w /\
  documents w' = documents w /\
  chat_context w' = chat_context w /\
  logger_level w' = logger_level w.



(** The messages that the table holds for a session, in the order of the
    sort key. *)
Definition session_messages (sessionId : string) (w : World) : list ChatMessage :=
  message_of_item <$> DynamoDBService.partition sessionId (chat_messages w).

Definition message_count (sessionId : string) (w : World) : nat :=
  length (session_messages sessionId w).


(** [steps R m]: running [m] takes a world to one related to it by [R],
    whether [m] returns or throws. *)
Definition steps {A} (R : relation World) (m : M A) : Prop :=
  forall w, R w (m w).2.

(** The primitive effects that a relation [R] on worlds allows. *)
Definition allows_log (R : relation World) : Prop :=
  forall level message error w, R w (Logger.write level message error w).
Definition allows_put_message (R : relation World) (key : MessageKey) : Prop :=
  forall attrs w, R w (set_chat_messages (insert key attrs) w).
Definition allows_index (R : relation World) : Prop :=
  forall id document w, R w (set_chat_context (insert id document) w).

(** The wrapper that the methods of [DynamoDBService] throw. *)
Definition wrap (failure : string) (e : Exn) : Exn :=
  new_Error (failure +:+ ": " +:+ exn_to_string e).

(** The error of the history query: the refusal of the service, or the
    fault of the call, as the adapter wraps it. *)
Definition query_failure (fault : option Exn) : Exn :=
  wrap "Failed to query chat-messages" (default DynamoDBService.unbound_value fault).




(** The session is there, the caller owns it, it is active, and reading it
    does not fault. *)
Definition preconditions (env : ChatService.SendMessageEnv)
    (sessionId userId : string) (w : World) : Prop :=
  ChatService.sme_get env = None /\
  exists session,
    chat_sessions w !! sessionId = Some session /\
    cs_userId session = userId /\
    cs_isActive session = true.

(** The hits that [performRAGSearch] hands back in an environment. *)
Definition retrieved (env : ChatService.SendMessageEnv)
    : list OpenSearchClient.SearchResult :=
  match ChatService.sme_embedQuery env, ChatService.sme_hybridSearch env with
  | inr _, inr r => OpenSearchClient.hits r
  | _, _ => []
  end.

(** The reply that the [try] block builds from the answer [r] of the
    model. *)
Definition reply (env : ChatService.SendMessageEnv) (sessionId : string)
    (r : BedrockClient.BedrockResponse) : ChatResponse :=
  mkChatResponse (BedrockClient.br_content r) sessionId
    (Some (ChatService.source_of_result <$> retrieved env))
    (Some (mkResponseMetadata
             (js_or_zero (Some (BedrockClient.br_inputTokens r
                                + BedrockClient.br_outputTokens r)))
             (ChatService.sme_endTime env - ChatService.sme_startTime env)
             (85 # 100))).

(** What [getSession] and [sendMessage] return. *)
Definition getSession_outcome (fault : option Exn) (sessionId userId : string)
    (w : World) : Exn + ChatSession :=
  match fault with
  | Some e => inl (wrap "Failed to get item from chat-sessions" e)
  | None =>
      match chat_sessions w !! sessionId with
      | None => inl (new_NotFoundError "Chat session" sessionId)
      | Some s =>
          if decide (cs_userId s <> userId)
          then inl (AppError "FORBIDDEN" "Access denied to this session" 403)
          else inr s
      end
  end.

Definition sendMessage_outcome (env : ChatService.SendMessageEnv)
    (sessionId userId : string) (w : World) : Exn + ChatResponse :=
  match getSession_outcome (ChatService.sme_get env) sessionId userId w with
  | inl e => inl e
  | inr session =>
      if negb (cs_isActive session) then
        inl (AppError "INVALID_SESSION" "Cannot send message to inactive session" 400)
      else
        match ChatService.sme_putUser env with
        | Some e => inl (wrap "Failed to put item in chat-messages" e)
        | None => inl (query_failure (ChatService.sme_query env))
        end
  end.

(** ** Sample worlds and environments *)

Definition session_1 : ChatSession :=
  mkChatSession "sess_1" "user_1" "Intake" 1000 1000 true None.

Definition closed_session_1 : ChatSession :=
  mkChatSession "sess_1" "user_1" "Intake" 1000 2000 false None.

(** One active session, no message yet, the logger at its default level. *)
Definition world_1 : World :=
  mkWorld {[ "sess_1" := session_1 ]} ∅ ∅ ∅ INFO [].

Definition closed_world_1 : World :=
  mkWorld {[ "sess_1" := closed_session_1 ]} ∅ ∅ ∅ INFO [].

Definition an_embedding : Exn + BedrockClient.EmbeddingResponse :=
  inr (BedrockClient.mkEmbeddingResponse [] 4).

Definition no_hits : Exn + OpenSearchClient.SearchResponse :=
  inr (OpenSearchClient.mkSearchResponse [] 0).

Definition an_answer : Exn + BedrockClient.BedrockResponse :=
  inr (BedrockClient.mkBedrockResponse "Please contact your officer today." 42 17).

Definition throttled : Exn :=
  JsError "ThrottlingException" "Rate exceeded".

(** Every service answers; the message is stamped [t + 1], the reply
    [reply_at]. *)
Definition calm_env (t reply_at : Timestamp) : ChatService.SendMessageEnv :=
  ChatService.mkSendMessageEnv
    t None (fun _ => 0%nat) (t + 1) None None an_embedding no_hits an_answer
    (t + 900) (fun _ => 1%nat) reply_at None None
    an_embedding an_embedding None None.


(** As [calm_env], but the model is throttled. *)
Definition model_down_env (stamp : Timestamp) : ChatService.SendMessageEnv :=
  ChatService.mkSendMessageEnv
    5000 None (fun _ => 0%nat) stamp None None an_embedding no_hits (inl throttled)
    5900 (fun _ => 1%nat) 5901 None None
    an_embedding an_embedding None None.


(** ** Relations between the world before and after a call *)

(** The two tables of the chat service are as they were. *)
Definition tables_kept (w w' : World) : Prop :=
  chat_sessions w' = chat_sessions w /\ chat_messages w' = chat_messages w.


(** A session that already holds one message of the user, stamped 5001. *)
Definition world_2 : World :=
  mkWorld {[ "sess_1" := session_1 ]}
          {[ ("sess_1", 5001) := mkMessageAttrs "msg_earlier" user "I was at work" None ]}
          ∅ ∅ INFO [].

Definition delete_env (now : Timestamp) : ChatService.DeleteSessionEnv :=
  ChatService.mkDeleteSessionEnv None now None.

(** The alphabet of [generateId] as a list, and its letter of index [k]. *)
Definition alphabet : list ascii := list_ascii_of_string chars.

Definition letter (k : nat) : ascii := default Ascii.zero (alphabet !! k).

Definition create_env (now : Timestamp) : ChatService.CreateSessionEnv :=
  ChatService.mkCreateSessionEnv (fun _ => 0%nat) now None.

Definition empty_world : World := mkWorld ∅ ∅ ∅ ∅ INFO [].

(** [v.name] for a value on which reading a property does not throw. *)
Definition member (v : JSON) (name : string) : JSValue :=
  match Json.get_property v name with
  | inr x => x
  | inl _ => None
  end.

(** The response that [analyzeText] builds from the parsed answer. *)
Definition analysis_of (v : JSON) (processingTime : Z) : AnalysisResponse :=
  mkAnalysisResponse (member v "violations") (member v "summary")
                     (member v "riskScore") (member v "recommendations")
                     processingTime.

(** The model answers with the text [content]; the lookup of the
    document and the write of the result both fault. *)
Definition analysis_env (content : string) : AnalysisService.AnalyzeTextEnv :=
  AnalysisService.mkAnalyzeTextEnv
    9000 (Some throttled)
    (inr (BedrockClient.mkBedrockResponse content 310 12))
    9750 9751 (Some throttled).

(** ** The message of the user *)

(** The message that [sendMessage] stores for the user, and the [catch] of
    its [try] block. *)
Definition user_message (env : ChatService.SendMessageEnv)
    (sessionId message : string) : ChatMessage :=
  mkChatMessage (generateId "msg" 8 (ChatService.sme_userDraws env)) sessionId user
                message (ChatService.sme_timestamp env) None.

Definition log_and_rethrow (error : Exn) : M ChatResponse :=
  Logger.error "Failed to process chat message" error ;;; throw error.


(** A turn of the list sent to the model. *)
Definition turn (role : Role) (content : string) : BedrockClient.ChatMessage :=
  BedrockClient.mkChatMessage role content.

(** ** The answers of the HTTP layer *)

(** [requestId || 'unknown'] *)
Definition or_unknown (requestId : option string) : string :=
  default "unknown" (truthy_string requestId).

(** The answer to an error that is not an [AppError]. *)
Definition internal_error {T} (requestId : option string) : APIGatewayProxyResult T :=
  error_response 500 (ERROR_CODES "INTERNAL_ERROR") "Internal server error"
                 (or_unknown requestId).

(** What [validateEventBody] returns or throws. *)
Definition validated {T} (event : APIGatewayProxyEvent) (schema : ZodSchema T)
    : Exn + T :=
  match truthy_string (body event) with
  | None => inl (new_ValidationError "Request body is required" "body" "MISSING_BODY")
  | Some text =>
      match Json.parse text with
      | inl _ => inl (new_ValidationError "Invalid JSON format" "body" "INVALID_JSON")
      | inr data =>
          match schema data with
          | inl issue =>
              inl (new_ValidationError (issue_message issue)
                     (String.concat "." (issue_path issue)) (issue_code issue))
          | inr value => inr value
          end
      end
  end.

(** The session that a request to send a message names: the path parameter,
    or else the field of the body. *)
Definition named_session (event : APIGatewayProxyEvent)
    (request : ChatHandler.ChatRequest) : option string :=
  truthy_string
    match truthy_string (pathParameters_sessionId event) with
    | Some id => Some id
    | None => ChatHandler.sessionId request
    end.

Definition caller (event : APIGatewayProxyEvent) : option string :=
  truthy_string (rc_authorizer_userId (requestContext event)).

(** A value on which reading [length] throws. *)
Definition has_no_length (value : JSValue) : Prop :=
  value = None \/ value = Some JNull.

(** A schema for the samples: an object with a string [text] of 10
    code units or more, and at most a string [documentId] besides. *)
Definition sample_analysis_schema : ZodSchema AnalysisHandler.AnalysisRequest :=
  fun data =>
    match member data "text", data with
    | Some (JStr text), JObj _ =>
        if (10 <=? js_length text)%nat then
          inr (AnalysisHandler.mkAnalysisRequest text
                 match member data "documentId" with
                 | Some (JStr id) => Some id
                 | _ => None
                 end
                 None)
        else inl (mkZodIssue "Too small" ["text"] "too_small")
    | _, _ => inl (mkZodIssue "Invalid input" ["text"] "invalid_type")
    end.

Definition sample_chat_schema : ZodSchema ChatHandler.ChatRequest :=
  fun data =>
    match member data "message", data with
    | Some (JStr message), JObj _ =>
        if (1 <=? js_length message)%nat then
          inr (ChatHandler.mkChatRequest message None None)
        else inl (mkZodIssue "Too small" ["message"] "too_small")
    | _, _ => inl (mkZodIssue "Invalid input" ["message"] "invalid_type")
    end.

Definition sample_context : Context := mkContext "aws-request-1" "analysis".

(** A request of [user_1] with the body [text], under the method and the
    path given. *)
Definition sample_event (method route : string) (session : option string)
    (text : string) : APIGatewayProxyEvent :=
  mkAPIGatewayProxyEvent method route session (Some text)
    (mkRequestContext (Some "gateway-request-1") (Some "user_1")).

(** The model answers with the text [content], and the store answers. *)
Definition analysis_env_ok (content : string) : AnalysisService.AnalyzeTextEnv :=
  AnalysisService.mkAnalyzeTextEnv
    9000 None (inr (BedrockClient.mkBedrockResponse content 310 12)) 9750 9751 None.

(** The three routes that are not embedded, standing for any. *)
Definition route_not_embedded (event : APIGatewayProxyEvent) (requestId : string)
    : M (APIGatewayProxyResult ChatHandler.Data) :=
  ret (createSuccessResponse ChatHandler.null_data 200 (Some requestId)).

Definition sample_chat_env (env : ChatService.SendMessageEnv) : ChatHandler.Env :=
  ChatHandler.mkEnv env None (delete_env 7000)
    route_not_embedded route_not_embedded route_not_embedded.

(** The body [{"text": "He missed two appointments.", "documentId": "doc_1"}]. *)
Definition sample_analysis_body : string :=
  "{" +:+ dq +:+ "text" +:+ dq +:+ ": " +:+ dq +:+ "He missed two appointments."
  +:+ dq +:+ ", " +:+ dq +:+ "documentId" +:+ dq +:+ ": " +:+ dq +:+ "doc_1" +:+ dq
  +:+ "}".

(** The body [{"message": "hello"}]. *)
Definition sample_chat_body : string :=
  "{" +:+ dq +:+ "message" +:+ dq +:+ ": " +:+ dq +:+ "hello" +:+ dq +:+ "}".

(** The response of [createErrorResponse] to an error. *)
Definition error_answer {T} (error : Exn) (requestId : option string)
    : APIGatewayProxyResult T :=
  error_response
    (if is_AppError error then exn_statusCode error else 500)
    (if is_AppError error then exn_code error else ERROR_CODES "INTERNAL_ERROR")
    (if is_AppError error then exn_message error else "Internal server error")
    (or_unknown requestId).

(** ** The log *)

(** From [w] to [w'] the logger keeps its level and the console what it
    held, and every entry written is at that level or above. *)
Definition respects_level (w w' : World) : Prop :=
  logger_level w' = logger_level w /\
  exists entries,
    console w' = console w ++ entries /\
    Forall (fun entry =>
              LogLevel_value (logger_level w) <= LogLevel_value (le_level entry))
           entries.

(** The entry that [logger.error(message, error)] writes. *)
Definition error_entry (message : string) (error : Exn) : LogEntry :=
  mkLogEntry ERROR message (Some (exn_name error, exn_message error)).

(** * Properties *)

(** ** The monad *)

Lemma bind_inr {A B} (m : M A) (k : A -> M B) w a w' :
  m w = (inr a, w') -> bind m k w = k a w'.
Proof. intros H. unfold bind. by rewrite H. Qed.

Lemma bind_inl {A B} (m : M A) (k : A -> M B) w e w' :
  m w = (inl e, w') -> bind m k w = (inl e, w').
Proof. intros H. unfold bind. by rewrite H. Qed.

Lemma try_catch_inr {A} (m : M A) h w a w' :
  m w = (inr a, w') -> try_catch m h w = (inr a, w').
Proof. intros H. unfold try_catch. by rewrite H. Qed.

Lemma try_catch_inl {A} (m : M A) h w e w' :
  m w = (inl e, w') -> try_catch m h w = h e w'.
Proof. intros H. unfold try_catch. by rewrite H. Qed.

(** ** The logger touches the console only *)

Lemma same_store_refl w : same_store w w.
Proof. by repeat split. Qed.

Lemma same_store_trans w1 w2 w3 :
  same_store w1 w2 -> same_store w2 w3 -> same_store w1 w3.
Proof.
  intros (?&?&?&?&?) (?&?&?&?&?). repeat split; congruence.
Qed.

Lemma write_same_store level message error w :
  same_store w (Logger.write level message error w).
Proof.
  unfold Logger.write. destruct (_ <? _); by repeat split.
Qed.

(** An entry at or above the configured level reaches the console. *)
Lemma write_appends level message error w :
  LogLevel_value (logger_level w) <= LogLevel_value level ->
  exists entry,
    le_level entry = level /\ le_message entry = message /\
    console (Logger.write level message error w) = console w ++ [entry].
Proof.
  intros Hle. unfold Logger.write.
  destruct (Z.ltb_spec (LogLevel_value level) (LogLevel_value (logger_level w)));
    [lia |].
  eexists; repeat split; reflexivity.
Qed.

(** ** The partitions of chat-messages *)

Section Partition.

Import DynamoDBService.

Implicit Types (table : gmap MessageKey MessageAttrs) (kv : MessageKey * MessageAttrs).

#[local] Instance key_le_trans : Transitive key_le.
Proof. intros a b c. unfold key_le. lia. Qed.

#[local] Instance key_le_total : Total key_le.
Proof. intros a b. unfold key_le. lia. Qed.




Lemma StronglySorted_sublist {A} (R : relation A) (l1 l2 : list A) :
  l1 `sublist_of` l2 -> StronglySorted R l2 -> StronglySorted R l1.
Proof.
  induction 1 as [| x l1 l2 Hsub IH | x l1 l2 Hsub IH]; intros Hs.
  - constructor.
  - apply StronglySorted_cons in Hs as [Hall Hs].
    constructor; [by apply IH |].
    rewrite Forall_forall in Hall |- *. intros y Hy.
    apply Hall. by eapply elem_of_sublist.
  - apply StronglySorted_cons in Hs as [_ Hs]. by apply IH.
Qed.


End Partition.

(** ** Frames: what a method may do to the world *)

Section Frame.

Context (R : relation World) `{!PreOrder R}.

Lemma steps_ret {A} (a : A) : steps R (ret a).
Proof. intros w. simpl. reflexivity. Qed.

Lemma steps_throw {A} (e : Exn) : steps R (@throw A e).
Proof. intros w. simpl. reflexivity. Qed.

Lemma steps_gets {A} (f : World -> A) : steps R (gets f).
Proof. intros w. simpl. reflexivity. Qed.

Lemma steps_bind {A B} (m : M A) (k : A -> M B) :
  steps R m -> (forall a, steps R (k a)) -> steps R (bind m k).
Proof.
  intros Hm Hk w. unfold bind. specialize (Hm w).
  destruct (m w) as [[e | a] w1]; simpl in *; [done |].
  etransitivity; [exact Hm | apply Hk].
Qed.

Lemma steps_try_catch {A} (m : M A) (h : Exn -> M A) :
  steps R m -> (forall e, steps R (h e)) -> steps R (try_catch m h).
Proof.
  intros Hm Hh w. unfold try_catch. specialize (Hm w).
  destruct (m w) as [[e | a] w1]; simpl in *; [| done].
  etransitivity; [exact Hm | apply Hh].
Qed.

Lemma steps_send {A} fault failure (effect : World -> A * World) :
  (forall w, R w (effect w).2) -> steps R (DynamoDBService.send fault failure effect).
Proof.
  intros He w. unfold DynamoDBService.send. destruct fault; simpl; [reflexivity |].
  specialize (He w). by destruct (effect w).
Qed.

Lemma steps_log level message error :
  allows_log R -> steps R (Logger.log level message error).
Proof. intros H w. apply H. Qed.

Lemma steps_getSession fault sessionId userId :
  steps R (ChatService.getSession fault sessionId userId).
Proof.
  apply steps_bind.
  - apply steps_send. intros w. simpl. reflexivity.
  - intros [s |]; [| apply steps_throw].
    destruct (decide _); [apply steps_throw | apply steps_ret].
Qed.

Lemma steps_getChatHistory fault sessionId limit :
  steps R (ChatService.getChatHistory fault sessionId limit).
Proof. apply steps_bind; [apply steps_throw | intros; apply steps_ret]. Qed.

Lemma steps_performRAGSearch embed search query limit :
  allows_log R -> steps R (ChatService.performRAGSearch embed search query limit).
Proof.
  intros Hlog. apply steps_try_catch.
  - apply steps_bind.
    { destruct embed; [apply steps_throw | apply steps_ret]. }
    intros emb. apply steps_bind; [| intros; apply steps_ret].
    destruct search; [apply steps_throw | apply steps_ret].
  - intros e. apply steps_bind; [by apply steps_log | intros; apply steps_ret].
Qed.

Lemma steps_indexDocument fault id document :
  allows_index R -> steps R (OpenSearchClient.indexDocument_chat_context fault id document).
Proof.
  intros Hidx. destruct fault; simpl; [apply steps_throw |].
  intros w. apply Hidx.
Qed.

Lemma steps_indexConversation eu ea iu ia sessionId um am :
  allows_log R -> allows_index R ->
  steps R (ChatService.indexConversation eu ea iu ia sessionId um am).
Proof.
  intros Hlog Hidx. apply steps_try_catch.
  - apply steps_bind.
    { destruct eu; [apply steps_throw | apply steps_ret]. }
    intros e1. apply steps_bind.
    { destruct ea; [apply steps_throw | apply steps_ret]. }
    intros e2. apply steps_bind; [by apply steps_indexDocument |].
    intros _. apply steps_bind; [by apply steps_indexDocument |].
    intros _. by apply steps_log.
  - intros e. by apply steps_log.
Qed.

Lemma steps_put_chat_messages fault item :
  allows_put_message R (key_of_message item) ->
  steps R (DynamoDBService.put_chat_messages fault item).
Proof. intros Hput. apply steps_send. intros w. apply Hput. Qed.

Lemma steps_update_chat_sessions fault id set :
  steps R (DynamoDBService.update_chat_sessions fault id set).
Proof. apply steps_send. intros w. simpl. reflexivity. Qed.

Lemma steps_exchange env sessionId message userMessage :
  allows_log R -> allows_index R ->
  allows_put_message R (sessionId, ChatService.sme_assistantTimestamp env) ->
  steps R (ChatService.exchange env sessionId message userMessage).
Proof.
  intros Hlog Hidx Hput. unfold ChatService.exchange.
  apply steps_bind; [apply steps_getChatHistory |]. intros history.
  unfold ChatService.reply_to.
  apply steps_bind; [by apply steps_performRAGSearch |]. intros results.
  apply steps_bind.
  { destruct (ChatService.sme_invokeChat env); [apply steps_throw | apply steps_ret]. }
  intros response.
  apply steps_bind; [by apply steps_put_chat_messages |]. intros _.
  apply steps_bind; [apply steps_update_chat_sessions |]. intros _.
  apply steps_bind; [by apply steps_indexConversation |]. intros _.
  apply steps_bind; [by apply steps_log |]. intros _.
  apply steps_ret.
Qed.

Lemma steps_sendMessage env sessionId userId message :
  allows_log R -> allows_index R ->
  allows_put_message R (sessionId, ChatService.sme_timestamp env) ->
  allows_put_message R (sessionId, ChatService.sme_assistantTimestamp env) ->
  steps R (ChatService.sendMessage env sessionId userId message).
Proof.
  intros Hlog Hidx Hput1 Hput2. unfold ChatService.sendMessage.
  apply steps_bind; [apply steps_getSession |]. intros session.
  destruct (negb _); [apply steps_throw |].
  apply steps_bind; [by apply steps_put_chat_messages |]. intros _.
  apply steps_try_catch; [by apply steps_exchange |].
  intros e. apply steps_bind; [by apply steps_log | intros; apply steps_throw].
Qed.

End Frame.

(** One step of a frame proof: the rule of the construct at hand. *)
Ltac frame_step :=
  lazymatch goal with
  | |- steps ?R _ =>
      first
        [ apply (steps_ret R _)
        | apply (steps_throw R _)
        | apply (steps_getSession R _)
        | apply (steps_getChatHistory R _)
        | apply (steps_performRAGSearch R _); assumption
        | apply (steps_indexConversation R _); assumption
        | apply (steps_put_chat_messages R _); assumption
        | apply (steps_update_chat_sessions R _)
        | apply (steps_log R _); assumption
        | apply (steps_bind R _); [| intros ?]
        | apply (steps_try_catch R _); [| intros ?] ]
  end.

Ltac frame := repeat frame_step.

#[global] Instance same_store_preorder : PreOrder same_store.
Proof.
  split; [intros w; apply same_store_refl | intros w1 w2 w3; apply same_store_trans].
Qed.

#[global] Instance tables_kept_preorder : PreOrder tables_kept.
Proof.
  split; [by intros w |].
  intros w1 w2 w3 [? ?] [? ?]. split; congruence.
Qed.

Lemma write_tables_kept : allows_log tables_kept.
Proof.
  intros level message error w. unfold Logger.write.
  by destruct (_ <? _).
Qed.

(** ** What the chat service returns *)

Lemma fst_bind {A B} (m : M A) (k : A -> M B) w :
  (bind m k w).1 =
  match (m w).1 with
  | inl e => inl e
  | inr a => (k a (m w).2).1
  end.
Proof. unfold bind. by destruct (m w) as [[e | a] w1]. Qed.

Lemma snd_bind {A B} (m : M A) (k : A -> M B) w :
  (bind m k w).2 =
  match (m w).1 with
  | inl e => (m w).2
  | inr a => (k a (m w).2).2
  end.
Proof. unfold bind. by destruct (m w) as [[e | a] w1]. Qed.

Lemma fst_try_catch {A} (m : M A) h w :
  (try_catch m h w).1 =
  match (m w).1 with
  | inl e => (h e (m w).2).1
  | inr a => inr a
  end.
Proof. unfold try_catch. by destruct (m w) as [[e | a] w1]. Qed.

Lemma snd_try_catch {A} (m : M A) h w :
  (try_catch m h w).2 =
  match (m w).1 with
  | inl e => (h e (m w).2).2
  | inr a => (m w).2
  end.
Proof. unfold try_catch. by destruct (m w) as [[e | a] w1]. Qed.

Lemma send_eq {A} fault failure (effect : World -> A * World) w :
  DynamoDBService.send fault failure effect w =
  match fault with
  | Some e => (inl (wrap failure e), w)
  | None => (inr (effect w).1, (effect w).2)
  end.
Proof. unfold DynamoDBService.send. destruct fault; [done |]. by destruct (effect w). Qed.

Lemma getSession_eq fault sessionId userId w :
  ChatService.getSession fault sessionId userId w =
  (getSession_outcome fault sessionId userId w, w).
Proof.
  unfold ChatService.getSession, DynamoDBService.getChatSession,
    DynamoDBService.get_chat_sessions, getSession_outcome, bind.
  rewrite send_eq. destruct fault; [done |]. simpl.
  destruct (chat_sessions w !! sessionId); [| done].
  by destruct (decide _).
Qed.

(** The history query is refused, whatever is asked for. *)
Lemma getChatMessages_eq fault sessionId options w :
  DynamoDBService.getChatMessages fault sessionId options w
  = (inl (query_failure fault), w).
Proof. done. Qed.

Lemma getChatHistory_eq fault sessionId limit w :
  ChatService.getChatHistory fault sessionId limit w = (inl (query_failure fault), w).
Proof. done. Qed.


(** Post-reply indexing never throws. *)
Lemma indexConversation_result eu ea iu ia sessionId um am w :
  (ChatService.indexConversation eu ea iu ia sessionId um am w).1 = inr tt.
Proof.
  unfold ChatService.indexConversation, try_catch, bind.
  destruct eu; simpl; [done |]. destruct ea; simpl; [done |].
  unfold OpenSearchClient.indexDocument_chat_context.
  destruct iu; simpl; [done |]. by destruct ia.
Qed.

(** The [try] block of [sendMessage] stops at its first step. *)
Lemma exchange_eq env sessionId message userMessage w :
  ChatService.exchange env sessionId message userMessage w
  = (inl (query_failure (ChatService.sme_query env)), w).
Proof. done. Qed.

(** What [sendMessage] returns and the world it leaves. *)
Lemma sendMessage_eq env sessionId userId message w :
  ChatService.sendMessage env sessionId userId message w =
  match getSession_outcome (ChatService.sme_get env) sessionId userId w with
  | inl e => (inl e, w)
  | inr session =>
      if negb (cs_isActive session) then
        (inl (AppError "INVALID_SESSION" "Cannot send message to inactive session" 400),
         w)
      else
        match ChatService.sme_putUser env with
        | Some e => (inl (wrap "Failed to put item in chat-messages" e), w)
        | None =>
            (inl (query_failure (ChatService.sme_query env)),
             Logger.write ERROR "Failed to process chat message"
               (Some (query_failure (ChatService.sme_query env)))
               (set_chat_messages
                  (insert (sessionId, ChatService.sme_timestamp env)
                          (attrs_of_message (user_message env sessionId message)))
                  w))
        end
  end.
Proof.
  unfold ChatService.sendMessage, bind. rewrite getSession_eq.
  destruct (getSession_outcome _ _ _ _) as [e | session]; [done |].
  destruct (negb _); [done |].
  unfold DynamoDBService.put_chat_messages. rewrite send_eq.
  by destruct (ChatService.sme_putUser env).
Qed.

Lemma sendMessage_result env sessionId userId message w :
  (ChatService.sendMessage env sessionId userId message w).1 =
  sendMessage_outcome env sessionId userId w.
Proof.
  rewrite sendMessage_eq. unfold sendMessage_outcome.
  destruct (getSession_outcome _ _ _ _) as [e | session]; [done |].
  destruct (negb _); [done |].
  by destruct (ChatService.sme_putUser env).
Qed.

(** ** The conversational memory *)

(** C1.  The conversational-memory step never retrieves a message.
    Whatever the session holds and whatever number of messages is asked
    for, [getChatHistory] throws: the query that is sent names
    [:sessionId] and carries no value for it, so the store refuses it (or
    the call faults before it answers).  No history is returned, and the
    world is left as it is. *)
Theorem C1_history_is_never_fetched (fault : option Exn) (sessionId : string)
    (limit : Z) (w : World) :
  ChatService.getChatHistory fault sessionId limit w = (inl (query_failure fault), w) /\
  forall history w', ChatService.getChatHistory fault sessionId limit w <> (inr history, w').
Proof.
  pose proof (getChatHistory_eq fault sessionId limit w) as Hrun.
  split; [exact Hrun |].
  intros history w' Hreturns. rewrite Hrun in Hreturns. discriminate Hreturns.
Qed.

(** The history of a session that holds one message is asked for: the
    call throws. *)
Example history_of_one_message :
  session_messages "sess_1" world_2
  = [mkChatMessage "msg_earlier" "sess_1" user "I was at work" 5001 None] /\
  ChatService.getChatHistory None "sess_1" 10 world_2
  = (inl (new_Error "Failed to query chat-messages: ValidationException: Invalid KeyConditionExpression: An expression attribute value used in expression is not defined; attribute value: :sessionId"),
     world_2).
Proof. split; vm_compute; reflexivity. Qed.

(** ** What [sendMessage] returns *)





(** With a history at hand and every service answering, the rest of the
    [try] block returns a reply, with no source when retrieval finds
    nothing, and with the confidence 0.85. *)
Example reply_to_returns :
  exists reply w',
    ChatService.reply_to (calm_env 5000 5901) "sess_1" "I missed my appointment"
      (user_message (calm_env 5000 5901) "sess_1" "I missed my appointment")
      [] world_1
    = (inr reply, w') /\
    cr_message reply = "Please contact your officer today." /\
    cr_sources reply = Some [] /\
    rm_confidence <$> cr_metadata reply = Some (85 # 100).
Proof. eexists _, _. split; [vm_compute; reflexivity |]. by repeat split. Qed.

Lemma preconditions_outcome env sessionId userId w :
  preconditions env sessionId userId w ->
  sendMessage_outcome env sessionId userId w =
  match ChatService.sme_putUser env with
  | Some e => inl (wrap "Failed to put item in chat-messages" e)
  | None => inl (query_failure (ChatService.sme_query env))
  end.
Proof.
  intros (Hget & session & Hs & Hu & Ha).
  unfold sendMessage_outcome, getSession_outcome. rewrite Hget, Hs.
  destruct (decide _); [done |]. by rewrite Ha.
Qed.



Lemma world_1_preconditions env :
  ChatService.sme_get env = None -> preconditions env "sess_1" "user_1" world_1.
Proof. intros H. split; [done |]. exists session_1. by repeat split. Qed.



(** ** Retrieval that throws *)




(** ** The inactive session *)

(** C4.  On a session that is stored as inactive, [sendMessage] fails and
    leaves the world as it was: no message is written, the count of the
    session's messages is unchanged and the session stays inactive.  When
    the session is read without fault and the caller owns it, the failure
    is the INVALID_SESSION error. *)
Theorem C4_inactive_session_is_rejected env sessionId userId message w session :
  chat_sessions w !! sessionId = Some session ->
  cs_isActive session = false ->
  (exists e, (ChatService.sendMessage env sessionId userId message w).1 = inl e) /\
  (ChatService.sendMessage env sessionId userId message w).2 = w /\
  message_count sessionId (ChatService.sendMessage env sessionId userId message w).2
    = message_count sessionId w /\
  cs_isActive <$>
    chat_sessions (ChatService.sendMessage env sessionId userId message w).2 !! sessionId
    = Some false /\
  (ChatService.sme_get env = None -> cs_userId session = userId ->
   (ChatService.sendMessage env sessionId userId message w).1
   = inl (AppError "INVALID_SESSION" "Cannot send message to inactive session" 400)).
Proof.
  intros Hs Hinactive.
  assert (Hworld : (ChatService.sendMessage env sessionId userId message w).2 = w).
  { unfold ChatService.sendMessage. rewrite snd_bind, getSession_eq. simpl.
    unfold getSession_outcome. destruct (ChatService.sme_get env); [done |].
    rewrite Hs. destruct (decide _); [done |]. by rewrite Hinactive. }
  rewrite Hworld, Hs, sendMessage_result. simpl.
  unfold sendMessage_outcome, getSession_outcome. rewrite Hs, Hinactive.
  repeat split.
  - destruct (ChatService.sme_get env); [by eexists |].
    destruct (decide _); simpl; [by eexists |].
    rewrite Hinactive. by eexists.
  - intros -> Hu. destruct (decide _); [done |]. simpl. by rewrite Hinactive.
Qed.

Lemma C4_inactive_session_is_rejected_witness :
  chat_sessions closed_world_1 !! "sess_1" = Some closed_session_1 /\
  cs_isActive closed_session_1 = false /\
  (ChatService.sendMessage (calm_env 5000 5901) "sess_1" "user_1"
     "I missed my appointment" closed_world_1).2 = closed_world_1 /\
  (ChatService.sendMessage (calm_env 5000 5901) "sess_1" "user_1"
     "I missed my appointment" closed_world_1).1
  = inl (AppError "INVALID_SESSION" "Cannot send message to inactive session" 400).
Proof.
  assert (H1 : chat_sessions closed_world_1 !! "sess_1" = Some closed_session_1)
    by (vm_compute; reflexivity).
  assert (H2 : cs_isActive closed_session_1 = false) by reflexivity.
  destruct (C4_inactive_session_is_rejected (calm_env 5000 5901) "sess_1" "user_1"
              "I missed my appointment" closed_world_1 closed_session_1 H1 H2)
    as (_ & Hw & _ & _ & He).
  split; [exact H1 |]. split; [exact H2 |]. split; [exact Hw |].
  apply He; reflexivity.
Defined.

(** ** What [sendMessage] does to the chat-messages table *)

(** The table after [sendMessage]: as it was, or with the user's message
    put under the session and the timestamp of the call. *)
Lemma sendMessage_messages env sessionId userId message w :
  chat_messages (ChatService.sendMessage env sessionId userId message w).2
  = chat_messages w \/
  chat_messages (ChatService.sendMessage env sessionId userId message w).2
  = <[(sessionId, ChatService.sme_timestamp env) :=
        attrs_of_message (user_message env sessionId message)]> (chat_messages w).
Proof.
  rewrite sendMessage_eq.
  destruct (getSession_outcome _ _ _ _) as [e | session]; [by left |].
  destruct (negb _); [by left |].
  destruct (ChatService.sme_putUser env); [by left |].
  right. cbn [snd].
  by destruct (write_tables_kept ERROR "Failed to process chat message"
                 (Some (query_failure (ChatService.sme_query env)))
                 (set_chat_messages
                    (insert (sessionId, ChatService.sme_timestamp env)
                       (attrs_of_message (user_message env sessionId message))) w))
    as [_ ->].
Qed.

(** When the session accepts the message and the store takes it, the
    rest of [sendMessage] is its [try] block run in the world that holds
    the message, and the message is in the table at the end. *)
Lemma sendMessage_accepted env sessionId userId message w :
  preconditions env sessionId userId w ->
  ChatService.sme_putUser env = None ->
  ChatService.sendMessage env sessionId userId message w
  = try_catch (ChatService.exchange env sessionId message
                 (user_message env sessionId message))
      log_and_rethrow
      (set_chat_messages
         (insert (sessionId, ChatService.sme_timestamp env)
                 (attrs_of_message (user_message env sessionId message))) w) /\
  chat_messages (ChatService.sendMessage env sessionId userId message w).2
  = <[(sessionId, ChatService.sme_timestamp env) :=
        attrs_of_message (user_message env sessionId message)]> (chat_messages w).
Proof.
  intros (Hget & session & Hs & Hu & Ha) Hput. split.
  - unfold ChatService.sendMessage, bind. rewrite getSession_eq.
    unfold getSession_outcome. rewrite Hget, Hs.
    destruct (decide _); [done |]. rewrite Ha. cbn [negb].
    unfold DynamoDBService.put_chat_messages. rewrite send_eq, Hput.
    reflexivity.
  - rewrite sendMessage_eq. unfold getSession_outcome. rewrite Hget, Hs.
    destruct (decide _); [done |]. rewrite Ha, Hput. cbn [negb snd].
    by destruct (write_tables_kept ERROR "Failed to process chat message"
                   (Some (query_failure (ChatService.sme_query env)))
                   (set_chat_messages
                      (insert (sessionId, ChatService.sme_timestamp env)
                         (attrs_of_message (user_message env sessionId message))) w))
      as [_ ->].
Qed.

(** ** Counting the messages of a session *)










(** ** The order of the stored messages *)


Lemma sendMessage_keeps_other_messages env sessionId userId message w k :
  k <> (sessionId, ChatService.sme_timestamp env) ->
  chat_messages (ChatService.sendMessage env sessionId userId message w).2 !! k
  = chat_messages w !! k.
Proof.
  intros Hk.
  destruct (sendMessage_messages env sessionId userId message w) as [-> | ->];
    [done |].
  by rewrite lookup_insert_ne.
Qed.




(** ** Deleting a session *)

Lemma deleteSession_eq env sessionId userId w :
  ChatService.deleteSession env sessionId userId w =
  match getSession_outcome (ChatService.dse_get env) sessionId userId w with
  | inl e => (inl e, w)
  | inr _ =>
      match ChatService.dse_update env with
      | Some e => (inl (wrap "Failed to update item in chat-sessions" e), w)
      | None => (inr tt, Logger.write INFO "Chat session deactivated" None w)
      end
  end.
Proof.
  unfold ChatService.deleteSession, bind. rewrite getSession_eq.
  destruct (getSession_outcome _ _ _ _); [done |].
  unfold DynamoDBService.update_chat_sessions. rewrite send_eq.
  by destruct (ChatService.dse_update env).
Qed.

Lemma deleteSession_run env sessionId userId w session :
  chat_sessions w !! sessionId = Some session ->
  cs_userId session = userId ->
  ChatService.dse_get env = None ->
  ChatService.dse_update env = None ->
  (ChatService.deleteSession env sessionId userId w).1 = inr tt /\
  same_store w (ChatService.deleteSession env sessionId userId w).2.
Proof.
  intros Hs Hu Hget Hupd. rewrite deleteSession_eq.
  unfold getSession_outcome. rewrite Hget, Hs, Hupd.
  destruct (decide _); [done |]. split; [done |].
  apply write_same_store.
Qed.

(** C7.  For a session that the caller owns, and a store that answers,
    [deleteSession] succeeds, and succeeds again when it is called a
    second time; the state after two calls is the state after one.  But
    that state is the one before the calls: the session is stored as it
    was, active if it was active, and no table is touched. *)
Theorem C7_deleteSession_changes_nothing env1 env2 sessionId userId w session :
  chat_sessions w !! sessionId = Some session ->
  cs_userId session = userId ->
  ChatService.dse_get env1 = None -> ChatService.dse_update env1 = None ->
  ChatService.dse_get env2 = None -> ChatService.dse_update env2 = None ->
  (ChatService.deleteSession env1 sessionId userId w).1 = inr tt /\
  (ChatService.deleteSession env2 sessionId userId
     (ChatService.deleteSession env1 sessionId userId w).2).1 = inr tt /\
  same_store w (ChatService.deleteSession env1 sessionId userId w).2 /\
  same_store w
    (ChatService.deleteSession env2 sessionId userId
       (ChatService.deleteSession env1 sessionId userId w).2).2 /\
  chat_sessions
    (ChatService.deleteSession env2 sessionId userId
       (ChatService.deleteSession env1 sessionId userId w).2).2 !! sessionId
  = Some session.
Proof.
  intros Hs Hu Hget1 Hupd1 Hget2 Hupd2.
  destruct (deleteSession_run env1 sessionId userId w session Hs Hu Hget1 Hupd1)
    as (Hr1 & Hw1).
  set (w1 := (ChatService.deleteSession env1 sessionId userId w).2) in *.
  assert (Hs' : chat_sessions w1 !! sessionId = Some session).
  { destruct Hw1 as (-> & _). exact Hs. }
  destruct (deleteSession_run env2 sessionId userId w1 session Hs' Hu Hget2 Hupd2)
    as (Hr2 & Hw2).
  split; [exact Hr1 |]. split; [exact Hr2 |]. split; [exact Hw1 |].
  split; [by apply (same_store_trans w w1) |].
  destruct Hw2 as (-> & _). exact Hs'.
Qed.

Lemma C7_deleteSession_changes_nothing_witness :
  chat_sessions world_1 !! "sess_1" = Some session_1 /\
  cs_userId session_1 = "user_1" /\
  (ChatService.deleteSession (delete_env 8000) "sess_1" "user_1"
     (ChatService.deleteSession (delete_env 7000) "sess_1" "user_1" world_1).2).1
  = inr tt /\
  cs_isActive <$>
    chat_sessions
      (ChatService.deleteSession (delete_env 8000) "sess_1" "user_1"
         (ChatService.deleteSession (delete_env 7000) "sess_1" "user_1" world_1).2).2
      !! "sess_1"
  = Some true.
Proof.
  assert (Hs : chat_sessions world_1 !! "sess_1" = Some session_1)
    by (vm_compute; reflexivity).
  destruct (C7_deleteSession_changes_nothing (delete_env 7000) (delete_env 8000)
              "sess_1" "user_1" world_1 session_1 Hs eq_refl eq_refl eq_refl
              eq_refl eq_refl) as (_ & H2 & _ & _ & H5).
  split; [exact Hs |]. split; [reflexivity |]. split; [exact H2 |].
  rewrite H5. reflexivity.
Defined.

(** ** Identifiers *)

Example generateId_example :
  generateId "sess" 8 (fun i => (i * 8)%nat) = "sess_AIQYgow4".
Proof. vm_compute. reflexivity. Qed.

Lemma get_lookup (s : string) (i : nat) :
  String.get i s = list_ascii_of_string s !! i.
Proof.
  revert i. induction s as [| c s IH]; intros [| i]; simpl; auto.
Qed.

Lemma list_ascii_app (s1 s2 : string) :
  list_ascii_of_string (s1 +:+ s2) = list_ascii_of_string s1 ++ list_ascii_of_string s2.
Proof. induction s1 as [| c s1 IH]; simpl; [done |]. by rewrite IH. Qed.

Lemma list_ascii_inj (s1 s2 : string) :
  list_ascii_of_string s1 = list_ascii_of_string s2 -> s1 = s2.
Proof.
  intros H. rewrite <- (string_of_list_ascii_of_string s1),
    <- (string_of_list_ascii_of_string s2). by rewrite H.
Qed.

Lemma alphabet_length : length alphabet = 62%nat.
Proof. reflexivity. Qed.

Lemma alphabet_NoDup : NoDup alphabet.
Proof. apply (bool_decide_unpack _). vm_compute. reflexivity. Qed.

Lemma alphabet_letter (k : nat) : (k < 62)%nat -> alphabet !! k = Some (letter k).
Proof.
  intros Hk. unfold letter.
  destruct (alphabet !! k) as [c |] eqn:Hc; [done |].
  apply lookup_ge_None in Hc. rewrite alphabet_length in Hc. lia.
Qed.

Lemma letter_inj (j k : nat) :
  (j < 62)%nat -> (k < 62)%nat -> letter j = letter k -> j = k.
Proof.
  intros Hj Hk Heq.
  eapply (NoDup_lookup alphabet j k (letter j)); [apply alphabet_NoDup | |].
  - by apply alphabet_letter.
  - rewrite Heq. by apply alphabet_letter.
Qed.

Lemma charAt_in_range (k : nat) :
  (k < 62)%nat -> list_ascii_of_string (charAt chars k) = [letter k].
Proof.
  intros Hk. unfold charAt. rewrite get_lookup.
  fold alphabet. by rewrite (alphabet_letter k Hk).
Qed.

(** The loop appends one letter of the alphabet per draw. *)
Lemma generateId_loop_letters (draws : nat -> nat) (n i : nat) (acc : string) :
  (forall j, (i <= j < i + n)%nat -> (draws j < 62)%nat) ->
  list_ascii_of_string (generateId_loop draws i n acc)
  = list_ascii_of_string acc ++ ((fun j => letter (draws j)) <$> seq i n).
Proof.
  revert i acc. induction n as [| n IH]; intros i acc Hrange; simpl.
  - by rewrite app_nil_r.
  - rewrite IH by (intros j Hj; apply Hrange; lia).
    rewrite list_ascii_app, charAt_in_range by (apply Hrange; lia).
    by rewrite <- app_assoc.
Qed.

Lemma generateId_letters (prefix : string) (n : nat) (draws : nat -> nat) :
  (forall j, (j < n)%nat -> (draws j < 62)%nat) ->
  list_ascii_of_string (generateId prefix n draws)
  = (if decide (prefix = "") then [] else list_ascii_of_string (prefix +:+ "_"))
      ++ ((fun j => letter (draws j)) <$> seq 0 n).
Proof.
  intros Hrange. unfold generateId.
  pose proof (generateId_loop_letters draws n 0 "") as Hloop. simpl in Hloop.
  destruct (decide (prefix = "")).
  - apply Hloop. intros j Hj. apply Hrange. lia.
  - rewrite !list_ascii_app, Hloop by (intros j Hj; apply Hrange; lia).
    by rewrite app_assoc.
Qed.

(** C8, as amended.  An identifier is its prefix, an underscore and one
    letter of the 62-letter alphabet per random draw, and nothing else: two
    identifiers minted with the same prefix and length are equal exactly
    when the draws of the two calls are equal one by one.  (Nothing is
    checked against the identifiers already in use.) *)
Theorem C8_identifiers_differ_iff_draws_differ (prefix : string) (n : nat)
    (draws1 draws2 : nat -> nat) :
  (forall j, (j < n)%nat -> (draws1 j < 62)%nat /\ (draws2 j < 62)%nat) ->
  generateId prefix n draws1 = generateId prefix n draws2 <->
  forall j, (j < n)%nat -> draws1 j = draws2 j.
Proof.
  intros Hrange. split.
  - intros Heq j Hj.
    apply (f_equal list_ascii_of_string) in Heq.
    rewrite !generateId_letters in Heq by (intros i Hi; by apply Hrange).
    apply app_inv_head in Heq.
    assert (Hj' : seq 0 n !! j = Some j) by (by apply lookup_seq).
    apply (f_equal (fun l => l !! j)) in Heq.
    rewrite !list_lookup_fmap, Hj' in Heq. simpl in Heq.
    apply letter_inj; [by apply Hrange | by apply Hrange | congruence].
  - intros Heq. apply list_ascii_inj.
    rewrite !generateId_letters by (intros i Hi; by apply Hrange).
    f_equal. apply list_fmap_ext. intros i j Hi.
    apply lookup_seq in Hi as [-> Hlt]. simpl. by rewrite Heq.
Qed.

Lemma C8_identifiers_differ_iff_draws_differ_witness :
  (forall j, (j < 8)%nat ->
     ((fun _ : nat => 0%nat) j < 62)%nat /\ ((fun i : nat => i) j < 62)%nat) /\
  generateId "msg" 8 (fun _ => 0%nat) <> generateId "msg" 8 (fun i => i).
Proof.
  assert (Hrange : forall j, (j < 8)%nat ->
            ((fun _ : nat => 0%nat) j < 62)%nat /\ ((fun i : nat => i) j < 62)%nat)
    by (intros j Hj; simpl; lia).
  split; [exact Hrange |].
  intros Heq.
  pose proof (proj1 (C8_identifiers_differ_iff_draws_differ "msg" 8
                       (fun _ => 0%nat) (fun i => i) Hrange) Heq 1%nat) as H.
  simpl in H. lia.
Defined.

(** C8, as stated, fails: two sessions created with equal draws get the
    same identifier, and the second creation replaces the first session in
    the table. *)
Lemma C8_counterexample :
  exists s1 s2,
    (ChatService.createSession (create_env 1000) "user_1" "Intake" None
       empty_world).1 = inr s1 /\
    (ChatService.createSession (create_env 2000) "user_2" "Review" None
       (ChatService.createSession (create_env 1000) "user_1" "Intake" None
          empty_world).2).1 = inr s2 /\
    cs_id s1 = "sess_AAAAAAAA" /\ cs_id s2 = "sess_AAAAAAAA" /\
    cs_userId <$>
      chat_sessions
        (ChatService.createSession (create_env 2000) "user_2" "Review" None
           (ChatService.createSession (create_env 1000) "user_1" "Intake" None
              empty_world).2).2 !! "sess_AAAAAAAA"
    = Some "user_2".
Proof.
  eexists _, _.
  split; [vm_compute; reflexivity |].
  split; [vm_compute; reflexivity |].
  repeat split; vm_compute; reflexivity.
Qed.

(** ** Text analysis *)

(** Building the context never throws. *)
Lemma buildAnalysisContext_result fault documentId metadata w :
  exists context,
    (AnalysisService.buildAnalysisContext fault documentId metadata w).1 = inr context.
Proof.
  unfold AnalysisService.buildAnalysisContext. rewrite fst_bind.
  destruct (AnalysisService.truthy documentId) as [id |]; [| by eexists].
  rewrite fst_try_catch, fst_bind. unfold DynamoDBService.get_documents.
  rewrite send_eq. destruct fault; simpl; by eexists.
Qed.

(** Writing the result back never throws. *)
Lemma storeAnalysisResult_result fault now documentId result w :
  (AnalysisService.storeAnalysisResult fault now documentId result w).1 = inr tt.
Proof.
  unfold AnalysisService.storeAnalysisResult.
  rewrite fst_try_catch, fst_bind. unfold DynamoDBService.update_documents.
  rewrite send_eq. by destruct fault.
Qed.

Lemma read_eq v name w :
  v <> JNull -> AnalysisService.read v name w = (inr (member v name), w).
Proof. intros Hv. unfold AnalysisService.read, member. by destruct v. Qed.

Lemma analyzeViolations_eq outcome text w :
  BedrockClient.analyzeViolations outcome text w =
  (match outcome with
   | inl e => inl (new_Error ("Bedrock chat invocation failed: " +:+ exn_to_string e))
   | inr r =>
       match Json.parse (BedrockClient.br_content r) with
       | inl e =>
           inl (new_Error ("Failed to parse violation analysis response: "
                           +:+ exn_to_string e))
       | inr v => inr v
       end
   end, w).
Proof.
  unfold BedrockClient.analyzeViolations, bind.
  destruct outcome as [e | r]; simpl; [done |].
  by destruct (Json.parse _).
Qed.

Lemma analyzeText_result env text documentId metadata w :
  (AnalysisService.analyzeText env text documentId metadata w).1 =
  match AnalysisService.ate_invokeChat env with
  | inl e => inl (new_Error ("Bedrock chat invocation failed: " +:+ exn_to_string e))
  | inr r =>
      match Json.parse (BedrockClient.br_content r) with
      | inl e =>
          inl (new_Error ("Failed to parse violation analysis response: "
                          +:+ exn_to_string e))
      | inr JNull =>
          inl (JsError "TypeError"
                 "Cannot read properties of null (reading 'violations')")
      | inr v =>
          inr (analysis_of v (AnalysisService.ate_endTime env
                              - AnalysisService.ate_startTime env))
      end
  end.
Proof.
  unfold AnalysisService.analyzeText.
  rewrite fst_try_catch, fst_bind. simpl.
  rewrite fst_bind.
  destruct (buildAnalysisContext_result (AnalysisService.ate_get env) documentId
              metadata (Logger.write INFO "Starting text analysis" None w))
    as [context ->].
  rewrite fst_bind, analyzeViolations_eq. simpl.
  destruct (AnalysisService.ate_invokeChat env) as [e | r]; [done |].
  destruct (Json.parse _) as [e | v]; [done |].
  assert (Hnull : v = JNull \/ v <> JNull) by (destruct v; auto).
  destruct Hnull as [-> | Hv]; [done |].
  rewrite fst_bind, (read_eq v "violations") by done. simpl.
  rewrite fst_bind, (read_eq v "summary") by done. simpl.
  rewrite fst_bind, (read_eq v "riskScore") by done. simpl.
  rewrite fst_bind, (read_eq v "recommendations") by done. simpl.
  rewrite fst_bind.
  assert (Hstore : forall w0,
            (match AnalysisService.truthy documentId with
             | Some id =>
                 AnalysisService.storeAnalysisResult (AnalysisService.ate_update env)
                   (AnalysisService.ate_now env) id
                   (analysis_of v (AnalysisService.ate_endTime env
                                   - AnalysisService.ate_startTime env))
             | None => ret tt
             end w0).1 = inr tt).
  { intros w0. destruct (AnalysisService.truthy documentId); [| done].
    apply storeAnalysisResult_result. }
  unfold analysis_of in Hstore |- *. rewrite Hstore. simpl.
  by destruct v.
Qed.

(** C9, as amended.  The answer of the model goes through [JSON.parse] and
    nothing else.  When it is not valid JSON, [analyzeText] fails with the
    parse error, wrapped and rethrown; when it is valid JSON other than
    [null], [analyzeText] returns the four properties read off the parsed
    value, whatever its shape.  Neither outcome depends on the lookup of the
    document or on the write of the result, which may fault freely. *)
Theorem C9_only_invalid_json_is_fatal env text documentId metadata w r :
  AnalysisService.ate_invokeChat env = inr r ->
  (forall e,
     Json.parse (BedrockClient.br_content r) = inl e ->
     (AnalysisService.analyzeText env text documentId metadata w).1
     = inl (new_Error ("Failed to parse violation analysis response: "
                       +:+ exn_to_string e))) /\
  (forall v,
     Json.parse (BedrockClient.br_content r) = inr v ->
     v <> JNull ->
     (AnalysisService.analyzeText env text documentId metadata w).1
     = inr (analysis_of v (AnalysisService.ate_endTime env
                           - AnalysisService.ate_startTime env))).
Proof.
  intros Hchat. rewrite analyzeText_result, Hchat. split.
  - by intros e ->.
  - intros v -> Hv. by destruct v.
Qed.

Lemma C9_only_invalid_json_is_fatal_witness :
  AnalysisService.ate_invokeChat (analysis_env "I am sorry, I cannot help with that.")
  = inr (BedrockClient.mkBedrockResponse "I am sorry, I cannot help with that." 310 12) /\
  Json.parse "I am sorry, I cannot help with that."
  = inl (JsError "SyntaxError" "Unexpected token in JSON") /\
  (AnalysisService.analyzeText (analysis_env "I am sorry, I cannot help with that.")
     "Positive drug test detected" (Some "doc_1") None world_1).1
  = inl (new_Error
           "Failed to parse violation analysis response: SyntaxError: Unexpected token in JSON").
Proof.
  assert (Hparse : Json.parse "I am sorry, I cannot help with that."
                   = inl (JsError "SyntaxError" "Unexpected token in JSON"))
    by (vm_compute; reflexivity).
  split; [reflexivity |]. split; [exact Hparse |].
  exact (proj1 (C9_only_invalid_json_is_fatal
                  (analysis_env "I am sorry, I cannot help with that.")
                  "Positive drug test detected" (Some "doc_1") None world_1
                  (BedrockClient.mkBedrockResponse
                     "I am sorry, I cannot help with that." 310 12) eq_refl)
           _ Hparse).
Defined.

(** C9, as stated, fails: the model answers [42], which is valid JSON and
    nothing like the documented shape, and [analyzeText] returns a response
    all of whose properties are undefined. *)
Lemma C9_counterexample :
  Json.parse "42" = inr (JNum "42") /\
  (AnalysisService.analyzeText (analysis_env "42") "Positive drug test detected"
     None None world_1).1
  = inr (mkAnalysisResponse None None None None 750).
Proof. split; vm_compute; reflexivity. Qed.

(** The scenario of the specification: the documented shape comes back
    as it was sent, with the processing time. *)
Example analysis_of_documented_shape :
  (AnalysisService.analyzeText
     (analysis_env
        ("{" +:+ dq +:+ "violations" +:+ dq +:+ ": [], "
             +:+ dq +:+ "summary" +:+ dq +:+ ": " +:+ dq +:+ "none" +:+ dq +:+ ", "
             +:+ dq +:+ "riskScore" +:+ dq +:+ ": 85, "
             +:+ dq +:+ "recommendations" +:+ dq +:+ ": []}"))
     "Positive drug test detected" None None world_1).1
  = inr (mkAnalysisResponse (Some (JArr [])) (Some (JStr "none")) (Some (JNum "85"))
                            (Some (JArr [])) 750).
Proof. vm_compute. reflexivity. Qed.

(** * Further properties *)

(** ** Strings as lists of characters *)

Lemma string_length_list (s : string) :
  String.length s = length (list_ascii_of_string s).
Proof. induction s as [| c s IH]; simpl; [done |]. by rewrite IH. Qed.

Lemma substring_list (n m : nat) (s : string) :
  list_ascii_of_string (String.substring n m s)
  = take m (drop n (list_ascii_of_string s)).
Proof.
  revert n m. induction s as [| c s IH]; intros n m.
  - destruct n, m; simpl; by rewrite ?take_nil.
  - destruct n as [| n]; simpl.
    + destruct m as [| m]; simpl; [done |]. by rewrite (IH 0%nat m), drop_0.
    + apply IH.
Qed.

Lemma string_length_app (s1 s2 : string) :
  String.length (s1 +:+ s2) = (String.length s1 + String.length s2)%nat.
Proof. by rewrite !string_length_list, list_ascii_app, length_app. Qed.

Lemma string_length_substring (n m : nat) (s : string) :
  String.length (String.substring n m s) = Nat.min m (String.length s - n).
Proof.
  by rewrite !string_length_list, substring_list, length_take, length_drop.
Qed.

Lemma endsWith_spec (s suffix : string) :
  endsWith s suffix = true <->
  list_ascii_of_string suffix `suffix_of` list_ascii_of_string s.
Proof.
  unfold endsWith. rewrite andb_true_iff, Nat.leb_le, String.eqb_eq.
  rewrite !string_length_list. split.
  - intros [Hlen Heq]. apply (f_equal list_ascii_of_string) in Heq.
    rewrite substring_list in Heq.
    exists (take (length (list_ascii_of_string s)
                  - length (list_ascii_of_string suffix)) (list_ascii_of_string s)).
    set (k := (length (list_ascii_of_string s)
               - length (list_ascii_of_string suffix))%nat) in *.
    transitivity (take k (list_ascii_of_string s) ++ drop k (list_ascii_of_string s));
      [by rewrite take_drop |].
    f_equal. rewrite <- Heq. symmetry. apply take_ge. rewrite length_drop. lia.
  - intros [k Hk]. rewrite Hk, length_app. split; [lia |].
    apply list_ascii_inj. rewrite substring_list, Hk.
    rewrite Nat.add_sub, drop_app_length. by rewrite take_ge.
Qed.

Lemma endsWith_app (a b suffix : string) :
  endsWith b suffix = true -> endsWith (a +:+ b) suffix = true.
Proof.
  rewrite !endsWith_spec, list_ascii_app. intros [k ->].
  exists (list_ascii_of_string a ++ k). by rewrite app_assoc.
Qed.

(** ** truncate *)

Lemma clamp_inside (n : Z) (len : nat) :
  0 <= n <= Z.of_nat len -> clamp n len = Z.to_nat n.
Proof. intros H. unfold clamp. f_equal. lia. Qed.

Lemma clamp_negative (n : Z) (len : nat) : n <= 0 -> clamp n len = 0%nat.
Proof. intros H. unfold clamp. lia. Qed.

(** X1.  Lengths counted in UTF-16 code units, as the program counts
    them: [truncate] returns a text that fits as it is.  A text that does
    not fit comes back as its first [length - |suffix|] code units followed
    by the suffix, [length] code units in all, as long as the suffix
    itself fits in [length]; when it does not, the result is the bare
    suffix, which is longer than was asked for. *)
Theorem truncate_length (text suffix : JsString) (length : Z) :
  (Z.of_nat (List.length text) <= length -> truncate text length suffix = text) /\
  (length < Z.of_nat (List.length text) ->
   Z.of_nat (List.length suffix) <= length ->
   truncate text length suffix
   = take (Z.to_nat (length - Z.of_nat (List.length suffix))) text ++ suffix /\
   Z.of_nat (List.length (truncate text length suffix)) = length /\
   suffix `suffix_of` truncate text length suffix) /\
  (length < Z.of_nat (List.length text) ->
   length < Z.of_nat (List.length suffix) ->
   truncate text length suffix = suffix).
Proof.
  unfold truncate. split; [| split].
  - intros H. by destruct (Z.leb_spec (Z.of_nat (List.length text)) length); [| lia].
  - intros Hlong Hfits.
    destruct (Z.leb_spec (Z.of_nat (List.length text)) length); [lia |].
    unfold js_substring. rewrite clamp_negative by lia.
    rewrite clamp_inside by lia. rewrite Nat.min_0_l, Nat.max_0_l, Nat.sub_0_r, drop_0.
    split; [done |]. split; [| by eexists].
    rewrite length_app, length_take. lia.
  - intros Hlong Hsmall.
    destruct (Z.leb_spec (Z.of_nat (List.length text)) length); [lia |].
    unfold js_substring. rewrite !clamp_negative by lia. done.
Qed.

Lemma truncate_length_witness :
  5 < Z.of_nat (List.length (ascii_units "Positive drug test")) /\
  Z.of_nat (List.length (ascii_units "...")) <= 5 /\
  truncate (ascii_units "Positive drug test") 5 (ascii_units "...")
  = ascii_units "Po..." /\
  Z.of_nat (List.length
              (truncate (ascii_units "Positive drug test") 5 (ascii_units "...")))
  = 5.
Proof.
  assert (H1 : 5 < Z.of_nat (List.length (ascii_units "Positive drug test")))
    by (vm_compute; reflexivity).
  assert (H2 : Z.of_nat (List.length (ascii_units "...")) <= 5)
    by (vm_compute; discriminate).
  split; [exact H1 |]. split; [exact H2 |]. split; [vm_compute; reflexivity |].
  exact (proj1 (proj2 (proj1 (proj2 (truncate_length
                                       (ascii_units "Positive drug test")
                                       (ascii_units "...") 5)) H1 H2))).
Defined.

(** Six letters e with an acute accent are six code units (twelve bytes
    in UTF-8): asked for eight, [truncate] returns them as they are. *)
Example truncate_accented :
  truncate (replicate 6 233%N) 8 (ascii_units "...") = replicate 6 233%N.
Proof. reflexivity. Qed.

(** ** pluralize *)

(** X2.  But for the count 1, which gives the word back, every plural that
    [pluralize] builds ends with the letter s. *)
Theorem pluralize_ends_with_s (word : string) (count : Z) :
  count <> 1 -> endsWith (pluralize word count) "s" = true.
Proof.
  intros Hcount. unfold pluralize.
  destruct (Z.eqb_spec count 1); [done |].
  destruct (endsWith word "y"); [by apply endsWith_app |].
  destruct (_ || _); by apply endsWith_app.
Qed.

Lemma pluralize_ends_with_s_witness :
  2 <> 1 /\ pluralize "category" 2 = "categories" /\
  endsWith (pluralize "category" 2) "s" = true.
Proof.
  assert (H : 2 <> 1) by lia.
  split; [exact H |]. split; [reflexivity |].
  exact (pluralize_ends_with_s "category" 2 H).
Defined.

(** ** maskEmail *)

Lemma js_split_no_separator (sep : N) (s : JsString) :
  sep ∉ s -> js_split sep s = [s].
Proof.
  induction s as [| c s IH]; simpl; [done |].
  rewrite not_elem_of_cons. intros [Hc Hs].
  rewrite decide_False by congruence. by rewrite IH.
Qed.

Lemma js_split_first (sep : N) (s rest : JsString) :
  sep ∉ s -> js_split sep (s ++ sep :: rest) = s :: js_split sep rest.
Proof.
  induction s as [| c s IH]; simpl.
  - intros _. by rewrite decide_True.
  - rewrite not_elem_of_cons. intros [Hc Hs].
    rewrite decide_False by congruence. by rewrite IH.
Qed.

(** The pieces that [maskEmail] reads off an address. *)
Lemma split_address (username domain : JsString) :
  at_sign ∉ username -> at_sign ∉ domain ->
  js_split at_sign username = [username] /\
  js_split at_sign (username ++ [at_sign] ++ domain) = [username; domain] /\
  forall rest,
    exists pieces,
      js_split at_sign (username ++ [at_sign] ++ domain ++ [at_sign] ++ rest)
      = username :: domain :: pieces.
Proof.
  intros Hu Hd. split; [by apply js_split_no_separator |]. split.
  - cbn [app]. by rewrite (js_split_first _ _ _ Hu), (js_split_no_separator _ _ Hd).
  - intros rest. cbn [app].
    rewrite (js_split_first _ _ _ Hu), (js_split_first _ _ _ Hd). by eexists.
Qed.

Lemma split_head (username rest : JsString) :
  at_sign ∉ username ->
  head (js_split at_sign (username ++ [at_sign] ++ rest)) = Some username.
Proof. intros Hu. cbn [app]. by rewrite (js_split_first _ _ _ Hu). Qed.

(** The user name with all but its first and last code unit starred. *)
Lemma masked_username (a b : N) (middle : JsString) :
  middle <> [] ->
  (List.length (a :: middle ++ [b]) <=? 2)%nat = false /\
  take 1 (a :: middle ++ [b])
    ++ replicate (List.length (a :: middle ++ [b]) - 2) star
    ++ js_slice (-1) (a :: middle ++ [b])
  = a :: replicate (List.length middle) star ++ [b].
Proof.
  intros Hmiddle.
  assert (Hlen : List.length (a :: middle ++ [b]) = S (S (List.length middle))).
  { cbn [List.length]. rewrite length_app. simpl. lia. }
  split.
  - rewrite Hlen. destruct middle; [done |]. reflexivity.
  - unfold js_slice. rewrite Hlen.
    destruct (Z.ltb_spec (-1) 0) as [_ | ?]; [| lia].
    replace (Z.to_nat (Z.max (Z.of_nat (S (S (List.length middle))) + -1) 0))
      with (S (List.length middle)) by lia.
    cbn [take drop]. rewrite drop_app_length, take_0.
    replace (S (S (List.length middle)) - 2)%nat with (List.length middle) by lia.
    reflexivity.
Qed.

(** X3.  Lengths counted in UTF-16 code units, as the program counts
    them: a user name, the text before the first at sign, of at most two
    code units leaves the address as it is, with or without a domain.  Of
    a longer user name [maskEmail] keeps the first and the last code unit
    and puts one star for each one in between; it keeps the domain, the
    text between the first at sign and the second, and drops the second
    at sign and all that follows it; an address with no at sign gets the
    domain [undefined]. *)
Theorem maskEmail_shape :
  (forall username rest : JsString,
     at_sign ∉ username -> (List.length username <= 2)%nat ->
     maskEmail username = username /\
     maskEmail (username ++ [at_sign] ++ rest) = username ++ [at_sign] ++ rest) /\
  (forall (a b : N) (middle domain : JsString),
     at_sign ∉ a :: middle ++ [b] -> at_sign ∉ domain -> middle <> [] ->
     maskEmail ((a :: middle ++ [b]) ++ [at_sign] ++ domain)
     = (a :: replicate (List.length middle) star ++ [b]) ++ [at_sign] ++ domain /\
     (forall rest,
        maskEmail ((a :: middle ++ [b]) ++ [at_sign] ++ domain ++ [at_sign] ++ rest)
        = (a :: replicate (List.length middle) star ++ [b]) ++ [at_sign] ++ domain) /\
     maskEmail (a :: middle ++ [b])
     = (a :: replicate (List.length middle) star ++ [b])
         ++ [at_sign] ++ ascii_units "undefined").
Proof.
  split.
  - intros username rest Hu Hshort. unfold maskEmail.
    rewrite (js_split_no_separator _ _ Hu), (split_head username rest Hu).
    cbn [head default from_option id].
    by destruct (Nat.leb_spec (List.length username) 2); [| lia].
  - intros a b middle domain Hu Hd Hmiddle.
    destruct (split_address _ _ Hu Hd) as (Hnone & Hone & Hmore).
    destruct (masked_username a b middle Hmiddle) as [Hlong Hmasked].
    unfold maskEmail. split; [| split].
    + rewrite Hone. cbn [head default from_option id lookup list_lookup].
      by rewrite Hlong, Hmasked.
    + intros rest. destruct (Hmore rest) as [pieces ->].
      cbn [head default from_option id lookup list_lookup].
      by rewrite Hlong, Hmasked.
    + rewrite Hnone. cbn [head default from_option id lookup list_lookup].
      by rewrite Hlong, Hmasked.
Qed.

Lemma maskEmail_shape_witness :
  maskEmail (ascii_units "officer@court.example")
  = ascii_units "o*****r@court.example" /\
  maskEmail (ascii_units "officer@court@example") = ascii_units "o*****r@court" /\
  maskEmail (ascii_units "officer") = ascii_units "o*****r@undefined" /\
  maskEmail (ascii_units "or@court.example") = ascii_units "or@court.example".
Proof.
  destruct maskEmail_shape as [Hshort Hlong].
  assert (Hu : at_sign ∉ (111 :: ascii_units "ffice" ++ [114])%N)
    by (apply (bool_decide_unpack _); vm_compute; reflexivity).
  assert (Hd : at_sign ∉ ascii_units "court")
    by (apply (bool_decide_unpack _); vm_compute; reflexivity).
  assert (Hd' : at_sign ∉ ascii_units "court.example")
    by (apply (bool_decide_unpack _); vm_compute; reflexivity).
  assert (Hm : ascii_units "ffice" <> []) by discriminate.
  assert (Hor : at_sign ∉ ascii_units "or")
    by (apply (bool_decide_unpack _); vm_compute; reflexivity).
  assert (Hlen : (List.length (ascii_units "or") <= 2)%nat) by (vm_compute; lia).
  split; [exact (proj1 (Hlong 111%N 114%N _ _ Hu Hd' Hm)) |].
  split; [exact (proj1 (proj2 (Hlong 111%N 114%N _ _ Hu Hd Hm))
                   (ascii_units "example")) |].
  split; [exact (proj2 (proj2 (Hlong 111%N 114%N _ _ Hu Hd Hm))) |].
  exact (proj2 (Hshort _ (ascii_units "court.example") Hor Hlen)).
Defined.

(** A user name of two accented letters is two code units (four bytes in
    UTF-8), too short to be masked. *)
Example maskEmail_accented :
  maskEmail ([233; 233]%N ++ ascii_units "@court.example")
  = [233; 233]%N ++ ascii_units "@court.example".
Proof. reflexivity. Qed.

(** ** The shape of identifiers *)

Lemma letter_in_alphabet (k : nat) : (k < 62)%nat -> letter k ∈ alphabet.
Proof.
  intros Hk. apply list_elem_of_lookup. exists k. by apply alphabet_letter.
Qed.

(** X4.  With draws in range, [generateId] returns the prefix, an
    underscore and exactly [length] characters, each of them a letter or a
    digit of the alphabet. *)
Theorem generateId_shape (prefix : string) (length : nat) (draws : nat -> nat) :
  prefix <> "" ->
  (forall j, (j < length)%nat -> (draws j < 62)%nat) ->
  exists suffix,
    generateId prefix length draws = prefix +:+ "_" +:+ suffix /\
    String.length suffix = length /\
    Forall (fun c => c ∈ alphabet) (list_ascii_of_string suffix).
Proof.
  intros Hprefix Hrange.
  exists (generateId_loop draws 0 length "").
  pose proof (generateId_loop_letters draws length 0 "") as Hloop. simpl in Hloop.
  rewrite string_length_list, Hloop by (intros j Hj; apply Hrange; lia).
  split; [| split].
  - unfold generateId. by destruct (decide (prefix = "")).
  - by rewrite length_fmap, length_seq.
  - apply Forall_fmap, Forall_forall. intros j Hj. simpl.
    apply letter_in_alphabet, Hrange. apply elem_of_seq in Hj. lia.
Qed.

Lemma generateId_shape_witness :
  exists suffix,
    generateId "msg" 8 (fun i => (i * 7)%nat) = "msg" +:+ "_" +:+ suffix /\
    String.length suffix = 8%nat /\
    Forall (fun c => c ∈ alphabet) (list_ascii_of_string suffix).
Proof.
  apply (generateId_shape "msg" 8 (fun i => (i * 7)%nat)).
  - discriminate.
  - intros j Hj. simpl. lia.
Defined.

Lemma charAt_length (s : string) (i : nat) : (String.length (charAt s i) <= 1)%nat.
Proof. unfold charAt. destruct (String.get i s); simpl; lia. Qed.

Lemma generateId_loop_length (draws : nat -> nat) (n i : nat) (acc : string) :
  (String.length (generateId_loop draws i n acc) <= String.length acc + n)%nat.
Proof.
  revert i acc. induction n as [| n IH]; intros i acc; simpl; [lia |].
  etransitivity; [apply IH |]. rewrite string_length_app.
  pose proof (charAt_length chars (draws i)). lia.
Qed.

(** X5.  The identifier that [createSession] gives a session never has the
    form that [CommonSchemas.sessionId] asks of a session identifier
    (the prefix and forty hexadecimal characters): it has thirteen
    characters at most. *)
Theorem created_session_id_is_not_a_sessionId env userId title metadata w session :
  (ChatService.createSession env userId title metadata w).1 = inr session ->
  matches_sessionId_pattern (cs_id session) = false.
Proof.
  unfold ChatService.createSession. rewrite fst_bind.
  unfold DynamoDBService.put_chat_sessions. rewrite send_eq.
  destruct (ChatService.cse_put env); [done |]. simpl.
  intros H. simplify_eq. simpl.
  unfold matches_sessionId_pattern.
  pose proof (generateId_loop_length (ChatService.cse_draws env) 8 0 "") as Hlen.
  unfold generateId. simpl decide. cbv iota.
  assert (Hne : String.length
                  ("sess" +:+ "_" +:+ generateId_loop (ChatService.cse_draws env) 0 8 "")
                <> 45%nat).
  { rewrite !string_length_app. simpl in *. lia. }
  apply Nat.eqb_neq in Hne.
  change (if decide ("sess" = "") then _ else ?x) with x.
  rewrite Hne. by rewrite andb_false_r.
Qed.

Lemma created_session_id_is_not_a_sessionId_witness :
  (ChatService.createSession (create_env 1000) "user_1" "Intake" None empty_world).1
  = inr (mkChatSession "sess_AAAAAAAA" "user_1" "Intake" 1000 1000 true None) /\
  matches_sessionId_pattern "sess_AAAAAAAA" = false.
Proof.
  assert (H : (ChatService.createSession (create_env 1000) "user_1" "Intake" None
                 empty_world).1
              = inr (mkChatSession "sess_AAAAAAAA" "user_1" "Intake" 1000 1000 true None))
    by (vm_compute; reflexivity).
  split; [exact H |].
  exact (created_session_id_is_not_a_sessionId _ _ _ _ _ _ H).
Defined.

(** ** The ownership check *)

(** X10.  What [getSession] answers a caller who does not own the session
    does not depend on what the session holds: any two sessions owned by
    others give the same error, the constant FORBIDDEN one, and the world
    is not changed. *)
Theorem getSession_forbidden_leaks_nothing sessionId userId w1 w2 s1 s2 :
  chat_sessions w1 !! sessionId = Some s1 ->
  chat_sessions w2 !! sessionId = Some s2 ->
  cs_userId s1 <> userId ->
  cs_userId s2 <> userId ->
  (ChatService.getSession None sessionId userId w1).1
  = (ChatService.getSession None sessionId userId w2).1 /\
  (ChatService.getSession None sessionId userId w1).1
  = inl (AppError "FORBIDDEN" "Access denied to this session" 403) /\
  (ChatService.getSession None sessionId userId w1).2 = w1.
Proof.
  intros H1 H2 Ho1 Ho2. rewrite !getSession_eq. simpl.
  unfold getSession_outcome. rewrite H1, H2.
  by rewrite !decide_True.
Qed.

Lemma getSession_forbidden_leaks_nothing_witness :
  (ChatService.getSession None "sess_1" "user_2" world_1).1
  = (ChatService.getSession None "sess_1" "user_2" closed_world_1).1.
Proof.
  refine (proj1 (getSession_forbidden_leaks_nothing "sess_1" "user_2" world_1
                   closed_world_1 session_1 closed_session_1 _ _ _ _)).
  - vm_compute. reflexivity.
  - vm_compute. reflexivity.
  - discriminate.
  - discriminate.
Defined.

(** X11.  When [getSession] refuses the caller (the session is missing or
    is not theirs), [sendMessage], [deleteSession] and [getMessages] fail
    with that same error and leave the world exactly as it was. *)
Theorem refused_caller_changes_nothing env denv query_fault options
    sessionId userId message w e :
  ChatService.sme_get env = None ->
  ChatService.dse_get denv = None ->
  (ChatService.getSession None sessionId userId w).1 = inl e ->
  ChatService.sendMessage env sessionId userId message w = (inl e, w) /\
  ChatService.deleteSession denv sessionId userId w = (inl e, w) /\
  ChatService.getMessages None query_fault sessionId userId options w = (inl e, w).
Proof.
  intros Hget Hdget. rewrite getSession_eq. cbn [fst]. intros He.
  split; [| split].
  - unfold ChatService.sendMessage, bind. by rewrite getSession_eq, Hget, He.
  - by rewrite deleteSession_eq, Hdget, He.
  - unfold ChatService.getMessages, bind. by rewrite getSession_eq, He.
Qed.

Lemma refused_caller_changes_nothing_witness :
  (ChatService.getSession None "sess_9" "user_1" world_1).1
  = inl (NotFoundError "Chat session with identifier 'sess_9' not found") /\
  ChatService.sendMessage (calm_env 5000 5901) "sess_9" "user_1" "hello" world_1
  = (inl (NotFoundError "Chat session with identifier 'sess_9' not found"), world_1).
Proof.
  assert (H : (ChatService.getSession None "sess_9" "user_1" world_1).1
              = inl (NotFoundError "Chat session with identifier 'sess_9' not found"))
    by (vm_compute; reflexivity).
  split; [exact H |].
  exact (proj1 (refused_caller_changes_nothing (calm_env 5000 5901) (delete_env 1)
                  None no_options "sess_9" "user_1" "hello" world_1 _
                  eq_refl eq_refl H)).
Defined.

(** ** Code units *)

Lemma code_units_cons (b0 : ascii) (r0 : list ascii) :
  code_units (b0 :: r0) =
  if (byte b0 <? 192)%N then byte b0 :: code_units r0
  else if (byte b0 <? 224)%N then
    match r0 with
    | b1 :: r1 => two b0 b1 :: code_units r1
    | [] => byte b0 :: code_units r0
    end
  else if (byte b0 <? 240)%N then
    match r0 with
    | b1 :: b2 :: r2 => three b0 b1 b2 :: code_units r2
    | _ => byte b0 :: code_units r0
    end
  else
    match r0 with
    | b1 :: b2 :: b3 :: r3 => high b0 b1 b2 b3 :: low b0 b1 b2 b3 :: code_units r3
    | _ => byte b0 :: code_units r0
    end.
Proof. reflexivity. Qed.

Lemma take_units_cons (n' : nat) (b0 : ascii) (r0 : list ascii) :
  take_units (S n') (b0 :: r0) =
  if (byte b0 <? 192)%N then b0 :: take_units n' r0
  else if (byte b0 <? 224)%N then
    match r0 with
    | b1 :: r1 => b0 :: b1 :: take_units n' r1
    | [] => b0 :: take_units n' r0
    end
  else if (byte b0 <? 240)%N then
    match r0 with
    | b1 :: b2 :: r2 => b0 :: b1 :: b2 :: take_units n' r2
    | _ => b0 :: take_units n' r0
    end
  else
    match r0 with
    | b1 :: b2 :: b3 :: r3 =>
        match n' with
        | O => Json.unit_bytes (N.to_nat (high b0 b1 b2 b3))
        | S n'' => b0 :: b1 :: b2 :: b3 :: take_units n'' r3
        end
    | _ => b0 :: take_units n' r0
    end.
Proof. reflexivity. Qed.

Lemma take_units_0 (s : list ascii) : take_units 0 s = [].
Proof. by destruct s. Qed.

Lemma take_units_length (n : nat) (s : list ascii) :
  (length (take_units n s) <= length s)%nat.
Proof.
  assert (Hle : (length s <= length s)%nat) by lia.
  revert Hle. generalize (length s) at 2. intros m. revert n s.
  induction m as [| m IH]; intros n s Hle.
  - destruct s; simpl in *; lia.
  - destruct s as [| b0 r0]; [simpl; lia |].
    destruct n as [| n']; [rewrite take_units_0; simpl; lia |].
    rewrite take_units_cons. cbn [length] in Hle.
    pose proof (IH n' r0 ltac:(lia)) as H0.
    destruct (byte b0 <? 192)%N; [cbn [length]; lia |].
    destruct (byte b0 <? 224)%N.
    { destruct r0 as [| b1 r1]; cbn [length] in *; [lia |].
      pose proof (IH n' r1 ltac:(lia)). lia. }
    destruct (byte b0 <? 240)%N.
    { destruct r0 as [| b1 [| b2 r2]]; cbn [length] in *; try lia.
      pose proof (IH n' r2 ltac:(lia)). lia. }
    destruct r0 as [| b1 [| b2 [| b3 r3]]]; cbn [length] in *; try lia.
    destruct n' as [| n''].
    + unfold Json.unit_bytes.
      repeat match goal with |- context [if ?c then _ else _] => destruct c end;
        cbn [length]; lia.
    + cbn [length]. pose proof (IH n'' r3 ltac:(lia)). lia.
Qed.

(** The bytes that stand for a high surrogate are read back as that code
    unit. *)
Lemma surrogate_read_back (k : nat) :
  (k < 1024)%nat ->
  code_units (Json.unit_bytes (N.to_nat (55296 + N.of_nat k)))
  = [(55296 + N.of_nat k)%N].
Proof.
  intros Hk.
  assert (Hall : forallb
                   (fun k => bool_decide
                      (code_units (Json.unit_bytes (N.to_nat (55296 + N.of_nat k)))
                       = [(55296 + N.of_nat k)%N]))
                   (seq 0 1024) = true) by (vm_compute; reflexivity).
  rewrite forallb_forall in Hall.
  assert (Hin : In k (seq 0 1024)) by (apply in_seq; lia).
  specialize (Hall k Hin). by apply bool_decide_eq_true_1 in Hall.
Qed.

Lemma high_range (b0 b1 b2 b3 : ascii) :
  exists k, (k < 1024)%nat /\ high b0 b1 b2 b3 = (55296 + N.of_nat k)%N.
Proof.
  unfold high.
  exists (N.to_nat (((code_point b0 b1 b2 b3 - 65536) / 1024) mod 1024)%N).
  pose proof (N.mod_upper_bound ((code_point b0 b1 b2 b3 - 65536) / 1024) 1024
                ltac:(done)).
  split; lia.
Qed.

Lemma code_units_short (b0 : ascii) (r0 : list ascii) :
  (byte b0 <? 192)%N = false ->
  ((byte b0 <? 224)%N = true /\ (length r0 < 1)%nat) \/
  ((byte b0 <? 224)%N = false /\ (byte b0 <? 240)%N = true /\ (length r0 < 2)%nat) \/
  ((byte b0 <? 224)%N = false /\ (byte b0 <? 240)%N = false /\ (length r0 < 3)%nat) ->
  code_units (b0 :: r0) = byte b0 :: code_units r0.
Proof.
  intros H192 Hcase. rewrite code_units_cons, H192.
  destruct Hcase as [(-> & Hlen) | [(-> & -> & Hlen) | (-> & -> & Hlen)]].
  - destruct r0; [done | simpl in Hlen; lia].
  - destruct r0 as [| b1 [| b2 r2]]; [done | done | simpl in Hlen; lia].
  - destruct r0 as [| b1 [| b2 [| b3 r3]]]; [done | done | done | simpl in Hlen; lia].
Qed.

(** Cutting a text after [n] code units gives a text of the first [n]
    code units. *)
Lemma code_units_take_units (n : nat) (s : list ascii) :
  code_units (take_units n s) = take n (code_units s).
Proof.
  assert (Hle : (length s <= length s)%nat) by lia.
  revert Hle. generalize (length s) at 2. intros m. revert n s.
  induction m as [| m IH]; intros n s Hle.
  - destruct s; [by destruct n | simpl in Hle; lia].
  - destruct s as [| b0 r0]; [by destruct n |].
    destruct n as [| n']; [by rewrite take_units_0, take_0 |].
    cbn [length] in Hle.
    pose proof (IH n' r0 ltac:(lia)) as H0.
    pose proof (take_units_length n' r0) as Hlen.
    rewrite take_units_cons.
    destruct (byte b0 <? 192)%N eqn:H192.
    { rewrite !code_units_cons, H192. cbn [take]. by rewrite H0. }
    destruct (byte b0 <? 224)%N eqn:H224.
    { destruct r0 as [| b1 r1].
      - rewrite !code_units_cons, H192, H224. by rewrite take_units_0 || destruct n'.
      - rewrite !code_units_cons, H192, H224. cbn [take].
        cbn [length] in Hle. by rewrite (IH n' r1) by lia. }
    destruct (byte b0 <? 240)%N eqn:H240.
    { destruct r0 as [| b1 [| b2 r2]].
      - rewrite (code_units_short b0 (take_units n' [])), (code_units_short b0 [])
          by (try done; right; left; repeat split; try done; simpl in *; lia).
        cbn [take]. by rewrite H0.
      - rewrite (code_units_short b0 (take_units n' [b1])), (code_units_short b0 [b1])
          by (try done; right; left; repeat split; try done; simpl in *; lia).
        cbn [take]. by rewrite H0.
      - rewrite !code_units_cons, H192, H224, H240. cbn [take].
        cbn [length] in Hle. by rewrite (IH n' r2) by lia. }
    destruct r0 as [| b1 [| b2 [| b3 r3]]].
    + rewrite (code_units_short b0 (take_units n' [])), (code_units_short b0 [])
        by (try done; right; right; repeat split; try done; simpl in *; lia).
      cbn [take]. by rewrite H0.
    + rewrite (code_units_short b0 (take_units n' [b1])), (code_units_short b0 [b1])
        by (try done; right; right; repeat split; try done; simpl in *; lia).
      cbn [take]. by rewrite H0.
    + rewrite (code_units_short b0 (take_units n' [b1; b2])),
        (code_units_short b0 [b1; b2])
        by (try done; right; right; repeat split; try done; simpl in *; lia).
      cbn [take]. by rewrite H0.
    + rewrite (code_units_cons b0 (b1 :: b2 :: b3 :: r3)), H192, H224, H240.
      destruct n' as [| n''].
      * destruct (high_range b0 b1 b2 b3) as (k & Hk & Hhigh).
        rewrite Hhigh, (surrogate_read_back k Hk). reflexivity.
      * rewrite !code_units_cons, H192, H224, H240. cbn [take].
        cbn [length] in Hle. by rewrite (IH n'' r3) by lia.
Qed.

(** ** An exchange never completes *)

(** X6.  No [sendMessage] returns a reply: every call ends in an error,
    the one of the ownership check, of the write of the user's message or of the
    history query.  The call leaves the sessions, the documents and the
    search index as they were, and in the table of the messages it changes
    at most the item under the session and the timestamp of the call. *)
Theorem sendMessage_never_returns (env : ChatService.SendMessageEnv)
    (sessionId userId message : string) (w : World) :
  (ChatService.sendMessage env sessionId userId message w).1
  = sendMessage_outcome env sessionId userId w /\
  (exists e, (ChatService.sendMessage env sessionId userId message w).1 = inl e) /\
  chat_sessions (ChatService.sendMessage env sessionId userId message w).2
  = chat_sessions w /\
  documents (ChatService.sendMessage env sessionId userId message w).2 = documents w /\
  chat_context (ChatService.sendMessage env sessionId userId message w).2
  = chat_context w /\
  forall k,
    k <> (sessionId, ChatService.sme_timestamp env) ->
    chat_messages (ChatService.sendMessage env sessionId userId message w).2 !! k
    = chat_messages w !! k.
Proof.
  split; [apply sendMessage_result |].
  split.
  { rewrite sendMessage_result. unfold sendMessage_outcome.
    destruct (getSession_outcome _ _ _ _) as [e | session]; [by eexists |].
    destruct (negb _); [by eexists |].
    destruct (ChatService.sme_putUser env); by eexists. }
  split; [| split; [| split]].
  4: { intros k Hk. by apply sendMessage_keeps_other_messages. }
  all: rewrite sendMessage_eq;
    destruct (getSession_outcome _ _ _ _) as [e | session]; [done |];
    destruct (negb _); [done |];
    destruct (ChatService.sme_putUser env); [done |];
    cbn [snd]; unfold Logger.write;
    by destruct (_ <? _).
Qed.

(** ** Reading the messages of a session *)

(** X13.  No [getMessages] returns a page: when the ownership check lets the
    caller through, the call fails with the error of the query, whatever the
    session holds and whatever page is asked for; otherwise it fails with
    the error of that check.  It changes nothing. *)
Theorem getMessages_never_returns (get_fault query_fault : option Exn)
    (sessionId userId : string) (options : PaginationOptions) (w : World) :
  ChatService.getMessages get_fault query_fault sessionId userId options w
  = (match getSession_outcome get_fault sessionId userId w with
     | inl e => inl e
     | inr _ => inl (query_failure query_fault)
     end, w).
Proof.
  unfold ChatService.getMessages, bind. rewrite getSession_eq.
  destruct (getSession_outcome _ _ _ _) as [e | session]; [done |].
  by rewrite getChatMessages_eq.
Qed.

(** The owner of a session that holds one message asks for its messages. *)
Example getMessages_of_one_message :
  (ChatService.getMessages None None "sess_1" "user_1"
     (mkPaginationOptions (Some 50) None) world_2).1
  = inl (query_failure None).
Proof. reflexivity. Qed.

(** ** The deleted session *)

(** X12.  A deleted session still takes messages: after a [deleteSession]
    that succeeds on an active session, a [sendMessage] of the owner is
    not refused as sent to an inactive session; it gets as far as an
    accepted message gets, the user's message stored and the history
    query failed. *)
Theorem deleted_session_still_takes_messages denv env sessionId userId message w
    session :
  chat_sessions w !! sessionId = Some session ->
  cs_userId session = userId ->
  cs_isActive session = true ->
  ChatService.dse_get denv = None -> ChatService.dse_update denv = None ->
  ChatService.sme_get env = None -> ChatService.sme_putUser env = None ->
  (ChatService.deleteSession denv sessionId userId w).1 = inr tt /\
  (ChatService.sendMessage env sessionId userId message
     (ChatService.deleteSession denv sessionId userId w).2).1
  = inl (query_failure (ChatService.sme_query env)) /\
  chat_messages
    (ChatService.sendMessage env sessionId userId message
       (ChatService.deleteSession denv sessionId userId w).2).2
  = <[(sessionId, ChatService.sme_timestamp env) :=
        attrs_of_message (user_message env sessionId message)]> (chat_messages w).
Proof.
  intros Hs Hu Ha Hget Hupd Hget' Hput.
  destruct (deleteSession_run denv sessionId userId w session Hs Hu Hget Hupd)
    as (Hr & Hsessions & Hmessages & _).
  set (w1 := (ChatService.deleteSession denv sessionId userId w).2) in *.
  assert (Hpre : preconditions env sessionId userId w1).
  { split; [done |]. exists session. by rewrite Hsessions. }
  split; [exact Hr |]. split.
  - by rewrite sendMessage_result, (preconditions_outcome _ _ _ _ Hpre), Hput.
  - destruct (sendMessage_accepted env sessionId userId message w1 Hpre Hput)
      as [_ ->].
    by rewrite Hmessages.
Qed.

Lemma deleted_session_still_takes_messages_witness :
  chat_sessions world_1 !! "sess_1" = Some session_1 /\
  (ChatService.deleteSession (delete_env 7000) "sess_1" "user_1" world_1).1 = inr tt /\
  (ChatService.sendMessage (calm_env 8000 8901) "sess_1" "user_1"
     "I missed my appointment"
     (ChatService.deleteSession (delete_env 7000) "sess_1" "user_1" world_1).2).1
  = inl (query_failure None) /\
  message_count "sess_1"
    (ChatService.sendMessage (calm_env 8000 8901) "sess_1" "user_1"
       "I missed my appointment"
       (ChatService.deleteSession (delete_env 7000) "sess_1" "user_1" world_1).2).2
  = 1%nat.
Proof.
  assert (Hs : chat_sessions world_1 !! "sess_1" = Some session_1)
    by (vm_compute; reflexivity).
  destruct (deleted_session_still_takes_messages (delete_env 7000) (calm_env 8000 8901)
              "sess_1" "user_1" "I missed my appointment" world_1 session_1
              Hs eq_refl eq_refl eq_refl eq_refl eq_refl eq_refl)
    as (H1 & H2 & H3).
  split; [exact Hs |]. split; [exact H1 |]. split; [exact H2 |].
  unfold message_count, session_messages. rewrite H3. vm_compute. reflexivity.
Defined.

(** ** The sources of a reply *)

(** X15.  The source entry that [sendMessage] makes of a retrieval hit
    keeps the hit's identifier and score, never has an empty title or
    source, and has for excerpt the first 200 UTF-16 code units of the
    hit's content, all of it when it is shorter, nothing when there is
    none. *)
Theorem source_of_result_shape (result : OpenSearchClient.SearchResult) :
  src_id (ChatService.source_of_result result) = OpenSearchClient.sr_id result /\
  src_relevance (ChatService.source_of_result result) = OpenSearchClient.sr_score result /\
  src_title (ChatService.source_of_result result) <> "" /\
  src_source (ChatService.source_of_result result) <> "" /\
  (js_length (src_excerpt (ChatService.source_of_result result)) <= 200)%nat /\
  code_units (list_ascii_of_string (src_excerpt (ChatService.source_of_result result)))
  = take 200
      (code_units
         (list_ascii_of_string
            (default "" (OpenSearchClient.ks_content
                           (OpenSearchClient.sr_source result))))).
Proof.
  assert (Hexcerpt :
    code_units (list_ascii_of_string (src_excerpt (ChatService.source_of_result result)))
    = take 200
        (code_units
           (list_ascii_of_string
              (default "" (OpenSearchClient.ks_content
                             (OpenSearchClient.sr_source result)))))).
  { unfold ChatService.source_of_result. cbn [src_excerpt].
    unfold js_or_string, js_substring0.
    destruct (OpenSearchClient.ks_content _) as [content |];
      cbn [fmap option_fmap option_map default from_option id]; [| done].
    destruct (decide _) as [Hempty | _].
    - rewrite <- code_units_take_units.
      apply (f_equal list_ascii_of_string) in Hempty.
      rewrite list_ascii_of_string_of_list_ascii in Hempty. by rewrite Hempty.
    - by rewrite list_ascii_of_string_of_list_ascii, code_units_take_units. }
  unfold js_length. rewrite Hexcerpt.
  unfold ChatService.source_of_result.
  cbn [src_id src_relevance src_title src_source].
  split; [done |]. split; [done |].
  split; [| split; [| split; [| done]]].
  - unfold js_or_string. destruct (OpenSearchClient.ks_title _); [| done].
    by destruct (decide _).
  - unfold js_or_string. destruct (OpenSearchClient.ks_source _); [| done].
    by destruct (decide _).
  - rewrite length_take. lia.
Qed.

(** A content of 150 letters e with an acute accent, 300 bytes in UTF-8,
    is kept whole; of 250 the first 200 are kept. *)
Example excerpt_of_accented_content :
  let accented n :=
    string_of_list_ascii
      (mjoin (replicate n [ascii_of_nat 195; ascii_of_nat 169])) in
  let hit n :=
    OpenSearchClient.mkSearchResult "doc_1" (9 # 10)
      (OpenSearchClient.mkKnowledgeSource (Some "Conditions") (Some (accented n))
         None) in
  src_excerpt (ChatService.source_of_result (hit 150%nat)) = accented 150%nat /\
  src_excerpt (ChatService.source_of_result (hit 250%nat)) = accented 200%nat.
Proof. split; vm_compute; reflexivity. Qed.

(** ** The turns that the model is sent *)

Lemma js_slice_length {A} (n : Z) (l : list A) :
  n < 0 -> (length (js_slice n l) <= Z.to_nat (- n))%nat.
Proof.
  intros Hn. unfold js_slice. destruct (Z.ltb_spec n 0); [| lia].
  rewrite length_drop. lia.
Qed.

(** X14.  [prepareMessagesForBedrock] sends at most eleven turns, the
    current message always last as a user turn; with no retrieval hit they
    are the last eight turns of the history and the current message, and
    with a hit they start with the context turn and its acknowledgement. *)
Theorem prepareMessages_shape (history : list ChatMessage) (message : string)
    (results : list OpenSearchClient.SearchResult) :
  (length (ChatService.prepareMessagesForBedrock history message results) <= 11)%nat /\
  last (ChatService.prepareMessagesForBedrock history message results)
  = Some (turn user message) /\
  (results = [] ->
   ChatService.prepareMessagesForBedrock history message results
   = ((fun m => turn (cm_role m) (cm_content m)) <$> js_slice (-8) history)
       ++ [turn user message]) /\
  (results <> [] ->
   exists context rest,
     ChatService.prepareMessagesForBedrock history message results
     = turn user (ChatService.context_message context)
       :: turn assistant "I understand. I'll use the provided context to help answer questions about probation and case management."
       :: rest /\
     (length rest <= 9)%nat).
Proof.
  unfold ChatService.prepareMessagesForBedrock, turn.
  pose proof (js_slice_length (-8) history ltac:(lia)) as Hlen.
  split; [| split; [| split]].
  - rewrite !length_app, length_fmap. cbn [length].
    destruct (0 <? Z.of_nat (length results)); cbn [length]; lia.
  - by rewrite app_assoc, last_snoc.
  - intros ->. reflexivity.
  - intros Hne. destruct results as [| r results]; [done |].
    eexists _, _. split; [reflexivity |].
    rewrite length_app, length_fmap. cbn [length]. lia.
Qed.

(** ** Indexing the conversation *)

(** X16.  [indexConversation] never throws and never touches a table.  It
    is not atomic: both embeddings are computed first, and when one fails
    nothing is indexed; when indexing the user's message fails nothing is
    indexed; when indexing the reply fails, the user's message stays
    indexed. *)
Theorem indexConversation_is_not_atomic
    (embedUser embedAssistant : Exn + BedrockClient.EmbeddingResponse)
    (indexUser indexAssistant : option Exn) (sessionId : string)
    (userMessage assistantMessage : ChatMessage) (w : World) :
  (ChatService.indexConversation embedUser embedAssistant indexUser indexAssistant
     sessionId userMessage assistantMessage w).1 = inr tt /\
  tables_kept w
    (ChatService.indexConversation embedUser embedAssistant indexUser indexAssistant
       sessionId userMessage assistantMessage w).2 /\
  chat_context
    (ChatService.indexConversation embedUser embedAssistant indexUser indexAssistant
       sessionId userMessage assistantMessage w).2
  = match embedUser, embedAssistant with
    | inr e1, inr e2 =>
        match indexUser, indexAssistant with
        | Some _, _ => chat_context w
        | None, Some _ =>
            <[cm_id userMessage := (userMessage, BedrockClient.embedding e1)]>
              (chat_context w)
        | None, None =>
            <[cm_id assistantMessage := (assistantMessage, BedrockClient.embedding e2)]>
              (<[cm_id userMessage := (userMessage, BedrockClient.embedding e1)]>
                 (chat_context w))
        end
    | _, _ => chat_context w
    end.
Proof.
  split; [apply indexConversation_result |].
  unfold ChatService.indexConversation, try_catch, bind, tables_kept,
    OpenSearchClient.indexDocument_chat_context, Logger.warn, Logger.debug,
    Logger.log, modify, Logger.write, BedrockClient.generateEmbedding, throw, ret.
  destruct embedUser as [e | e1]; cbn [fst snd].
  { by destruct (_ <? _), embedAssistant. }
  destruct embedAssistant as [e | e2]; cbn [fst snd].
  { by destruct (_ <? _). }
  destruct indexUser as [e |]; cbn [fst snd].
  { by destruct (_ <? _). }
  destruct indexAssistant as [e |]; cbn [fst snd].
  { by destruct (_ <? _). }
  by destruct (_ <? _).
Qed.

(** ** Creating a session *)

(** X17.  [createSession] either fails with the store's error and changes
    nothing, or returns an active session of the caller, created and
    updated at the same instant, which [getSession] then returns to that
    caller and which satisfies the preconditions of [sendMessage]; no
    message and no other session is touched. *)
Theorem createSession_then_getSession (env : ChatService.CreateSessionEnv)
    (userId title : string) (metadata : option Metadata) (w : World) :
  match ChatService.cse_put env with
  | Some e =>
      ChatService.createSession env userId title metadata w
      = (inl (wrap "Failed to put item in chat-sessions" e), w)
  | None =>
      exists session,
        (ChatService.createSession env userId title metadata w).1 = inr session /\
        cs_userId session = userId /\
        cs_isActive session = true /\
        cs_createdAt session = cs_updatedAt session /\
        ChatService.getSession None (cs_id session) userId
          (ChatService.createSession env userId title metadata w).2
        = (inr session, (ChatService.createSession env userId title metadata w).2) /\
        (forall senv, ChatService.sme_get senv = None ->
           preconditions senv (cs_id session) userId
             (ChatService.createSession env userId title metadata w).2) /\
        chat_messages (ChatService.createSession env userId title metadata w).2
        = chat_messages w /\
        (forall id, id <> cs_id session ->
           chat_sessions (ChatService.createSession env userId title metadata w).2 !! id
           = chat_sessions w !! id)
  end.
Proof.
  unfold ChatService.createSession, bind, DynamoDBService.put_chat_sessions.
  rewrite send_eq. destruct (ChatService.cse_put env) as [e |]; [done |].
  cbn [fst snd].
  set (session := mkChatSession _ _ _ _ _ _ _).
  set (w1 := set_chat_sessions _ w).
  unfold Logger.info, Logger.log, modify, ret. cbn [fst snd].
  destruct (write_tables_kept INFO "Chat session created" None w1) as [Hs Hm].
  assert (Hstored : chat_sessions (Logger.write INFO "Chat session created" None w1)
                    !! cs_id session = Some session).
  { rewrite Hs. subst w1. simpl. by rewrite lookup_insert_eq. }
  exists session. split; [done |]. split; [done |]. split; [done |]. split; [done |].
  split; [| split; [| split]].
  - rewrite getSession_eq. unfold getSession_outcome. rewrite Hstored.
    by rewrite decide_False by (intros H; by apply H).
  - intros senv Hget. split; [done |]. by exists session.
  - by rewrite Hm.
  - intros id Hid. rewrite Hs. subst w1. simpl. by rewrite lookup_insert_ne.
Qed.

(** ** Writing an analysis back *)

Lemma buildAnalysisContext_same_store fault documentId metadata w :
  same_store w (AnalysisService.buildAnalysisContext fault documentId metadata w).2.
Proof.
  unfold AnalysisService.buildAnalysisContext. rewrite snd_bind.
  destruct (AnalysisService.truthy documentId) as [id |]; [| apply same_store_refl].
  unfold try_catch, bind, DynamoDBService.get_documents. rewrite send_eq.
  destruct fault; cbn [fst snd]; [| apply same_store_refl].
  apply write_same_store.
Qed.

Lemma storeAnalysisResult_store fault now documentId result w :
  tables_kept w (AnalysisService.storeAnalysisResult fault now documentId result w).2 /\
  documents (AnalysisService.storeAnalysisResult fault now documentId result w).2
  = match fault with
    | Some _ => documents w
    | None =>
        <[documentId := default DynamoDBService.empty_document
                                (documents w !! documentId)]> (documents w)
    end.
Proof.
  unfold AnalysisService.storeAnalysisResult, try_catch, bind,
    DynamoDBService.update_documents, tables_kept.
  rewrite send_eq.
  unfold Logger.warn, Logger.debug, Logger.log, modify, Logger.write.
  destruct fault; cbn [fst snd]; by destruct (_ <? _).
Qed.

(** What [analyzeText] does to the store, by the outcome of the call. *)
Lemma analyzeText_store (env : AnalysisService.AnalyzeTextEnv) (text : string)
    (documentId : option string) (metadata : option Metadata) (w : World) :
  tables_kept w (AnalysisService.analyzeText env text documentId metadata w).2 /\
  documents (AnalysisService.analyzeText env text documentId metadata w).2
  = match (AnalysisService.analyzeText env text documentId metadata w).1,
          AnalysisService.truthy documentId, AnalysisService.ate_update env with
    | inr response, Some id, None =>
        <[id := default DynamoDBService.empty_document (documents w !! id)]>
          (documents w)
    | _, _, _ => documents w
    end.
Proof.
  rewrite analyzeText_result.
  unfold AnalysisService.analyzeText, try_catch, bind.
  change (Logger.info "Starting text analysis" w)
    with (@inr Exn unit tt, Logger.write INFO "Starting text analysis" None w).
  lazy beta iota.
  set (w0 := Logger.write INFO "Starting text analysis" None w).
  pose proof (write_same_store INFO "Starting text analysis" None w) as H0.
  fold w0 in H0.
  destruct (buildAnalysisContext_result (AnalysisService.ate_get env) documentId
              metadata w0) as [context Hcontext].
  pose proof (buildAnalysisContext_same_store (AnalysisService.ate_get env)
                documentId metadata w0) as H1.
  destruct (AnalysisService.buildAnalysisContext _ _ _ w0) as [built w1].
  cbn [fst snd] in Hcontext, H1. subst built. lazy beta iota.
  assert (H01 : same_store w w1) by (eapply same_store_trans; eassumption).
  destruct H01 as (Hs & Hm & Hd & _).
  assert (Hfail : forall e : Exn,
            tables_kept w
              ((Logger.error "Text analysis failed" e ;;; @throw AnalysisResponse e) w1).2 /\
            documents
              ((Logger.error "Text analysis failed" e ;;; @throw AnalysisResponse e) w1).2
            = documents w).
  { intros e. unfold Logger.error, Logger.log, modify, bind, throw. cbn [fst snd].
    destruct (write_same_store ERROR "Text analysis failed" (Some e) w1)
      as (Hs' & Hm' & Hd' & _).
    unfold tables_kept. by rewrite Hs', Hm', Hd', Hs, Hm, Hd. }
  rewrite analyzeViolations_eq.
  destruct (AnalysisService.ate_invokeChat env) as [e | r].
  { lazy beta iota. destruct (Hfail (new_Error ("Bedrock chat invocation failed: "
                                                +:+ exn_to_string e))) as [Ht Hdoc].
    split; [exact Ht |]. transitivity (documents w); [exact Hdoc |].
    by destruct (AnalysisService.truthy documentId), (AnalysisService.ate_update env). }
  destruct (Json.parse (BedrockClient.br_content r)) as [e | v].
  { lazy beta iota.
    destruct (Hfail (new_Error ("Failed to parse violation analysis response: "
                                +:+ exn_to_string e))) as [Ht Hdoc].
    split; [exact Ht |]. transitivity (documents w); [exact Hdoc |].
    by destruct (AnalysisService.truthy documentId), (AnalysisService.ate_update env). }
  lazy beta iota.
  assert (Hv : v = JNull \/ v <> JNull) by (destruct v; auto).
  destruct Hv as [-> | Hv].
  { change (AnalysisService.read JNull "violations" w1)
      with (@inl Exn JSValue
              (JsError "TypeError"
                 "Cannot read properties of null (reading 'violations')"), w1).
    lazy beta iota.
    destruct (Hfail (JsError "TypeError"
                       "Cannot read properties of null (reading 'violations')"))
      as [Ht Hdoc].
    split; [exact Ht |]. transitivity (documents w); [exact Hdoc |].
    by destruct (AnalysisService.truthy documentId), (AnalysisService.ate_update env). }
  rewrite !(read_eq v _ _ Hv). lazy beta iota.
  fold (analysis_of v (AnalysisService.ate_endTime env - AnalysisService.ate_startTime env)).
  set (response := analysis_of v _).
  assert (Hresult : match v with
                    | JNull => inl (JsError "TypeError"
                         "Cannot read properties of null (reading 'violations')")
                    | _ => inr response
                    end = (inr response : Exn + AnalysisResponse))
    by (by destruct v).
  rewrite Hresult.
  destruct (AnalysisService.truthy documentId) as [id |].
  - pose proof (storeAnalysisResult_result (AnalysisService.ate_update env)
                  (AnalysisService.ate_now env) id response w1) as Hstored.
    destruct (storeAnalysisResult_store (AnalysisService.ate_update env)
                (AnalysisService.ate_now env) id response w1) as [[Hs2 Hm2] Hd2].
    destruct (AnalysisService.storeAnalysisResult _ _ id response w1) as [stored w2].
    cbn [fst snd] in Hstored, Hs2, Hm2, Hd2. subst stored. lazy beta iota.
    cbn [fst snd ret]. unfold tables_kept. rewrite Hs2, Hm2, Hd2, Hs, Hm, Hd.
    split; [done |]. by destruct (AnalysisService.ate_update env).
  - cbn [fst snd ret]. unfold tables_kept. by rewrite Hs, Hm, Hd.
Qed.

(** X18.  [analyzeText] never touches the chat tables, and it never
    stores the analysis: a document that is stored is the same after the
    call, whatever the call does.  The one write it can make is on a
    document identifier that is not stored, when it returns, the
    identifier is not empty and the update does not fault: an item is
    then created under the identifier that holds no title, no tags and no
    analysis, every other document being as it was.  When it throws, when
    no identifier is given or when the update faults, the documents are
    as they were. *)
Theorem analyzeText_back_write (env : AnalysisService.AnalyzeTextEnv) (text : string)
    (documentId : option string) (metadata : option Metadata) (w : World) :
  tables_kept w (AnalysisService.analyzeText env text documentId metadata w).2 /\
  (forall id document,
     documents w !! id = Some document ->
     documents (AnalysisService.analyzeText env text documentId metadata w).2 !! id
     = Some document) /\
  (forall response id,
     (AnalysisService.analyzeText env text documentId metadata w).1 = inr response ->
     AnalysisService.truthy documentId = Some id ->
     AnalysisService.ate_update env = None ->
     documents w !! id = None ->
     documents (AnalysisService.analyzeText env text documentId metadata w).2 !! id
     = Some DynamoDBService.empty_document /\
     forall other, other <> id ->
       documents (AnalysisService.analyzeText env text documentId metadata w).2 !! other
       = documents w !! other) /\
  (forall e,
     (AnalysisService.analyzeText env text documentId metadata w).1 = inl e ->
     documents (AnalysisService.analyzeText env text documentId metadata w).2
     = documents w) /\
  (AnalysisService.truthy documentId = None \/ is_Some (AnalysisService.ate_update env) ->
   documents (AnalysisService.analyzeText env text documentId metadata w).2
   = documents w).
Proof.
  destruct (analyzeText_store env text documentId metadata w) as [Htables Hdocs].
  split; [exact Htables |]. split; [| split; [| split]].
  - intros id document Hstored. rewrite Hdocs.
    destruct (AnalysisService.analyzeText env text documentId metadata w).1; [done |].
    destruct (AnalysisService.truthy documentId) as [id' |]; [| done].
    destruct (AnalysisService.ate_update env); [done |].
    destruct (decide (id' = id)) as [-> | Hne].
    + by rewrite lookup_insert_eq, Hstored.
    + by rewrite lookup_insert_ne.
  - intros response id Hrun Hid Hupdate Habsent. rewrite Hrun, Hid, Hupdate in Hdocs.
    rewrite Hdocs. split.
    + by rewrite lookup_insert_eq, Habsent.
    + intros other Hother. by rewrite lookup_insert_ne.
  - intros e Hrun. by rewrite Hrun in Hdocs.
  - intros Hnone. rewrite Hdocs.
    destruct (AnalysisService.analyzeText env text documentId metadata w).1; [done |].
    destruct Hnone as [-> | [e ->]]; [done |].
    by destruct (AnalysisService.truthy documentId).
Qed.

(** The analysis of a stored document is returned and the document is as
    it was; for an identifier that is not stored an item with no analysis
    is created. *)
Example analysis_is_not_stored :
  let stored := mkDocumentItem (Some "Order of the court") None None None None in
  let w := mkWorld ∅ ∅ {[ "doc_1" := stored ]} ∅ INFO [] in
  let answer := "{" +:+ dq +:+ "violations" +:+ dq +:+ ": []}" in
  (AnalysisService.analyzeText (analysis_env_ok answer)
     "He missed two appointments." (Some "doc_1") None w).1
  = inr (mkAnalysisResponse (Some (JArr [])) None None None 750) /\
  documents (AnalysisService.analyzeText (analysis_env_ok answer)
               "He missed two appointments." (Some "doc_1") None w).2
  = {[ "doc_1" := stored ]} /\
  documents (AnalysisService.analyzeText (analysis_env_ok answer)
               "He missed two appointments." (Some "doc_1") None empty_world).2
  = {[ "doc_1" := DynamoDBService.empty_document ]}.
Proof. repeat split; vm_compute; reflexivity. Qed.

(** * Properties of the HTTP layer *)

Lemma createErrorResponse_eq {T} (error : Exn) (requestId : option string) (w : World) :
  @createErrorResponse T error requestId w
  = (inr (error_response
            (if is_AppError error then exn_statusCode error else 500)
            (if is_AppError error then exn_code error else ERROR_CODES "INTERNAL_ERROR")
            (if is_AppError error then exn_message error else "Internal server error")
            (or_unknown requestId)),
     Logger.write ERROR "Request failed" (Some error) w).
Proof.
  unfold createErrorResponse, bind, Logger.error, Logger.log, modify, ret, or_unknown.
  cbn [fst snd]. do 2 f_equal. f_equal.
  destruct requestId as [id |]; [| done]. simpl. by destruct (decide _).
Qed.

Lemma createErrorResponse_plain {T} (name message : string) (requestId : option string)
    (w : World) :
  @createErrorResponse T (JsError name message) requestId w
  = (inr (internal_error requestId),
     Logger.write ERROR "Request failed" (Some (JsError name message)) w).
Proof. by rewrite createErrorResponse_eq. Qed.

Lemma createSuccessResponse_eq {T} (data : T) (statusCode : Z)
    (requestId : option string) :
  createSuccessResponse data statusCode requestId
  = success_response statusCode data (or_unknown requestId).
Proof.
  unfold createSuccessResponse, or_unknown. f_equal.
  destruct requestId as [id |]; [| done]. simpl. by destruct (decide _).
Qed.

Lemma info_eq (message : string) (w : World) :
  Logger.info message w = (inr tt, Logger.write INFO message None w).
Proof. done. Qed.

Lemma try_finally_timer {A} (m : M A) (label : string) (w : World) :
  try_finally m (timer label) w
  = ((m w).1, Logger.write INFO (label +:+ " completed") None (m w).2).
Proof. unfold try_finally, timer. by destruct (m w). Qed.

Lemma validateEventBody_eq {T} (event : APIGatewayProxyEvent) (schema : ZodSchema T)
    (w : World) :
  validateEventBody event schema w = (validated event schema, w).
Proof.
  unfold validateEventBody, validated, parseAndValidate, validateSchema.
  destruct (truthy_string (body event)); [| done].
  destruct (Json.parse _); [done |]. by destruct (schema _).
Qed.

(** No failure of validation is an [AppError]. *)
Lemma validated_plain {T} (event : APIGatewayProxyEvent) (schema : ZodSchema T) (e : Exn) :
  validated event schema = inl e -> exists message, e = JsError "ValidationError" message.
Proof.
  unfold validated, new_ValidationError.
  destruct (truthy_string (body event)); [| intros [= <-]; by eexists].
  destruct (Json.parse _); [intros [= <-]; by eexists |].
  destruct (schema _); [intros [= <-]; by eexists | done].
Qed.

(** No failure of [analyzeText] is an [AppError]. *)
Lemma analyzeText_plain env text documentId metadata w (e : Exn) :
  (AnalysisService.analyzeText env text documentId metadata w).1 = inl e ->
  exists name message, e = JsError name message.
Proof.
  rewrite analyzeText_result.
  destruct (AnalysisService.ate_invokeChat env); [intros [= <-]; by eexists _, _ |].
  destruct (Json.parse _) as [? | v]; [intros [= <-]; by eexists _, _ |].
  destruct v; try done. intros [= <-]. by eexists _, _.
Qed.

Lemma analyzeText_any_world env text documentId metadata (w w' : World) :
  (AnalysisService.analyzeText env text documentId metadata w).1
  = (AnalysisService.analyzeText env text documentId metadata w').1.
Proof. by rewrite !analyzeText_result. Qed.

(** ** The analysis handler *)

Lemma analysis_handler_result
    (schema : ZodSchema AnalysisHandler.AnalysisRequest)
    (env : AnalysisService.AnalyzeTextEnv) (event : APIGatewayProxyEvent)
    (context : Context) (w : World) :
  (AnalysisHandler.handler schema env event context w).1
  = inr (match validated event schema with
         | inl _ => internal_error (rc_requestId (requestContext event))
         | inr request =>
             match (AnalysisService.analyzeText env
                      (AnalysisHandler.text request)
                      (AnalysisHandler.documentId request)
                      (AnalysisHandler.metadata request) w).1 with
             | inl _ => internal_error (rc_requestId (requestContext event))
             | inr result =>
                 match ar_violations result with
                 | None | Some JNull =>
                     internal_error (rc_requestId (requestContext event))
                 | Some _ =>
                     success_response 200 result (or_unknown (Some (awsRequestId context)))
                 end
             end
         end).
Proof.
  unfold AnalysisHandler.handler, withErrorHandling.
  rewrite fst_try_catch, fst_bind, snd_bind, !info_eq. cbn [fst snd].
  set (w1 := Logger.write INFO "Analysis request received" None w).
  rewrite !try_finally_timer. cbn [fst snd].
  rewrite fst_bind, snd_bind, validateEventBody_eq. cbn [fst snd].
  destruct (validated event schema) as [e | request] eqn:Hvalid.
  { destruct (validated_plain _ _ _ Hvalid) as [message ->].
    lazy beta. by rewrite createErrorResponse_plain. }
  rewrite fst_bind, snd_bind.
  rewrite (analyzeText_any_world env _ _ _ w w1).
  destruct (AnalysisService.analyzeText env _ _ _ w1) as [[e | result] w2] eqn:Hrun;
    cbn [fst snd].
  { destruct (analyzeText_plain env (AnalysisHandler.text request)
                (AnalysisHandler.documentId request)
                (AnalysisHandler.metadata request) w1 e) as (name & message & ->);
      [by rewrite Hrun |].
    lazy beta. by rewrite createErrorResponse_plain. }
  rewrite fst_bind, snd_bind. unfold AnalysisHandler.read_length.
  destruct (ar_violations result) as [[] |]; cbn [fst snd throw ret]; lazy beta;
    try (by rewrite createErrorResponse_plain);
    rewrite fst_bind; unfold Logger.businessEvent; rewrite info_eq; cbn [fst snd ret];
    by rewrite createSuccessResponse_eq.
Qed.

(** X19.  The analysis handler never throws, and it has two answers.  It
    answers 200 with the analysis when the body is valid and [analyzeText]
    returns an analysis whose [violations] has a length to read.  To
    everything else (a missing or invalid body, a failure of
    [analyzeText], an analysis whose [violations] is missing or [null])
    it gives one and the same answer: the status 500 with the message
    Internal server error, whatever the cause. *)
Theorem analysis_handler_answers_200_or_500
    (schema : ZodSchema AnalysisHandler.AnalysisRequest)
    (env : AnalysisService.AnalyzeTextEnv) (event : APIGatewayProxyEvent)
    (context : Context) (w : World) :
  (exists response,
     (AnalysisHandler.handler schema env event context w).1 = inr response) /\
  (forall request result,
     validated event schema = inr request ->
     (AnalysisService.analyzeText env (AnalysisHandler.text request)
        (AnalysisHandler.documentId request)
        (AnalysisHandler.metadata request) w).1 = inr result ->
     ~ has_no_length (ar_violations result) ->
     (AnalysisHandler.handler schema env event context w).1
     = inr (success_response 200 result (or_unknown (Some (awsRequestId context))))) /\
  (forall e,
     validated event schema = inl e ->
     (AnalysisHandler.handler schema env event context w).1
     = inr (internal_error (rc_requestId (requestContext event)))) /\
  (forall request e,
     validated event schema = inr request ->
     (AnalysisService.analyzeText env (AnalysisHandler.text request)
        (AnalysisHandler.documentId request)
        (AnalysisHandler.metadata request) w).1 = inl e ->
     (AnalysisHandler.handler schema env event context w).1
     = inr (internal_error (rc_requestId (requestContext event)))) /\
  (forall request result,
     validated event schema = inr request ->
     (AnalysisService.analyzeText env (AnalysisHandler.text request)
        (AnalysisHandler.documentId request)
        (AnalysisHandler.metadata request) w).1 = inr result ->
     has_no_length (ar_violations result) ->
     (AnalysisHandler.handler schema env event context w).1
     = inr (internal_error (rc_requestId (requestContext event)))).
Proof.
  rewrite analysis_handler_result.
  split; [by eexists |]. split; [| split; [| split]].
  - intros request result -> -> Hlength. unfold has_no_length in Hlength.
    destruct (ar_violations result) as [v |]; [| by destruct Hlength; left].
    destruct v; try done. destruct Hlength. by right.
  - by intros e ->.
  - by intros request e -> ->.
  - intros request result -> -> [-> | ->]; done.
Qed.

(** A valid body, and a model that answers with an empty list of
    violations: the handler answers 200 with the analysis. *)
Example analysis_handler_answers_200 :
  let answer := "{" +:+ dq +:+ "violations" +:+ dq +:+ ": []}" in
  (AnalysisHandler.handler sample_analysis_schema (analysis_env_ok answer)
     (sample_event "POST" "/analysis" None sample_analysis_body)
     sample_context empty_world).1
  = inr (success_response 200
           (mkAnalysisResponse (Some (JArr [])) None None None 750)
           "aws-request-1").
Proof. vm_compute. reflexivity. Qed.

(** X20.  The analysis handler can fail after the work is done.  When the
    body is valid and names a document, and the model answers JSON (not
    [null]) in which [violations] is missing or [null], [analyzeText]
    returns an analysis; the handler then throws on reading the length of
    [violations], and the request is answered 500.  The analysis is not
    kept anywhere: a stored document is as it was, and for an identifier
    that is not stored the update has created an item that holds the
    identifier only. *)
Theorem analysis_handler_fails_after_write_back
    (schema : ZodSchema AnalysisHandler.AnalysisRequest)
    (env : AnalysisService.AnalyzeTextEnv) (event : APIGatewayProxyEvent)
    (context : Context) (w : World) (request : AnalysisHandler.AnalysisRequest)
    (id : string) (r : BedrockClient.BedrockResponse) (v : JSON) :
  validated event schema = inr request ->
  AnalysisService.truthy (AnalysisHandler.documentId request) = Some id ->
  AnalysisService.ate_invokeChat env = inr r ->
  Json.parse (BedrockClient.br_content r) = inr v ->
  v <> JNull ->
  has_no_length (member v "violations") ->
  AnalysisService.ate_update env = None ->
  (AnalysisService.analyzeText env (AnalysisHandler.text request)
     (AnalysisHandler.documentId request) (AnalysisHandler.metadata request) w).1
  = inr (analysis_of v (AnalysisService.ate_endTime env
                        - AnalysisService.ate_startTime env)) /\
  (AnalysisHandler.handler schema env event context w).1
  = inr (internal_error (rc_requestId (requestContext event))) /\
  documents (AnalysisHandler.handler schema env event context w).2
  = <[id := default DynamoDBService.empty_document (documents w !! id)]>
      (documents w).
Proof.
  intros Hvalid Hid Hmodel Hparse Hnull Hlength Hupdate.
  assert (Hresult : forall w0,
            (AnalysisService.analyzeText env (AnalysisHandler.text request)
               (AnalysisHandler.documentId request)
               (AnalysisHandler.metadata request) w0).1
            = inr (analysis_of v (AnalysisService.ate_endTime env
                                  - AnalysisService.ate_startTime env))).
  { intros w0. rewrite analyzeText_result, Hmodel, Hparse. by destruct v. }
  split; [apply Hresult |]. split.
  - rewrite analysis_handler_result, Hvalid, Hresult. cbn [ar_violations analysis_of].
    by destruct Hlength as [-> | ->].
  - unfold AnalysisHandler.handler, withErrorHandling.
    rewrite snd_try_catch, fst_bind, snd_bind, !info_eq. cbn [fst snd].
    set (w1 := Logger.write INFO "Analysis request received" None w).
    rewrite !try_finally_timer. cbn [fst snd].
    rewrite fst_bind, snd_bind, validateEventBody_eq, Hvalid. cbn [fst snd].
    rewrite fst_bind, snd_bind, Hresult.
    destruct (analyzeText_store env (AnalysisHandler.text request)
                (AnalysisHandler.documentId request)
                (AnalysisHandler.metadata request) w1) as [_ Hdocs].
    rewrite Hresult, Hid, Hupdate in Hdocs.
    set (w2 := (AnalysisService.analyzeText env _ _ _ w1).2) in *.
    assert (Hthrows : exists e,
              AnalysisHandler.read_length
                (ar_violations
                   (analysis_of v (AnalysisService.ate_endTime env
                                   - AnalysisService.ate_startTime env))) w2
              = (inl e, w2)).
    { cbn [ar_violations analysis_of]. destruct Hlength as [-> | ->]; by eexists. }
    destruct Hthrows as [e Hthrows].
    rewrite fst_bind, snd_bind, Hthrows. cbn [fst snd].
    rewrite createErrorResponse_eq. cbn [fst snd].
    destruct (write_same_store ERROR "Request failed" (Some e)
                (Logger.write INFO ("Analysis processing" +:+ " completed") None w2))
      as (_ & _ & -> & _).
    destruct (write_same_store INFO ("Analysis processing" +:+ " completed") None w2)
      as (_ & _ & -> & _).
    rewrite Hdocs.
    destruct (write_same_store INFO "Analysis request received" None w)
      as (_ & _ & Hd & _).
    fold w1 in Hd. by rewrite Hd.
Qed.

Lemma analysis_handler_fails_after_write_back_witness :
  (AnalysisHandler.handler sample_analysis_schema (analysis_env_ok "42")
     (sample_event "POST" "/analysis" None sample_analysis_body)
     sample_context empty_world).1
  = inr (internal_error (Some "gateway-request-1")) /\
  documents
    (AnalysisHandler.handler sample_analysis_schema (analysis_env_ok "42")
       (sample_event "POST" "/analysis" None sample_analysis_body)
       sample_context empty_world).2
  = {[ "doc_1" := DynamoDBService.empty_document ]}.
Proof.
  refine (proj2 (analysis_handler_fails_after_write_back sample_analysis_schema
                   (analysis_env_ok "42")
                   (sample_event "POST" "/analysis" None sample_analysis_body)
                   sample_context empty_world
                   (AnalysisHandler.mkAnalysisRequest "He missed two appointments."
                      (Some "doc_1") None)
                   "doc_1" (BedrockClient.mkBedrockResponse "42" 310 12) (JNum "42")
                   _ _ _ _ _ _ _)).
  - vm_compute. reflexivity.
  - vm_compute. reflexivity.
  - reflexivity.
  - vm_compute. reflexivity.
  - discriminate.
  - left. reflexivity.
  - reflexivity.
Defined.

(** ** The chat handler *)

Lemma last_of_suffix {A} (l k : list A) (x : A) :
  k `suffix_of` l -> last k = Some x -> last l = Some x.
Proof. intros [front ->] Hlast. by rewrite last_app, Hlast. Qed.

(** A path that ends with [/messages] does not end with [/chat]. *)
Lemma endsWith_messages (s : string) :
  endsWith s "/messages" = true -> endsWith s "/chat" = false.
Proof.
  intros Hm. destruct (endsWith s "/chat") eqn:Hc; [| done].
  apply endsWith_spec in Hm, Hc.
  apply (last_of_suffix _ _ "s"%char) in Hm; [| done].
  apply (last_of_suffix _ _ "t"%char) in Hc; [| done].
  congruence.
Qed.

Lemma sendMessage_outcome_logged env sessionId userId level message error w :
  sendMessage_outcome env sessionId userId (Logger.write level message error w)
  = sendMessage_outcome env sessionId userId w.
Proof.
  unfold sendMessage_outcome, getSession_outcome.
  by destruct (write_same_store level message error w) as (-> & _).
Qed.

(** What the handler answers on the route that sends a message. *)
Lemma send_route_result (schema : ZodSchema ChatHandler.ChatRequest)
    (env : ChatHandler.Env) (event : APIGatewayProxyEvent) (context : Context)
    (w : World) :
  httpMethod event = "POST" ->
  js_includes (path event) "/chat/" = true ->
  endsWith (path event) "/messages" = true ->
  (ChatHandler.handler schema env event context w).1
  = inr match validated event schema with
        | inl _ => internal_error (rc_requestId (requestContext event))
        | inr request =>
            match named_session event request, caller event with
            | Some sessionId, Some userId =>
                match sendMessage_outcome (ChatHandler.env_sendMessage env)
                        sessionId userId w with
                | inr reply =>
                    success_response 200 (ChatHandler.response_data reply)
                      (or_unknown (Some (awsRequestId context)))
                | inl e => error_answer e (rc_requestId (requestContext event))
                end
            | _, _ => internal_error (Some (awsRequestId context))
            end
        end.
Proof.
  intros Hmethod Hincludes Hends.
  unfold ChatHandler.handler, withErrorHandling.
  rewrite fst_try_catch, fst_bind, snd_bind, !info_eq. cbn [fst snd].
  rewrite !try_finally_timer. cbn [fst snd].
  unfold ChatHandler.route.
  rewrite Hmethod, (endsWith_messages _ Hends), Hincludes, Hends.
  rewrite decide_True by done. cbn [andb].
  unfold ChatHandler.handleSendMessage, validatePathParams.
  rewrite fst_bind, snd_bind. cbn [fst snd ret].
  rewrite fst_bind, snd_bind, validateEventBody_eq. cbn [fst snd].
  destruct (validated event schema) as [e | request] eqn:Hvalid.
  { destruct (validated_plain _ _ _ Hvalid) as [message ->].
    lazy beta. by rewrite createErrorResponse_plain. }
  unfold named_session, caller.
  destruct (truthy_string match truthy_string (pathParameters_sessionId event) with
                          | Some id => Some id
                          | None => ChatHandler.sessionId request
                          end) as [sessionId |].
  2: { unfold new_Error. by rewrite createErrorResponse_plain. }
  destruct (truthy_string (rc_authorizer_userId (requestContext event))) as [userId |].
  2: { unfold new_Error. by rewrite createErrorResponse_plain. }
  rewrite fst_bind, snd_bind, sendMessage_result, sendMessage_outcome_logged.
  destruct (sendMessage_outcome _ sessionId userId w) as [e | reply].
  { lazy beta. by rewrite createErrorResponse_eq. }
  rewrite fst_bind. unfold Logger.businessEvent. rewrite info_eq. cbn [fst snd ret].
  by rewrite createSuccessResponse_eq.
Qed.

(** X21.  What the chat handler answers on the route that sends a message
    (POST on a path that contains [/chat/] and ends with [/messages]).  It
    never throws.  A missing or invalid body is answered 500, not 400.  For
    a valid request that names a session and a caller: the reply of
    [sendMessage] is answered 200; a session that is not there 404; the
    session of another user 403; an inactive session 400; and once the
    session accepts the message, every failure (of the store, of the
    model) is answered with the same 500 and the message Internal server
    error, whatever its cause. *)
Theorem send_route_statuses (schema : ZodSchema ChatHandler.ChatRequest)
    (env : ChatHandler.Env) (event : APIGatewayProxyEvent) (context : Context)
    (w : World) :
  httpMethod event = "POST" ->
  js_includes (path event) "/chat/" = true ->
  endsWith (path event) "/messages" = true ->
  exists response,
    (ChatHandler.handler schema env event context w).1 = inr response /\
    (forall e, validated event schema = inl e ->
       response = internal_error (rc_requestId (requestContext event))) /\
    (forall request sessionId userId,
       validated event schema = inr request ->
       named_session event request = Some sessionId ->
       caller event = Some userId ->
       (forall reply,
          (ChatService.sendMessage (ChatHandler.env_sendMessage env) sessionId userId
             (ChatHandler.message request) w).1 = inr reply ->
          response = success_response 200 (ChatHandler.response_data reply)
                       (or_unknown (Some (awsRequestId context)))) /\
       (ChatService.sme_get (ChatHandler.env_sendMessage env) = None ->
        chat_sessions w !! sessionId = None ->
        response_status response = 404) /\
       (ChatService.sme_get (ChatHandler.env_sendMessage env) = None ->
        forall session,
          chat_sessions w !! sessionId = Some session ->
          (cs_userId session <> userId -> response_status response = 403) /\
          (cs_userId session = userId -> cs_isActive session = false ->
           response_status response = 400)) /\
       (preconditions (ChatHandler.env_sendMessage env) sessionId userId w ->
        forall e,
          (ChatService.sendMessage (ChatHandler.env_sendMessage env) sessionId userId
             (ChatHandler.message request) w).1 = inl e ->
          response = internal_error (rc_requestId (requestContext event)))).
Proof.
  intros Hmethod Hincludes Hends. eexists.
  split; [by apply send_route_result |].
  split; [by intros e -> |].
  intros request sessionId userId -> -> ->.
  split; [| split; [| split]].
  - intros reply. rewrite sendMessage_result. by intros ->.
  - intros Hget Hs. unfold sendMessage_outcome, getSession_outcome.
    by rewrite Hget, Hs.
  - intros Hget session Hs. unfold sendMessage_outcome, getSession_outcome.
    rewrite Hget, Hs. split.
    + intros Hother. by rewrite decide_True.
    + intros Howner Hclosed. rewrite decide_False by (intros H; by apply H).
      by rewrite Hclosed.
  - intros Hpre e. rewrite sendMessage_result. intros Hrun. rewrite Hrun.
    rewrite (preconditions_outcome _ _ _ _ Hpre) in Hrun.
    assert (Hplain : exists name message, e = JsError name message).
    { unfold query_failure, wrap, new_Error in Hrun.
      destruct (ChatService.sme_putUser _); injection Hrun as <-; by eexists _, _. }
    by destruct Hplain as (name & message & ->).
Qed.

Lemma send_route_statuses_witness :
  exists response,
    (ChatHandler.handler sample_chat_schema (sample_chat_env (model_down_env 5001))
       (sample_event "POST" "/chat/sess_1/messages" (Some "sess_1") sample_chat_body)
       sample_context world_1).1 = inr response /\
    response_status response = 500.
Proof.
  destruct (send_route_statuses sample_chat_schema
              (sample_chat_env (model_down_env 5001))
              (sample_event "POST" "/chat/sess_1/messages" (Some "sess_1")
                 sample_chat_body)
              sample_context world_1 eq_refl eq_refl eq_refl)
    as (response & Hrun & _ & Hvalid).
  exists response. split; [exact Hrun |].
  destruct (Hvalid (ChatHandler.mkChatRequest "hello" None None) "sess_1" "user_1")
    as (_ & _ & _ & Hfail); [vm_compute; reflexivity | reflexivity | reflexivity |].
  assert (Hpre : preconditions
                   (ChatHandler.env_sendMessage (sample_chat_env (model_down_env 5001)))
                   "sess_1" "user_1" world_1)
    by (apply world_1_preconditions; reflexivity).
  rewrite (Hfail Hpre (query_failure None)); [reflexivity | vm_compute; reflexivity].
Defined.

(** X22.  The chat handler has no answer of its own for a request it
    cannot route: a method other than POST, GET and DELETE, or a path that
    neither contains [/chat/] nor ends with [/chat], is answered 500 with
    the message Internal server error (not 404 or 405), and nothing but
    the log is touched. *)
Theorem request_without_route_is_a_500 (schema : ZodSchema ChatHandler.ChatRequest)
    (env : ChatHandler.Env) (event : APIGatewayProxyEvent) (context : Context)
    (w : World) :
  httpMethod event ∉ ["POST"; "GET"; "DELETE"] \/
  (js_includes (path event) "/chat/" = false /\ endsWith (path event) "/chat" = false) ->
  (ChatHandler.handler schema env event context w).1
  = inr (internal_error (Some (awsRequestId context))) /\
  same_store w (ChatHandler.handler schema env event context w).2.
Proof.
  intros Hroute.
  assert (Herror : exists message,
            ChatHandler.route schema env event (awsRequestId context)
            = createErrorResponse (new_Error message) (Some (awsRequestId context))).
  { unfold ChatHandler.route.
    destruct Hroute as [Hmethod | [Hincludes Hends]].
    - rewrite !decide_False; [by eexists | | |];
        intros Heq; apply Hmethod; rewrite Heq; set_solver.
    - rewrite Hincludes, Hends. cbn [andb].
      destruct (decide _); [by eexists |].
      destruct (decide _); [by eexists |].
      destruct (decide _); by eexists. }
  destruct Herror as [message Herror].
  unfold ChatHandler.handler, withErrorHandling.
  rewrite fst_try_catch, snd_try_catch, !fst_bind, !snd_bind, !info_eq. cbn [fst snd].
  rewrite !try_finally_timer, Herror. unfold new_Error.
  rewrite !createErrorResponse_plain. cbn [fst snd].
  split; [done |].
  eapply same_store_trans; [apply write_same_store |].
  eapply same_store_trans; [apply write_same_store |].
  apply write_same_store.
Qed.

Lemma request_without_route_is_a_500_witness :
  (ChatHandler.handler sample_chat_schema (sample_chat_env (calm_env 5000 5901))
     (sample_event "PUT" "/chat/sess_1" (Some "sess_1") sample_chat_body)
     sample_context world_1).1
  = inr (internal_error (Some "aws-request-1")).
Proof.
  refine (proj1 (request_without_route_is_a_500 sample_chat_schema
                   (sample_chat_env (calm_env 5000 5901))
                   (sample_event "PUT" "/chat/sess_1" (Some "sess_1") sample_chat_body)
                   sample_context world_1 _)).
  left. cbn [httpMethod sample_event]. rewrite !elem_of_cons, elem_of_nil.
  intros [H | [H | [H | H]]]; [discriminate H | discriminate H | discriminate H | exact H].
Defined.

(** ** The log of an exchange *)

#[global] Instance respects_level_preorder : PreOrder respects_level.
Proof.
  split.
  - intros w. split; [done |]. exists []. by rewrite app_nil_r.
  - intros w1 w2 w3 [Hl1 (l1 & Hc1 & Hf1)] [Hl2 (l2 & Hc2 & Hf2)].
    split; [congruence |]. exists (l1 ++ l2).
    split; [by rewrite Hc2, Hc1, app_assoc |].
    apply Forall_app. split; [done |]. by rewrite <- Hl1.
Qed.

Lemma write_respects_level : allows_log respects_level.
Proof.
  intros level message error w. unfold Logger.write.
  destruct (Z.ltb_spec (LogLevel_value level) (LogLevel_value (logger_level w))).
  - reflexivity.
  - split; [done |]. eexists. split; [reflexivity |].
    apply Forall_singleton. simpl. lia.
Qed.

(** X23.  [sendMessage] respects the configured log level: whatever
    happens, it leaves the level of the logger as it was, it removes
    nothing from the console, and every entry it writes is at the
    configured level or above. *)
Theorem sendMessage_respects_log_level (env : ChatService.SendMessageEnv)
    (sessionId userId message : string) (w : World) :
  logger_level (ChatService.sendMessage env sessionId userId message w).2
  = logger_level w /\
  exists entries,
    console (ChatService.sendMessage env sessionId userId message w).2
    = console w ++ entries /\
    forall entry, entry ∈ entries ->
      LogLevel_value (logger_level w) <= LogLevel_value (le_level entry).
Proof.
  assert (Hsteps : steps respects_level
                     (ChatService.sendMessage env sessionId userId message)).
  { apply (steps_sendMessage respects_level).
    - apply write_respects_level.
    - intros id document w0. split; [done |]. exists []. by rewrite app_nil_r.
    - intros attrs w0. split; [done |]. exists []. by rewrite app_nil_r.
    - intros attrs w0. split; [done |]. exists []. by rewrite app_nil_r. }
  destruct (Hsteps w) as [Hlevel (entries & Hconsole & Hentries)].
  split; [exact Hlevel |]. exists entries. split; [exact Hconsole |].
  by apply Forall_forall.
Qed.

Lemma write_error_last message error w :
  last (console (Logger.write ERROR message (Some error) w))
  = Some (error_entry message error).
Proof.
  unfold Logger.write.
  destruct (Z.ltb_spec (LogLevel_value ERROR) (LogLevel_value (logger_level w))) as [H | _].
  - destruct (logger_level w); simpl in H; lia.
  - simpl. by rewrite last_snoc.
Qed.

(** X24.  A failure of [sendMessage] is logged or not by where it happens.
    When the session accepts the message and storing it fails, the call
    fails with nothing written anywhere, the log included.  When a later
    step fails, the last entry of the console is the ERROR entry Failed to
    process chat message with the name and the message of the error
    thrown, at every log level. *)
Theorem sendMessage_failure_is_logged (env : ChatService.SendMessageEnv)
    (sessionId userId message : string) (w : World) (e : Exn) :
  preconditions env sessionId userId w ->
  (ChatService.sendMessage env sessionId userId message w).1 = inl e ->
  match ChatService.sme_putUser env with
  | Some _ => (ChatService.sendMessage env sessionId userId message w).2 = w
  | None =>
      last (console (ChatService.sendMessage env sessionId userId message w).2)
      = Some (error_entry "Failed to process chat message" e)
  end.
Proof.
  intros (Hget & session & Hs & Hu & Ha).
  unfold ChatService.sendMessage.
  rewrite fst_bind, snd_bind, getSession_eq. cbn [fst snd].
  unfold getSession_outcome. rewrite Hget, Hs.
  rewrite decide_False by (intros H; by apply H). rewrite Ha. cbn [negb].
  rewrite fst_bind, snd_bind. unfold DynamoDBService.put_chat_messages.
  rewrite send_eq.
  destruct (ChatService.sme_putUser env) as [fault |]; [done |]. cbn [fst snd].
  rewrite fst_try_catch, snd_try_catch.
  destruct (ChatService.exchange env sessionId message _ _).1 as [e' | reply];
    [| done].
  rewrite fst_bind, snd_bind. cbn [fst snd throw Logger.error Logger.log modify].
  intros [= <-]. apply write_error_last.
Qed.

Lemma sendMessage_failure_is_logged_witness :
  last (console (ChatService.sendMessage (model_down_env 5001) "sess_1" "user_1"
                   "hello" world_1).2)
  = Some (error_entry "Failed to process chat message" (query_failure None)).
Proof.
  exact (sendMessage_failure_is_logged (model_down_env 5001) "sess_1" "user_1" "hello"
           world_1 _ (world_1_preconditions (model_down_env 5001) eq_refl) eq_refl).
Defined.
